(** * Lumi: the dual-backend persistence layer

    A shallow embedding of [js/models/core/UserStorageModel.js],
    [js/models/core/SupabaseStorageModel.js] and
    [js/utils/DataMigrationUtil.js].

    - JavaScript strings are Rocq strings holding the text in UTF-8.
    - [sessionStorage] and [localStorage] are finite maps from keys to the
      stored text.  The text under ['lumi_users'] is kept in parsed form:
      text on which [JSON.parse] throws, the text [null], or the
      serialisation of a users object of the persisted layout.  A users
      object is a finite map of its own properties.
    - Methods are state transformers that return a value or throw; every
      [async] method is awaited by its caller, so calls run in sequence.
    - The Supabase service is the environment: two tables, the accounts of
      its auth service, a log of the requests it received and a script of
      faults that makes chosen requests fail.
    - [Date.now()] reads a clock of the environment; ISO timestamps are the
      clock values themselves.
    - Of the console, the messages of [console.error] are recorded. *)

From Stdlib Require Import ZArith List String Ascii Bool Lia.
From stdpp Require Import base option list gmap strings pretty.

Local Open Scope string_scope.
Local Open Scope list_scope.
Local Open Scope Z_scope.

(** ** JavaScript values *)

Module Js.

(** WhiteSpace and LineTerminator characters, the ones
    [String.prototype.trim] and the regular expression [\s] recognise,
    by their UTF-8 encodings of one, two or three bytes. *)
Definition isWhiteSpace1 (c : ascii) : bool :=
  let n := nat_of_ascii c in
  ((9 <=? n) && (n <=? 13))%nat || (n =? 32)%nat.

(** U+00A0 *)
Definition isWhiteSpace2 (c1 c2 : ascii) : bool :=
  ((nat_of_ascii c1 =? 194) && (nat_of_ascii c2 =? 160))%nat.

(** U+1680, U+2000..U+200A, U+2028, U+2029, U+202F, U+205F, U+3000,
    U+FEFF *)
Definition isWhiteSpace3 (c1 c2 c3 : ascii) : bool :=
  let a := nat_of_ascii c1 in
  let b := nat_of_ascii c2 in
  let c := nat_of_ascii c3 in
  ((a =? 225) && (b =? 154) && (c =? 128))%nat
  || ((a =? 226) && (b =? 128)
      && (((128 <=? c) && (c <=? 138)) || (c =? 168) || (c =? 169) || (c =? 175)))%nat
  || ((a =? 226) && (b =? 129) && (c =? 159))%nat
  || ((a =? 227) && (b =? 128) && (c =? 128))%nat
  || ((a =? 239) && (b =? 187) && (c =? 191))%nat.

Fixpoint trimStart (s : string) : string :=
  match s with
  | EmptyString => EmptyString
  | String c1 s1 =>
      if isWhiteSpace1 c1 then trimStart s1
      else
        match s1 with
        | EmptyString => s
        | String c2 s2 =>
            if isWhiteSpace2 c1 c2 then trimStart s2
            else
              match s2 with
              | EmptyString => s
              | String c3 s3 =>
                  if isWhiteSpace3 c1 c2 c3 then trimStart s3 else s
              end
        end
  end.

(** The same from the end, on the reversed text. *)
Fixpoint trimStart_rev (s : string) : string :=
  match s with
  | EmptyString => EmptyString
  | String c1 s1 =>
      if isWhiteSpace1 c1 then trimStart_rev s1
      else
        match s1 with
        | EmptyString => s
        | String c2 s2 =>
            if isWhiteSpace2 c2 c1 then trimStart_rev s2
            else
              match s2 with
              | EmptyString => s
              | String c3 s3 =>
                  if isWhiteSpace3 c3 c2 c1 then trimStart_rev s3 else s
              end
        end
  end.

Definition trimEnd (s : string) : string :=
  String.rev (trimStart_rev (String.rev s)).

Definition trim (s : string) : string := trimEnd (trimStart s).

(** [toLowerCase], on the letters of ASCII; other letters are left as
    they are. *)
Definition lowerChar (c : ascii) : ascii :=
  let n := nat_of_ascii c in
  if ((65 <=? n) && (n <=? 90))%nat then ascii_of_nat (n + 32) else c.

Fixpoint toLowerCase (s : string) : string :=
  match s with
  | EmptyString => EmptyString
  | String c s' => String (lowerChar c) (toLowerCase s')
  end.

(** [replace(/\s+/g, '_')]: [inRun] says that the previous character was
    white space, already replaced. *)
Fixpoint replaceSpaces (inRun : bool) (s : string) : string :=
  match s with
  | EmptyString => EmptyString
  | String c1 s1 =>
      if isWhiteSpace1 c1
      then (if inRun then replaceSpaces true s1 else String "_" (replaceSpaces true s1))
      else
        match s1 with
        | EmptyString => s
        | String c2 s2 =>
            if isWhiteSpace2 c1 c2
            then (if inRun then replaceSpaces true s2
                  else String "_" (replaceSpaces true s2))
            else
              match s2 with
              | EmptyString => String c1 (replaceSpaces false s1)
              | String c3 s3 =>
                  if isWhiteSpace3 c1 c2 c3
                  then (if inRun then replaceSpaces true s3
                        else String "_" (replaceSpaces true s3))
                  else String c1 (replaceSpaces false s1)
              end
        end
  end.

(** Length in characters: the bytes that do not continue a character. *)
Fixpoint char_length (s : string) : nat :=
  match s with
  | EmptyString => 0%nat
  | String c s' =>
      let n := nat_of_ascii c in
      if ((128 <=? n) && (n <? 192))%nat then char_length s'
      else S (char_length s')
  end.

(** [String.prototype.includes]. *)
Fixpoint includes (s sub : string) : bool :=
  String.prefix sub s ||
  match s with
  | EmptyString => false
  | String _ s' => includes s' sub
  end.

(** ToBoolean on a string, and on a string that may be null/undefined. *)
Definition truthy (s : string) : bool := negb (String.eqb s "").

Definition truthy_opt (o : option string) : bool :=
  match o with
  | Some s => truthy s
  | None => false
  end.

(** What a [throw] carries. *)
Inductive Exn : Type :=
| TypeError                             (* property access on null/undefined *)
| JsError (message : string)            (* new Error(message) *)
| ReplyError (code message : string)    (* the error object of a reply *)
| Rejected                              (* a request whose promise rejects *)
| QuotaExceededError.                   (* localStorage.setItem *)

(** [error.message].  For the errors that the runtime raises the text is
    the runtime's own; it is stood for by the name of the error. *)
Definition message_of (e : Exn) : string :=
  match e with
  | TypeError => "TypeError"
  | JsError m => m
  | ReplyError _ m => m
  | Rejected => "Failed to fetch"
  | QuotaExceededError => "QuotaExceededError"
  end.

Inductive Res (A : Type) : Type :=
| Ret (a : A)
| Throw (e : Exn).
Arguments Ret {A} a.
Arguments Throw {A} e.

End Js.
Export Js.

(** ** Records kept by the stores *)

(** A badge as the application sees it.  [earnedAt] is an ISO timestamp, or
    the empty string for a converted legacy badge. *)
Inductive IsoTime : Type :=
| NoTime
| At (ms : Z).

Record Badge : Type := mkBadge {
  name : string;
  emoji : string;
  earnedAt : IsoTime
}.

(** An element of a stored [badges] array: an object, or a bare string in
    the legacy layout. *)
Inductive StoredBadge : Type :=
| BadgeObject (b : Badge)
| BadgeString (s : string).

(** [{ badges, createdAt }]; [badges] may be missing. *)
Module UserRecord.
Record t : Type := mk {
  badges : option (list StoredBadge);
  createdAt : Z
}.
End UserRecord.

(** The text under a [localStorage] key, by what [JSON.parse] makes of it:
    a SyntaxError, [null], or a users object. *)
Inductive Blob : Type :=
| Unparsable (text : string)
| NullJson
| UsersJson (users : gmap string UserRecord.t).

(** ** The Supabase service

    The service is outside the repository.  What is embedded is the
    contract the models rely on: the tables and the function
    [get_or_create_user] of docs/supabase-schema.sql, and the replies of the
    client as the models read them ([data], [error], the code PGRST116 of
    [single()] without a row, the message of a refused sign-in). *)

Module Remote.

Record UserRow : Type := mkUserRow {
  id : string;
  username : string
}.

Record BadgeRow : Type := mkBadgeRow {
  user_id : string;
  badge_name : string;
  badge_emoji : string;
  earned_at : Z
}.

Record Account : Type := mkAccount {
  account_id : string;
  email : string;
  password : string
}.

(** A request as the service receives it. *)
Inductive Call : Type :=
| SignInWithPassword (email password : string)
| SignUp (email password username : string)
| SignOut
| RpcGetOrCreateUser (p_username : string)
| SelectUserId (username : string)
| InsertBadge (row : BadgeRow)
| SelectBadges (user_id : string).

(** What the environment does to one request. *)
Inductive Fault : Type :=
| Healthy
| ErrorReply (code message : string)   (* { data: null, error } *)
| Rejects.                             (* the promise rejects *)

Record State : Type := mkState {
  users : list UserRow;
  badges : list BadgeRow;
  accounts : list Account;
  next_id : N;
  callLog : list Call;
  faults : list Fault
}.

(** [{ data, error }]. *)
Record Reply (D : Type) : Type := mkReply {
  data : option D;
  error : option (string * string)
}.
Arguments mkReply {D} data error.
Arguments data {D} r.
Arguments error {D} r.

Definition ok {D} (d : D) : Reply D := mkReply (Some d) None.
Definition failed {D} (code message : string) : Reply D :=
  mkReply None (Some (code, message)).

Definition fresh_id (r : State) : string := "id-" +:+ pretty (next_id r).

(** The request is logged and the next fault of the script is taken. *)
Definition receive (c : Call) (r : State) : Fault * State :=
  match faults r with
  | [] =>
      (Healthy,
       mkState (users r) (badges r) (accounts r) (next_id r) (callLog r ++ [c]) [])
  | f :: fs =>
      (f,
       mkState (users r) (badges r) (accounts r) (next_id r) (callLog r ++ [c]) fs)
  end.

(** A request under a fault gets the fault's reply; a healthy one is
    served by [serve]. *)
Definition request {D} (c : Call) (serve : State -> Reply D * State)
    (r : State) : Res (Reply D) * State :=
  match receive c r with
  | (Healthy, r1) => let '(rep, r2) := serve r1 in (Ret rep, r2)
  | (ErrorReply code msg, r1) => (Ret (failed code msg), r1)
  | (Rejects, r1) => (Throw Rejected, r1)
  end.

(** *** auth *)

Definition find_account (em : string) (r : State) : option Account :=
  List.find (fun a => String.eqb (email a) em) (accounts r).

Definition serve_signIn (em pw : string) (r : State) : Reply string * State :=
  match find_account em r with
  | Some a =>
      if String.eqb (password a) pw then (ok (account_id a), r)
      else (failed "invalid_credentials" "Invalid login credentials", r)
  | None => (failed "invalid_credentials" "Invalid login credentials", r)
  end.

Definition serve_signUp (em pw : string) (r : State) : Reply string * State :=
  match find_account em r with
  | Some _ => (failed "user_already_exists" "User already registered", r)
  | None =>
      let aid := fresh_id r in
      (ok aid,
       mkState (users r) (badges r) (accounts r ++ [mkAccount aid em pw])
               (N.succ (next_id r)) (callLog r) (faults r))
  end.

Definition signInWithPassword (em pw : string) : State -> Res (Reply string) * State :=
  request (SignInWithPassword em pw) (serve_signIn em pw).

Definition signUp (em pw uname : string) : State -> Res (Reply string) * State :=
  request (SignUp em pw uname) (serve_signUp em pw).

Definition signOut : State -> Res (Reply unit) * State :=
  request SignOut (fun r => (ok tt, r)).

(** *** tables (docs/supabase-schema.sql) *)

Definition find_user (uname : string) (r : State) : list UserRow :=
  List.filter (fun u => String.eqb (username u) uname) (users r).

(** btrim: spaces only. *)
Fixpoint ltrim_spaces (s : string) : string :=
  match s with
  | String " " s' => ltrim_spaces s'
  | _ => s
  end.

Fixpoint rtrim_spaces (s : string) : string :=
  match s with
  | EmptyString => EmptyString
  | String c s' =>
      match rtrim_spaces s' with
      | EmptyString => if Ascii.eqb c " " then EmptyString else String c EmptyString
      | t => String c t
      end
  end.

Definition pg_trim (s : string) : string := rtrim_spaces (ltrim_spaces s).

Fixpoint has_space (s : string) : bool :=
  match s with
  | EmptyString => false
  | String c s' => isWhiteSpace1 c || has_space s'
  end.

(** get_or_create_user(p_username). *)
Definition serve_getOrCreateUser (p_username : string) (r : State)
    : Reply string * State :=
  let t := pg_trim p_username in
  if String.eqb t "" then (failed "P0001" "Username cannot be empty", r)
  else if (50 <? char_length t)%nat
  then (failed "P0001" "Username too long (max 50 characters)", r)
  else
    match find_user t r with
    | u :: _ => (ok (id u), r)
    | [] =>
        if has_space t then (failed "23514" "username_no_spaces", r)
        else
          let uid := fresh_id r in
          (ok uid,
           mkState (users r ++ [mkUserRow uid t]) (badges r) (accounts r)
                   (N.succ (next_id r)) (callLog r) (faults r))
    end.

Definition rpc_get_or_create_user (p_username : string)
    : State -> Res (Reply string) * State :=
  request (RpcGetOrCreateUser p_username) (serve_getOrCreateUser p_username).

(** from('users').select('id').eq('username', u).single() *)
Definition serve_selectUserId (uname : string) (r : State) : Reply string * State :=
  match find_user uname r with
  | [u] => (ok (id u), r)
  | _ => (failed "PGRST116" "JSON object requested, multiple (or no) rows returned", r)
  end.

Definition select_user_id (uname : string) : State -> Res (Reply string) * State :=
  request (SelectUserId uname) (serve_selectUserId uname).

(** from('badges').insert([row]) *)
Definition user_known (uid : string) (r : State) : bool :=
  existsb (fun u => String.eqb (id u) uid) (users r).

Definition serve_insertBadge (row : BadgeRow) (r : State) : Reply unit * State :=
  if negb (user_known (user_id row) r)
  then (failed "23503" "badges_user_id_fkey", r)
  else if (char_length (badge_name row) <? 1)%nat
          || (200 <? char_length (badge_name row))%nat
  then (failed "23514" "badge_name_length", r)
  else if (10 <? char_length (badge_emoji row))%nat
  then (failed "23514" "badge_emoji_length", r)
  else
    (mkReply None None,
     mkState (users r) (badges r ++ [row]) (accounts r) (next_id r)
             (callLog r) (faults r)).

Definition insert_badge (row : BadgeRow) : State -> Res (Reply unit) * State :=
  request (InsertBadge row) (serve_insertBadge row).

(** order('earned_at', { ascending: true }).  The service does not fix the
    order of rows of equal times; here they keep their insertion order. *)
Fixpoint insert_by_time (x : BadgeRow) (l : list BadgeRow) : list BadgeRow :=
  match l with
  | [] => [x]
  | y :: l' =>
      if (earned_at x <? earned_at y) then x :: l else y :: insert_by_time x l'
  end.

Definition order_by_time (l : list BadgeRow) : list BadgeRow :=
  fold_left (fun acc x => insert_by_time x acc) l [].

Definition rows_of (uid : string) (r : State) : list BadgeRow :=
  List.filter (fun b => String.eqb (user_id b) uid) (badges r).

Definition serve_selectBadges (uid : string) (r : State)
    : Reply (list BadgeRow) * State :=
  (ok (order_by_time (rows_of uid r)), r).

Definition select_badges (uid : string)
    : State -> Res (Reply (list BadgeRow)) * State :=
  request (SelectBadges uid) (serve_selectBadges uid).

End Remote.

(** ** The browser and the service around the models *)

Record World : Type := mkWorld {
  sessionStorage : gmap string string;
  localStorage : gmap string Blob;
  quotaExceeded : bool;          (* localStorage.setItem throws *)
  clock : Z;                     (* Date.now() *)
  console : list string;         (* the messages of console.error *)
  remote : Remote.State
}.

Definition set_sessionStorage (f : gmap string string -> gmap string string)
    (w : World) : World :=
  mkWorld (f (sessionStorage w)) (localStorage w) (quotaExceeded w) (clock w)
          (console w) (remote w).

Definition set_localStorage (f : gmap string Blob -> gmap string Blob)
    (w : World) : World :=
  mkWorld (sessionStorage w) (f (localStorage w)) (quotaExceeded w) (clock w)
          (console w) (remote w).

Definition set_console (f : list string -> list string) (w : World) : World :=
  mkWorld (sessionStorage w) (localStorage w) (quotaExceeded w) (clock w)
          (f (console w)) (remote w).

Definition set_remote (r : Remote.State) (w : World) : World :=
  mkWorld (sessionStorage w) (localStorage w) (quotaExceeded w) (clock w)
          (console w) r.

(** Time passes between two calls. *)
Definition set_clock (t : Z) (w : World) : World :=
  mkWorld (sessionStorage w) (localStorage w) (quotaExceeded w) t
          (console w) (remote w).

(** ** Methods: state passing with exceptions

    A method of an object of type [O] runs on the object's fields and the
    world.  The state reached when an exception is thrown is kept: what
    was written before the [throw] stays written. *)

Definition M (O A : Type) : Type := O * World -> Res A * (O * World).

Definition ret {O A} (a : A) : M O A := fun s => (Ret a, s).

Definition throw {O A} (e : Exn) : M O A := fun s => (Throw e, s).

Definition bind {O A B} (m : M O A) (k : A -> M O B) : M O B :=
  fun s =>
    match m s with
    | (Ret a, s') => k a s'
    | (Throw e, s') => (Throw e, s')
    end.

(** [try { m } catch (error) { h error }] *)
Definition try_catch {O A} (m : M O A) (h : Exn -> M O A) : M O A :=
  fun s =>
    match m s with
    | (Ret a, s') => (Ret a, s')
    | (Throw e, s') => h e s'
    end.

Declare Scope js_scope.
Delimit Scope js_scope with js.
Notation "'let*' x ':=' m 'in' k" := (bind m (fun x => k))
  (at level 10, x name, m at level 100, k at level 200) : js_scope.
Notation "m1 ';;;' m2" := (bind m1 (fun _ => m2))
  (at level 100, m2 at level 200, right associativity) : js_scope.
Local Open Scope js_scope.

Definition this {O} : M O O := fun s => (Ret (fst s), s).
Definition set_this {O} (f : O -> O) : M O unit := fun s => (Ret tt, (f (fst s), snd s)).
Definition world {O A} (f : World -> A) : M O A := fun s => (Ret (f (snd s)), s).
Definition set_world {O} (f : World -> World) : M O unit :=
  fun s => (Ret tt, (fst s, f (snd s))).

(** A call of a method of the object [o] held in a field: [put] stores the
    object back. *)
Definition call {O P A} (o : P) (put : P -> O -> O) (m : M P A) : M O A :=
  fun s =>
    match m (o, snd s) with
    | (r, (o', w')) => (r, (put o' (fst s), w'))
    end.

(** *** Web storage and the console *)

Definition sessionStorage_getItem {O} (k : string) : M O (option string) :=
  world (fun w => sessionStorage w !! k).

Definition sessionStorage_setItem {O} (k v : string) : M O unit :=
  set_world (set_sessionStorage (insert k v)).

Definition sessionStorage_removeItem {O} (k : string) : M O unit :=
  set_world (set_sessionStorage (delete k)).

Definition localStorage_getItem {O} (k : string) : M O (option Blob) :=
  world (fun w => localStorage w !! k).

Definition localStorage_setItem {O} (k : string) (v : Blob) : M O unit :=
  let* full := world quotaExceeded in
  if full then throw QuotaExceededError
  else set_world (set_localStorage (insert k v)).

Definition console_error {O} (msg : string) : M O unit :=
  set_world (set_console (fun l => l ++ [msg])).

Definition Date_now {O} : M O Z := world clock.

(** [JSON.parse] of the stored text; [None] is [null]. *)
Definition JSON_parse {O} (b : Blob) : M O (option (gmap string UserRecord.t)) :=
  match b with
  | Unparsable _ => throw (JsError "SyntaxError")
  | NullJson => ret None
  | UsersJson users => ret (Some users)
  end.

(** The object of a property access [users[username]] or a method call
    [users.hasOwnProperty(...)]: a TypeError when [users] is [null]. *)
Definition object_of {O} (users : option (gmap string UserRecord.t))
    : M O (gmap string UserRecord.t) :=
  match users with
  | Some object => ret object
  | None => throw TypeError
  end.

(** [!usersData]: null, or the empty text. *)
Definition falsy_blob (o : option Blob) : bool :=
  match o with
  | None => true
  | Some (Unparsable "") => true
  | Some _ => false
  end.

(** The converted element of [userData.badges.map(...)]. *)
Definition badge_of_stored (b : StoredBadge) : Badge :=
  match b with
  | BadgeString s => mkBadge s "" NoTime
  | BadgeObject b => b
  end.

(** *** The local store, as both models read and write it *)

(** [getAllUsers] of UserStorageModel and [getAllUsersFromLocalStorage] of
    SupabaseStorageModel are the same code. *)
Definition getAllUsersFromLocalStorage {O} : M O (option (gmap string UserRecord.t)) :=
  let* usersData := localStorage_getItem "lumi_users" in
  match usersData with
  | None => ret (Some ∅)
  | Some blob =>
      if falsy_blob usersData then ret (Some ∅)
      else
        try_catch (JSON_parse blob)
          (fun e => console_error "Error parsing users data:" ;;; ret (Some ∅))
  end.

(** The record with one more badge pushed on its [badges] array, an empty
    array being put in first when the record has none. *)
Definition push_badge (r : UserRecord.t) (b : Badge) : UserRecord.t :=
  UserRecord.mk (Some (default [] (UserRecord.badges r) ++ [BadgeObject b]))
                (UserRecord.createdAt r).

Record SupabaseConfig : Type := mkConfig {
  isEnabled : bool;
  fallbackToLocalStorage : bool;
  cacheTimeout : Z
}.

(** At which [return] of the source [setCurrentUser] left.  The source
    returns [returned]. *)
Inductive Exit : Type :=
| InvalidUsername     (* return false: empty or blank username *)
| RemoteSession       (* return true: the service gave the user id *)
| NoAuthUser          (* return false: auth reply without a user *)
| Fallback            (* return true: session marked local-only *)
| Failed.             (* return false: error, fallback not allowed *)

Definition returned (e : Exit) : bool :=
  match e with
  | RemoteSession | Fallback => true
  | InvalidUsername | NoAuthUser | Failed => false
  end.

(** ** SupabaseStorageModel *)

Module SupabaseStorageModel.

Record Cache : Type := mkCache {
  users : option (gmap string string);
  badges : option (gmap string (list Badge));
  lastUpdate : option Z
}.

(** [client] is false for [this.client === null]. *)
Record t : Type := mk {
  config : SupabaseConfig;
  client : bool;
  currentUserId : option string;
  cache : Cache
}.

Definition set_cache (c : Cache) (o : t) : t :=
  mk (config o) (client o) (currentUserId o) c.

Definition set_currentUserId (i : option string) (o : t) : t :=
  mk (config o) (client o) i (cache o).

Definition emptyCache : Cache := mkCache None None None.

(** The constructor with [initializeClient]: [library] says that the
    global [supabase.createClient] exists and returns a client. *)
Definition new (cfg : SupabaseConfig) (library : bool) : t :=
  mk cfg (isEnabled cfg && library) None emptyCache.

Definition isAvailable (o : t) : bool := client o.

(** A request through [this.client]; on a null client the property
    access throws. *)
Definition client_request {A} (req : Remote.State -> Res A * Remote.State)
    : M t A :=
  let* o := this in
  if client o
  then fun s =>
         match req (remote (snd s)) with
         | (r, rs) => (r, (fst s, set_remote rs (snd s)))
         end
  else throw TypeError.

Definition getCurrentUser : M t (option string) :=
  sessionStorage_getItem "lumi_current_user".

Definition isCacheValid : M t bool :=
  let* o := this in
  match lastUpdate (cache o) with
  | None => ret false
  | Some last =>
      if last =? 0 then ret false
      else
        let* now := Date_now in
        ret (now - last <? cacheTimeout (config o))
  end.

(** updateCache('users', key, value) *)
Definition updateCache_users (key value : string) : M t unit :=
  set_this (fun o =>
    set_cache (mkCache (Some (<[key := value]> (default ∅ (users (cache o)))))
                       (badges (cache o)) (lastUpdate (cache o))) o) ;;;
  let* now := Date_now in
  set_this (fun o =>
    set_cache (mkCache (users (cache o)) (badges (cache o)) (Some now)) o).

(** updateCache('badges', key, value) *)
Definition updateCache_badges (key : string) (value : list Badge) : M t unit :=
  set_this (fun o =>
    set_cache (mkCache (users (cache o))
                       (Some (<[key := value]> (default ∅ (badges (cache o)))))
                       (lastUpdate (cache o))) o) ;;;
  let* now := Date_now in
  set_this (fun o =>
    set_cache (mkCache (users (cache o)) (badges (cache o)) (Some now)) o).

Definition clearCache : M t unit := set_this (set_cache emptyCache).

Definition getUserId (username : string) : M t (option string) :=
  try_catch
    (let* valid := isCacheValid in
     let* o := this in
     let cachedId := if valid then users (cache o) ≫= (.!! username) else None in
     if truthy_opt cachedId then ret cachedId
     else
       let* reply := client_request (Remote.select_user_id username) in
       match Remote.error reply with
       | Some (code, msg) =>
           if String.eqb code "PGRST116" then ret None
           else throw (ReplyError code msg)
       | None =>
           match Remote.data reply with
           | None => throw TypeError
           | Some id =>
               updateCache_users username id ;;;
               ret (Some id)
           end
       end)
    (fun e => console_error "Error getting user ID:" ;;; ret None).

Definition addBadgeToLocalStorage (username badgeName badgeEmoji : string)
    : M t bool :=
  let* users := getAllUsersFromLocalStorage in
  let* users := object_of users in
  let* created := Date_now in
  let record := default (UserRecord.mk (Some []) created) (users !! username) in
  let* earned := Date_now in
  localStorage_setItem "lumi_users"
    (UsersJson
       (<[username := push_badge record (mkBadge badgeName badgeEmoji (At earned))]>
          users)) ;;;
  ret true.

Definition getBadgesFromLocalStorage (username : string) : M t (list Badge) :=
  let* users := getAllUsersFromLocalStorage in
  let* users := object_of users in
  match users !! username with
  | None => ret []
  | Some userData =>
      match UserRecord.badges userData with
      | None => ret []
      | Some l => ret (map badge_of_stored l)
      end
  end.

Definition addBadge (username badgeName : string) (badgeEmoji : option string)
    : M t bool :=
  let badgeEmoji := default "⭐" badgeEmoji in
  try_catch
    (let* userId := getUserId username in
     if negb (truthy_opt userId) then throw (JsError "User not found")
     else
       let* now := Date_now in
       let* reply :=
         client_request
           (Remote.insert_badge
              (Remote.mkBadgeRow (default "" userId) badgeName badgeEmoji now)) in
       match Remote.error reply with
       | Some (code, msg) => throw (ReplyError code msg)
       | None => clearCache ;;; ret true
       end)
    (fun e =>
       console_error "Error adding badge:" ;;;
       let* o := this in
       if fallbackToLocalStorage (config o)
       then addBadgeToLocalStorage username badgeName badgeEmoji
       else ret false).

Definition badge_of_row (b : Remote.BadgeRow) : Badge :=
  mkBadge (Remote.badge_name b) (Remote.badge_emoji b) (At (Remote.earned_at b)).

Definition getBadges (username : string) : M t (list Badge) :=
  try_catch
    (let* valid := isCacheValid in
     let* o := this in
     match (if valid then badges (cache o) ≫= (.!! username) else None) with
     | Some cachedBadges => ret cachedBadges
     | None =>
         let* userId := getUserId username in
         if negb (truthy_opt userId) then ret []
         else
           let* reply :=
             client_request (Remote.select_badges (default "" userId)) in
           match Remote.error reply with
           | Some (code, msg) => throw (ReplyError code msg)
           | None =>
               match Remote.data reply with
               | None => throw TypeError
               | Some rows =>
                   let badges := map badge_of_row rows in
                   updateCache_badges username badges ;;;
                   ret badges
               end
           end
     end)
    (fun e =>
       console_error "Error getting badges:" ;;;
       let* o := this in
       if fallbackToLocalStorage (config o)
       then getBadgesFromLocalStorage username
       else ret []).

Definition getBadgeCount (username : string) : M t nat :=
  let* badges := getBadges username in
  ret (length badges).

Definition logout : M t unit :=
  set_this (set_currentUserId None) ;;;
  sessionStorage_removeItem "lumi_current_user" ;;;
  sessionStorage_removeItem "lumi_user_id" ;;;
  sessionStorage_removeItem "lumi_auth_user" ;;;
  sessionStorage_removeItem "lumi_use_local_only" ;;;
  clearCache ;;;
  try_catch
    (let* o := this in
     if client o
     then (let* _ := client_request Remote.signOut in ret tt)
     else ret tt)
    (fun e => console_error "Error signing out:").

(** The e-mail address under which the auth service knows the user. *)
Definition email_of (trimmedUsername : string) : string :=
  replaceSpaces false (toLowerCase trimmedUsername) +:+ "@lumi.local".

(** String(data) *)
Definition string_of_data (d : option string) : string := default "null" d.

(** Both [catch] blocks of [setCurrentUser]. *)
Definition fallbackSession (msg trimmedUsername : string) : M t Exit :=
  console_error msg ;;;
  let* o := this in
  if fallbackToLocalStorage (config o)
  then
    sessionStorage_setItem "lumi_current_user" trimmedUsername ;;;
    sessionStorage_setItem "lumi_use_local_only" "true" ;;;
    ret Fallback
  else ret Failed.

Definition setCurrentUser_exit (username password : option string) : M t Exit :=
  match username with
  | None => ret InvalidUsername
  | Some username =>
      if negb (truthy username) || String.eqb (trim username) "" then ret InvalidUsername
      else
        let trimmedUsername := trim username in
        if truthy_opt password && negb (String.eqb (trim (default "" password)) "")
        then
          let password := default "" password in
          try_catch
            (let email := email_of trimmedUsername in
             let* signIn :=
               client_request (Remote.signInWithPassword email password) in
             let* authResult :=
               match Remote.error signIn with
               | Some (code, msg) =>
                   if includes msg "Invalid login credentials"
                   then
                     let* signUp :=
                       client_request
                         (Remote.signUp email password trimmedUsername) in
                     match Remote.error signUp with
                     | Some (code', msg') => throw (ReplyError code' msg')
                     | None => ret signUp
                     end
                   else throw (ReplyError code msg)
               | None => ret signIn
               end in
             match Remote.data authResult with
             | Some authUserId =>
                 let* reply :=
                   client_request (Remote.rpc_get_or_create_user trimmedUsername) in
                 match Remote.error reply with
                 | Some (code, msg) => throw (ReplyError code msg)
                 | None =>
                     set_this (set_currentUserId (Remote.data reply)) ;;;
                     sessionStorage_setItem "lumi_current_user" trimmedUsername ;;;
                     sessionStorage_setItem "lumi_user_id"
                       (string_of_data (Remote.data reply)) ;;;
                     sessionStorage_setItem "lumi_auth_user" authUserId ;;;
                     sessionStorage_removeItem "lumi_use_local_only" ;;;
                     ret RemoteSession
                 end
             | None => ret NoAuthUser
             end)
            (fun e =>
               fallbackSession "Error with password authentication:" trimmedUsername)
        else
          try_catch
            (let* reply :=
               client_request (Remote.rpc_get_or_create_user trimmedUsername) in
             match Remote.error reply with
             | Some (code, msg) => throw (ReplyError code msg)
             | None =>
                 set_this (set_currentUserId (Remote.data reply)) ;;;
                 sessionStorage_setItem "lumi_current_user" trimmedUsername ;;;
                 sessionStorage_setItem "lumi_user_id"
                   (string_of_data (Remote.data reply)) ;;;
                 sessionStorage_removeItem "lumi_use_local_only" ;;;
                 ret RemoteSession
             end)
            (fun e => fallbackSession "Error setting current user:" trimmedUsername)
  end.

Definition setCurrentUser (username password : option string) : M t bool :=
  let* exit := setCurrentUser_exit username password in
  ret (returned exit).

End SupabaseStorageModel.

(** ** UserStorageModel *)

Module UserStorageModel.

(** [supabaseStorage] is [None] for [null]. *)
Record t : Type := mk {
  supabaseStorage : option SupabaseStorageModel.t
}.

(** The constructor: [cfg] is [None] when the class SupabaseConfig is not
    defined. *)
Definition new (cfg : option SupabaseConfig) (library : bool) : t :=
  mk (match cfg with
      | Some c =>
          if isEnabled c then Some (SupabaseStorageModel.new c library) else None
      | None => None
      end).

(** [this.supabaseStorage && this.supabaseStorage.isAvailable()] *)
Definition remoteAvailable (o : t) : bool :=
  match supabaseStorage o with
  | Some sb => SupabaseStorageModel.isAvailable sb
  | None => false
  end.

(** A call of a method of [this.supabaseStorage]. *)
Definition onSupabase {A} (m : M SupabaseStorageModel.t A) : M t A :=
  let* o := this in
  match supabaseStorage o with
  | Some sb => call sb (fun sb' _ => mk (Some sb')) m
  | None => throw TypeError
  end.

Definition getCurrentUser : M t (option string) :=
  sessionStorage_getItem "lumi_current_user".

Definition getAllUsers : M t (option (gmap string UserRecord.t)) :=
  getAllUsersFromLocalStorage.

Definition saveAllUsers (users : gmap string UserRecord.t) : M t bool :=
  try_catch
    (localStorage_setItem "lumi_users" (UsersJson users) ;;; ret true)
    (fun e => console_error "Error saving users data:" ;;; ret false).

(** [users.hasOwnProperty(username)]: the method is the one of
    Object.prototype unless a stored user is named hasOwnProperty, whose
    record is then what the call finds, and a record cannot be called. *)
Definition userExists (username : string) : M t bool :=
  let* users := getAllUsers in
  let* users := object_of users in
  if bool_decide (is_Some (users !! "hasOwnProperty")) then throw TypeError
  else ret (bool_decide (is_Some (users !! username))).

Definition createUser (username : string) : M t bool :=
  let* users := getAllUsers in
  let* now := Date_now in
  let* users := object_of users in
  saveAllUsers (<[username := UserRecord.mk (Some []) now]> users).

Definition getUserData (username : string) : M t (option UserRecord.t) :=
  let* users := getAllUsers in
  let* users := object_of users in
  ret (users !! username).

Definition setCurrentUser_exit (username password : option string) : M t Exit :=
  match username with
  | None => ret InvalidUsername
  | Some username =>
      if negb (truthy username) || String.eqb (trim username) "" then ret InvalidUsername
      else
        let trimmedUsername := trim username in
        let* o := this in
        if remoteAvailable o && truthy_opt password
           && negb (String.eqb (trim (default "" password)) "")
        then
          onSupabase
            (SupabaseStorageModel.setCurrentUser_exit (Some trimmedUsername) password)
        else
          sessionStorage_setItem "lumi_current_user" trimmedUsername ;;;
          sessionStorage_setItem "lumi_use_local_only" "true" ;;;
          let* known := userExists trimmedUsername in
          (if known then ret true else createUser trimmedUsername) ;;;
          ret Fallback
  end.

Definition setCurrentUser (username password : option string) : M t bool :=
  let* exit := setCurrentUser_exit username password in
  ret (returned exit).

Definition logout : M t unit :=
  let* o := this in
  if remoteAvailable o then onSupabase SupabaseStorageModel.logout
  else
    sessionStorage_removeItem "lumi_current_user" ;;;
    sessionStorage_removeItem "lumi_use_local_only".

(** [sessionStorage.getItem('lumi_use_local_only') === 'true'] *)
Definition useLocalOnly : M t bool :=
  let* flag := sessionStorage_getItem "lumi_use_local_only" in
  ret (bool_decide (flag = Some "true")).

Definition addBadge (username badgeName : string) (badgeEmoji : option string)
    : M t bool :=
  let badgeEmoji := default "" badgeEmoji in
  let* useLocalOnly := useLocalOnly in
  let* o := this in
  if remoteAvailable o && negb useLocalOnly
  then onSupabase (SupabaseStorageModel.addBadge username badgeName (Some badgeEmoji))
  else
    let* users0 := getAllUsers in
    let* users0 := object_of users0 in
    let* users :=
      match users0 !! username with
      | Some _ => ret users0
      | None => createUser username ;;; let* users1 := getAllUsers in object_of users1
      end in
    match users !! username with
    | None => throw TypeError
    | Some record =>
        let* now := Date_now in
        saveAllUsers
          (<[username := push_badge record (mkBadge badgeName badgeEmoji (At now))]> users)
    end.

Definition getBadges (username : string) : M t (list Badge) :=
  let* useLocalOnly := useLocalOnly in
  let* o := this in
  if remoteAvailable o && negb useLocalOnly
  then onSupabase (SupabaseStorageModel.getBadges username)
  else
    let* userData := getUserData username in
    match userData with
    | None => ret []
    | Some userData =>
        match UserRecord.badges userData with
        | None => ret []
        | Some l => ret (map badge_of_stored l)
        end
    end.

Definition getBadgeCount (username : string) : M t nat :=
  let* useLocalOnly := useLocalOnly in
  let* o := this in
  if remoteAvailable o && negb useLocalOnly
  then onSupabase (SupabaseStorageModel.getBadgeCount username)
  else
    let* badges := getBadges username in
    ret (length badges).

End UserStorageModel.

(** ** DataMigrationUtil *)

Module DataMigrationUtil.

Record t : Type := mk {
  userStorage : UserStorageModel.t;
  supabaseStorage : SupabaseStorageModel.t
}.


Definition onUserStorage {A} (m : M UserStorageModel.t A) : M t A :=
  let* o := this in
  call (userStorage o) (fun u o' => mk u (supabaseStorage o')) m.

Definition onSupabase {A} (m : M SupabaseStorageModel.t A) : M t A :=
  let* o := this in
  call (supabaseStorage o) (fun sb o' => mk (userStorage o') sb) m.


End DataMigrationUtil.

(** ** What the theorems observe *)

(** The users object held under ['lumi_users'], empty when there is none
    that parses. *)
Definition stored_users (w : World) : gmap string UserRecord.t :=
  match localStorage w !! "lumi_users" with
  | Some (UsersJson users) => users
  | _ => ∅
  end.

(** The text under ['lumi_users'] is [null]. *)
Definition null_users (w : World) : bool :=
  match localStorage w !! "lumi_users" with
  | Some NullJson => true
  | _ => false
  end.

(** What [getAllUsers] returns: [None] for [null]. *)
Definition stored_json (w : World) : option (gmap string UserRecord.t) :=
  if null_users w then None else Some (stored_users w).

(** The world after a read of ['lumi_users']: a parse error is logged. *)
Definition after_parse (w : World) : World :=
  match localStorage w !! "lumi_users" with
  | Some (Unparsable text) =>
      if String.eqb text "" then w
      else set_console (fun l => l ++ ["Error parsing users data:"]) w
  | _ => w
  end.

(** The persisted blob is absent, or present but not parseable as JSON. *)
Definition blob_unusable (w : World) : Prop :=
  localStorage w !! "lumi_users" = None
  ∨ ∃ text, localStorage w !! "lumi_users" = Some (Unparsable text).

(** A username that is null, undefined, empty or white space only. *)
Definition blank (username : option string) : Prop :=
  match username with
  | None => True
  | Some s => trim s = ""
  end.

(** The session marker. *)
Definition session_marker (w : World) : option string :=
  sessionStorage w !! "lumi_current_user".

(** The session is marked local-only. *)
Definition local_only (w : World) : bool :=
  bool_decide (sessionStorage w !! "lumi_use_local_only" = Some "true").

(** The four keys of a session. *)
Definition session_keys : list string :=
  ["lumi_current_user"; "lumi_user_id"; "lumi_auth_user"; "lumi_use_local_only"].

(** Concrete objects and worlds for the examples. *)
Definition emptyRemote : Remote.State := Remote.mkState [] [] [] 0 [] [].
Definition emptyWorld : World := mkWorld ∅ ∅ false 0 [] emptyRemote.
Definition defaultConfig : SupabaseConfig := mkConfig true true 300000.
Definition remoteModel : SupabaseStorageModel.t :=
  SupabaseStorageModel.new defaultConfig true.
Definition remoteFacade : UserStorageModel.t := UserStorageModel.mk (Some remoteModel).
Definition localFacade : UserStorageModel.t := UserStorageModel.new None false.

(** The sign-out request of [logout] throws: there is a client and the
    service rejects the next request. *)
Definition signOut_throws (sb : SupabaseStorageModel.t) (w : World) : bool :=
  SupabaseStorageModel.client sb
  && match Remote.faults (remote w) with
     | Remote.Rejects :: _ => true
     | _ => false
     end.

(** A local store that holds one user with one badge. *)
Definition anaRecord : UserRecord.t :=
  UserRecord.mk (Some [BadgeObject (mkBadge "Star" "⭐" (At 5))]) 3.

Definition anaWorld : World :=
  mkWorld ∅ {["lumi_users" := UsersJson {["Ana" := anaRecord]}]} false 9 []
          emptyRemote.

(** The value of [isCacheValid]. *)
Definition cache_valid (sb : SupabaseStorageModel.t) (w : World) : bool :=
  match SupabaseStorageModel.lastUpdate (SupabaseStorageModel.cache sb) with
  | None => false
  | Some last =>
      if last =? 0 then false
      else clock w - last <? cacheTimeout (SupabaseStorageModel.config sb)
  end.

(** What a read finds in the cache: nothing when the cache is not valid. *)
Definition cached_id (sb : SupabaseStorageModel.t) (w : World) (username : string)
    : option string :=
  if cache_valid sb w
  then SupabaseStorageModel.users (SupabaseStorageModel.cache sb) ≫= (.!! username)
  else None.

Definition cached_badges (sb : SupabaseStorageModel.t) (w : World) (username : string)
    : option (list Badge) :=
  if cache_valid sb w
  then SupabaseStorageModel.badges (SupabaseStorageModel.cache sb) ≫= (.!! username)
  else None.

(** The request of [getUserId] fails: there is no client, the request is
    rejected, or the reply carries an error other than "no rows". *)
Definition lookup_fails (sb : SupabaseStorageModel.t) (w : World) : bool :=
  negb (SupabaseStorageModel.client sb)
  || match Remote.faults (remote w) with
     | Remote.Rejects :: _ => true
     | Remote.ErrorReply code _ :: _ => negb (String.eqb code "PGRST116")
     | _ => false
     end.

(** The service answers the next request as it should. *)
Definition healthy (w : World) : bool :=
  match Remote.faults (remote w) with
  | [] | Remote.Healthy :: _ => true
  | _ => false
  end.

(** The service rejects the next request. *)
Definition rejecting (w : World) : World :=
  set_remote (Remote.mkState (Remote.users (remote w)) (Remote.badges (remote w))
                (Remote.accounts (remote w)) (Remote.next_id (remote w))
                (Remote.callLog (remote w)) [Remote.Rejects]) w.

(** *** The user-id lookup in direct style

    [getUserId_outcome] is what [SupabaseStorageModel.getUserId] returns and
    the state it leaves; lemma [getUserId_run] proves the two equal. *)

Definition logged (msg : string) (w : World) : World :=
  set_console (fun l => l ++ [msg]) w.

(** The object after updateCache('users', username, id). *)
Definition with_cached_id (username id : string) (now : Z)
    (sb : SupabaseStorageModel.t) : SupabaseStorageModel.t :=
  SupabaseStorageModel.set_cache
    (SupabaseStorageModel.mkCache
       (Some (<[username := id]>
                (default ∅ (SupabaseStorageModel.users (SupabaseStorageModel.cache sb)))))
       (SupabaseStorageModel.badges (SupabaseStorageModel.cache sb))
       (Some now))
    sb.

(** The object after updateCache('badges', username, badges). *)
Definition with_cached_badges (username : string) (l : list Badge) (now : Z)
    (sb : SupabaseStorageModel.t) : SupabaseStorageModel.t :=
  SupabaseStorageModel.set_cache
    (SupabaseStorageModel.mkCache
       (SupabaseStorageModel.users (SupabaseStorageModel.cache sb))
       (Some (<[username := l]>
                (default ∅ (SupabaseStorageModel.badges (SupabaseStorageModel.cache sb)))))
       (Some now))
    sb.

Definition getUserId_outcome (username : string) (sb : SupabaseStorageModel.t)
    (w : World) : option string * (SupabaseStorageModel.t * World) :=
  if truthy_opt (cached_id sb w username) then (cached_id sb w username, (sb, w))
  else if SupabaseStorageModel.client sb then
    match Remote.receive (Remote.SelectUserId username) (remote w) with
    | (Remote.Healthy, r1) =>
        match Remote.find_user username r1 with
        | [row] =>
            (Some (Remote.id row),
             (with_cached_id username (Remote.id row) (clock w) sb, set_remote r1 w))
        | _ => (None, (sb, set_remote r1 w))
        end
    | (Remote.ErrorReply code msg, r1) =>
        if String.eqb code "PGRST116" then (None, (sb, set_remote r1 w))
        else (None, (sb, logged "Error getting user ID:" (set_remote r1 w)))
    | (Remote.Rejects, r1) =>
        (None, (sb, logged "Error getting user ID:" (set_remote r1 w)))
    end
  else (None, (sb, logged "Error getting user ID:" w)).

(** The world after [addBadgeToLocalStorage] has written. *)
Definition with_local_badge (username : string) (b : Badge) (w : World) : World :=
  set_localStorage
    (insert "lumi_users"
       (UsersJson
          (<[username := push_badge
                           (default (UserRecord.mk (Some []) (clock w))
                                    (stored_users w !! username)) b]>
             (stored_users w))))
    (after_parse w).

(** The records of both stores, the session storage, the quota flag and the
    clock are the same in [w'] as in [w]; the console, the request log and
    the script of faults may differ. *)
Definition same_stores (w w' : World) : Prop :=
  sessionStorage w' = sessionStorage w
  ∧ localStorage w' = localStorage w
  ∧ quotaExceeded w' = quotaExceeded w
  ∧ clock w' = clock w
  ∧ Remote.users (remote w') = Remote.users (remote w)
  ∧ Remote.badges (remote w') = Remote.badges (remote w)
  ∧ Remote.accounts (remote w') = Remote.accounts (remote w)
  ∧ Remote.next_id (remote w') = Remote.next_id (remote w).

(** The badges of a user in the local store, as [getBadges] converts
    them. *)
Definition local_badges (username : string) (w : World) : list Badge :=
  match stored_users w !! username with
  | Some userData =>
      match UserRecord.badges userData with
      | Some l => map badge_of_stored l
      | None => []
      end
  | None => []
  end.

(** The badges of a user id in the service, in the order of a read. *)
Definition remote_badges (uid : string) (w : World) : list Badge :=
  map SupabaseStorageModel.badge_of_row
      (Remote.order_by_time (Remote.rows_of uid (remote w))).

(** The world after the service has received the requests [calls] and
    served them without a change of its tables. *)
Definition with_calls (calls : list Remote.Call) (w : World) : World :=
  set_remote
    (Remote.mkState (Remote.users (remote w)) (Remote.badges (remote w))
       (Remote.accounts (remote w)) (Remote.next_id (remote w))
       (Remote.callLog (remote w) ++ calls) (Remote.faults (remote w)))
    w.

(** *** The badge methods of SupabaseStorageModel in direct style

    As for the user id: lemmas [getBadges_run] and [addBadge_run] prove
    these equal to the methods. *)

(** The [catch] block of [getBadges]. *)
Definition getBadges_fallback (username : string) (sb : SupabaseStorageModel.t)
    (w : World) : Res (list Badge) * (SupabaseStorageModel.t * World) :=
  if fallbackToLocalStorage (SupabaseStorageModel.config sb)
  then ((if null_users w then Throw TypeError else Ret (local_badges username w)),
        (sb, after_parse (logged "Error getting badges:" w)))
  else (Ret [], (sb, logged "Error getting badges:" w)).

Definition getBadges_outcome (username : string) (sb : SupabaseStorageModel.t)
    (w : World) : Res (list Badge) * (SupabaseStorageModel.t * World) :=
  match cached_badges sb w username with
  | Some cachedBadges => (Ret cachedBadges, (sb, w))
  | None =>
      match getUserId_outcome username sb w with
      | (userId, (sb1, w1)) =>
          if truthy_opt userId then
            if SupabaseStorageModel.client sb1 then
              match Remote.receive (Remote.SelectBadges (default "" userId)) (remote w1) with
              | (Remote.Healthy, r1) =>
                  let l := remote_badges (default "" userId) (set_remote r1 w1) in
                  (Ret l, (with_cached_badges username l (clock w1) sb1, set_remote r1 w1))
              | (_, r1) => getBadges_fallback username sb1 (set_remote r1 w1)
              end
            else getBadges_fallback username sb1 w1
          else (Ret [], (sb1, w1))
      end
  end.

(** The [catch] block of [addBadge]. *)
Definition addBadge_fallback (username badgeName badgeEmoji : string)
    (sb : SupabaseStorageModel.t) (w : World)
    : Res bool * (SupabaseStorageModel.t * World) :=
  let w1 := logged "Error adding badge:" w in
  if fallbackToLocalStorage (SupabaseStorageModel.config sb)
  then
    if null_users w1 then (Throw TypeError, (sb, after_parse w1))
    else if quotaExceeded w1 then (Throw QuotaExceededError, (sb, after_parse w1))
    else (Ret true,
          (sb, with_local_badge username
                 (mkBadge badgeName badgeEmoji (At (clock w1))) w1))
  else (Ret false, (sb, w1)).

Definition addBadge_outcome (username badgeName : string) (badgeEmoji : option string)
    (sb : SupabaseStorageModel.t) (w : World)
    : Res bool * (SupabaseStorageModel.t * World) :=
  let emoji := default "⭐" badgeEmoji in
  match getUserId_outcome username sb w with
  | (userId, (sb1, w1)) =>
      if truthy_opt userId then
        if SupabaseStorageModel.client sb1 then
          let row := Remote.mkBadgeRow (default "" userId) badgeName emoji (clock w1) in
          match Remote.receive (Remote.InsertBadge row) (remote w1) with
          | (Remote.Healthy, r1) =>
              match Remote.serve_insertBadge row r1 with
              | (reply, r2) =>
                  match Remote.error reply with
                  | Some _ =>
                      addBadge_fallback username badgeName emoji sb1 (set_remote r2 w1)
                  | None =>
                      (Ret true,
                       (SupabaseStorageModel.set_cache SupabaseStorageModel.emptyCache sb1,
                        set_remote r2 w1))
                  end
              end
          | (_, r1) => addBadge_fallback username badgeName emoji sb1 (set_remote r1 w1)
          end
        else addBadge_fallback username badgeName emoji sb1 w1
      else addBadge_fallback username badgeName emoji sb1 w1
  end.

(** *** addBadge of SupabaseStorageModel: the two ways to return true *)

(** The badge went into the service's table: the cache is empty
    afterwards and the local store is as before. *)
Definition inserted_remotely (sb : SupabaseStorageModel.t) (w : World)
    (row : Remote.BadgeRow) (sb' : SupabaseStorageModel.t) (w' : World) : Prop :=
  truthy (Remote.user_id row) = true
  ∧ SupabaseStorageModel.cache sb' = SupabaseStorageModel.emptyCache
  ∧ SupabaseStorageModel.client sb' = true
  ∧ SupabaseStorageModel.config sb' = SupabaseStorageModel.config sb
  ∧ Remote.badges (remote w') = Remote.badges (remote w) ++ [row]
  ∧ Remote.users (remote w') = Remote.users (remote w)
  ∧ localStorage w' = localStorage w
  ∧ sessionStorage w' = sessionStorage w
  ∧ clock w' = clock w.

(** The badge went into the local store through the [catch] block: the
    service's table and the cached badge lists are as before. *)
Definition saved_by_fallback (sb : SupabaseStorageModel.t) (w : World)
    (username : string) (b : Badge) (sb' : SupabaseStorageModel.t) (w' : World) : Prop :=
  fallbackToLocalStorage (SupabaseStorageModel.config sb) = true
  ∧ Remote.badges (remote w') = Remote.badges (remote w)
  ∧ SupabaseStorageModel.badges (SupabaseStorageModel.cache sb')
    = SupabaseStorageModel.badges (SupabaseStorageModel.cache sb)
  ∧ local_badges username w' = local_badges username w ++ [b].

(** *** The facade *)

(** The facade sends a badge operation to its SupabaseStorageModel. *)
Definition routes_remote (o : UserStorageModel.t) (w : World) : bool :=
  UserStorageModel.remoteAvailable o && negb (local_only w).

(** A result of the facade's SupabaseStorageModel, as the facade's. *)
Definition through_facade {A} (x : Res A * (SupabaseStorageModel.t * World))
    : Res A * (UserStorageModel.t * World) :=
  match x with
  | (r, (sb', w')) => (r, (UserStorageModel.mk (Some sb'), w'))
  end.

(** [saveAllUsers] in direct style. *)
Definition local_save (users : gmap string UserRecord.t) (w : World) : bool * World :=
  if quotaExceeded w then (false, logged "Error saving users data:" w)
  else (true, set_localStorage (insert "lumi_users" (UsersJson users)) w).

(** The local branch of the facade's [addBadge] in direct style; lemma
    [facade_addBadge_local] proves them equal. *)
Definition local_addBadge_outcome (username : string) (b : Badge) (w : World)
    : Res bool * World :=
  if null_users w then (Throw TypeError, after_parse w) else
  match stored_users w !! username with
  | Some record =>
      match local_save (<[username := push_badge record b]> (stored_users w))
                       (after_parse w) with
      | (saved, w1) => (Ret saved, w1)
      end
  | None =>
      match local_save (<[username := UserRecord.mk (Some []) (clock w)]> (stored_users w))
                       (after_parse (after_parse w)) with
      | (_, w1) =>
          match stored_users w1 !! username with
          | None => (Throw TypeError, after_parse w1)
          | Some record =>
              match local_save (<[username := push_badge record b]> (stored_users w1))
                               (after_parse w1) with
              | (saved, w2) => (Ret saved, w2)
              end
          end
      end
  end.

(** *** Scenarios *)

(** The state a call leaves. *)
Definition state_after {O A} (x : Res A * (O * World)) : O * World := snd x.

(** Time passes: the same state at a later clock. *)
Definition at_time {O} (t : Z) (s : O * World) : O * World :=
  (fst s, set_clock t (snd s)).

(** The service rejects the next request. *)
Definition then_rejecting {O} (s : O * World) : O * World :=
  (fst s, rejecting (snd s)).

(** Another device adds a row to the service's badges table. *)
Definition elsewhere_insert {O} (row : Remote.BadgeRow) (s : O * World) : O * World :=
  (fst s,
   set_remote
     (Remote.mkState (Remote.users (remote (snd s)))
        (Remote.badges (remote (snd s)) ++ [row])
        (Remote.accounts (remote (snd s))) (Remote.next_id (remote (snd s)))
        (Remote.callLog (remote (snd s))) (Remote.faults (remote (snd s))))
     (snd s)).

(** A service that knows Ivan and Maria, at time 1000; no session is
    marked local-only. *)
Definition ivanWorld : World :=
  mkWorld ∅ ∅ false 1000 []
    (Remote.mkState
       [Remote.mkUserRow "id-1" "Ivan"; Remote.mkUserRow "id-2" "Maria"]
       [] [] 3 [] []).

(** *** A session: badge operations of the facade, and the world around

    Between two operations the service may change (it comes back, other
    devices write, faults come and go), time passes and the local quota
    fills up or frees; the log of the requests the service received from
    these models is only written by the models. *)
Inductive Event : Type :=
| AddBadge (username badgeName : string) (badgeEmoji : option string)
| GetBadges (username : string)
| GetBadgeCount (username : string)
| Elsewhere (service : Remote.State) (time : Z) (full : bool).

(** What the caller of an operation gets. *)
Inductive Seen : Type :=
| Added (r : Res bool)
| Listed (r : Res (list Badge))
| Counted (r : Res nat)
| Unseen.

Definition environment (service : Remote.State) (time : Z) (full : bool)
    (w : World) : World :=
  mkWorld (sessionStorage w) (localStorage w) full time (console w)
    (Remote.mkState (Remote.users service) (Remote.badges service)
       (Remote.accounts service) (Remote.next_id service)
       (Remote.callLog (remote w)) (Remote.faults service)).

Definition step (e : Event) (s : UserStorageModel.t * World)
    : Seen * (UserStorageModel.t * World) :=
  match e with
  | AddBadge username badgeName badgeEmoji =>
      match UserStorageModel.addBadge username badgeName badgeEmoji s with
      | (r, s') => (Added r, s')
      end
  | GetBadges username =>
      match UserStorageModel.getBadges username s with
      | (r, s') => (Listed r, s')
      end
  | GetBadgeCount username =>
      match UserStorageModel.getBadgeCount username s with
      | (r, s') => (Counted r, s')
      end
  | Elsewhere service time full =>
      (Unseen, (fst s, environment service time full (snd s)))
  end.

Fixpoint session (events : list Event) (s : UserStorageModel.t * World)
    : list Seen * (UserStorageModel.t * World) :=
  match events with
  | [] => ([], s)
  | e :: events' =>
      match step e s with
      | (seen, s') =>
          match session events' s' with
          | (rest, s'') => (seen :: rest, s'')
          end
      end
  end.

(** The session in [w1] was established by a fallback return of
    [setCurrentUser], of the facade [o1] or of a SupabaseStorageModel. *)
Definition established_by_fallback (o1 : UserStorageModel.t) (w1 : World) : Prop :=
  (∃ username password o w,
     UserStorageModel.setCurrentUser_exit username password (o, w)
     = (Ret Fallback, (o1, w1)))
  ∨ (∃ username password sb sb' w,
       SupabaseStorageModel.setCurrentUser_exit username password (sb, w)
       = (Ret Fallback, (sb', w1))).

(** A facade without any remote backend. *)
Definition localOnlyFacade : UserStorageModel.t := UserStorageModel.mk None.

(** The events of the example session: the service is back and healthy,
    then three badge operations. *)
Definition exampleEvents : list Event :=
  [Elsewhere (remote ivanWorld) 5000 false;
   AddBadge "Ivan" "Star" None;
   GetBadges "Ivan";
   GetBadgeCount "Ivan"].

(** *** verifyMigration *)





(** A migration utility over a facade without remote backend and a
    SupabaseStorageModel of its own, as the tests build it. *)
Definition exampleUtil : DataMigrationUtil.t :=
  DataMigrationUtil.mk localFacade remoteModel.

(** Ivan has two badges in the local store and one in the service. *)
Definition ivanMigrated : World :=
  mkWorld ∅
    {["lumi_users" :=
        UsersJson
          {["Ivan" :=
              UserRecord.mk
                (Some [BadgeObject (mkBadge "Star" "⭐" (At 10));
                       BadgeObject (mkBadge "Moon" "" (At 20))])
                5]}]}
    false 1000 []
    (Remote.mkState [Remote.mkUserRow "id-1" "Ivan"]
       [Remote.mkBadgeRow "id-1" "Star" "⭐" 900] [] 2 [] []).

(** The local store holds the text [null]. *)
Definition nullWorld : World :=
  set_localStorage (insert "lumi_users" NullJson) ivanWorld.


(** ** The domain of the lookups by name

    The users object and the two maps of the cache are plain objects, and
    the model keeps their own properties.  A lookup [object[name]] in the
    code also finds what every plain object inherits from Object.prototype
    when the object has no own property of that name; and what the code
    then does depends on what earlier calls left on Object.prototype.
    Theorems that depend on such a lookup are stated for names that are not
    inherited, in a realm in which Object.prototype is as the language
    defines it. *)
Definition inherited_names : list string :=
  ["constructor"; "__proto__"; "hasOwnProperty"; "isPrototypeOf";
   "propertyIsEnumerable"; "toLocaleString"; "toString"; "valueOf";
   "__defineGetter__"; "__defineSetter__"; "__lookupGetter__"; "__lookupSetter__"].

Definition inherited_name (name : string) : bool :=
  existsb (String.eqb name) inherited_names.

(** [users.hasOwnProperty] is the method of Object.prototype: no stored
    user is named hasOwnProperty. *)
Definition hasOwnProperty_inherited (w : World) : Prop :=
  stored_users w !! "hasOwnProperty" = None.

(** The text under ['lumi_users'] is absent, is not parseable, or is the
    serialisation of a users object of the persisted layout: an object
    whose values are records with a creation time and, when present, an
    array of badges.  Other texts (the text [null], an array, a number, a
    record whose badges is not an array) are not of the layout. *)
Definition persisted_layout (w : World) : bool :=
  match localStorage w !! "lumi_users" with
  | None => true
  | Some (Unparsable _) => true
  | Some (UsersJson _) => true
  | Some NullJson => false
  end.

(** The badge operation is for a username that is not inherited. *)
Definition own_event (e : Event) : bool :=
  match e with
  | AddBadge username _ _ => negb (inherited_name username)
  | GetBadges username => negb (inherited_name username)
  | GetBadgeCount username => negb (inherited_name username)
  | Elsewhere _ _ _ => true
  end.

(** ** More of the code: the migration of one user

    [migrateUserData] of js/utils/DataMigrationUtil.js. *)

Module Migration.

(** The object [migrateUserData] returns; a property that the source leaves
    out is [None]. *)
Record Report : Type := mkReport {
  success : bool;
  migratedCount : option nat;
  failedCount : option nat;
  error : option string;
  message : string
}.

(** [typeof badge === 'string' ? badge : badge.name] *)
Definition badgeName_of (badge : StoredBadge) : string :=
  match badge with
  | BadgeString s => s
  | BadgeObject b => name b
  end.

(** [typeof badge === 'string' ? '⭐' : (badge.emoji || '⭐')] *)
Definition badgeEmoji_of (badge : StoredBadge) : string :=
  match badge with
  | BadgeString _ => "⭐"
  | BadgeObject b => if truthy (emoji b) then emoji b else "⭐"
  end.

(** The [for] loop over the badges, with its two counters. *)
Fixpoint migrateBadges (username : string) (badges : list StoredBadge)
    (migratedCount failedCount : nat) : M DataMigrationUtil.t (nat * nat) :=
  match badges with
  | [] => ret (migratedCount, failedCount)
  | badge :: rest =>
      let* result :=
        DataMigrationUtil.onSupabase
          (SupabaseStorageModel.addBadge username (badgeName_of badge)
             (Some (badgeEmoji_of badge))) in
      if result : bool
      then migrateBadges username rest (S migratedCount) failedCount
      else migrateBadges username rest migratedCount (S failedCount)
  end.

Definition migrateUserData (username : string) : M DataMigrationUtil.t Report :=
  try_catch
    (let* localUsers := DataMigrationUtil.onUserStorage UserStorageModel.getAllUsers in
     let* localUsers := object_of localUsers in
     match localUsers !! username with
     | None => ret (mkReport true None None None "No data to migrate")
     | Some userData =>
         let* success :=
           DataMigrationUtil.onSupabase
             (SupabaseStorageModel.setCurrentUser (Some username) None) in
         if negb success then throw (JsError "Failed to create user in Supabase")
         else
           let badges := default [] (UserRecord.badges userData) in
           let* counts := migrateBadges username badges 0 0 in
           ret (mkReport true (Some (fst counts)) (Some (snd counts)) None
                  ("Successfully migrated " +:+ pretty (fst counts) +:+ " badges"))
     end)
    (fun e =>
       console_error "Migration failed:" ;;;
       ret (mkReport false None None (Some (message_of e)) "Migration failed")).

End Migration.

(** ** More of the code: the badge list on the screen

    [showBadgesMessage] and [hideMessage] of js/views/AppView.js, and
    [handleStarKey] and [saveBadge] of the class AppController.  Of the view
    the message element and its two fields are kept; timers are not run, the
    handle of a pending one is the number [setTimeout] gave.  Each key press
    runs to its end before the next. *)

(** [Array.prototype.slice(start, end)] on integer arguments. *)
Definition relative_index (len i : Z) : Z :=
  if i <? 0 then Z.max (len + i) 0 else Z.min i len.

Definition slice {A} (l : list A) (start final : Z) : list A :=
  let len := Z.of_nat (length l) in
  let k := relative_index len start in
  let final := relative_index len final in
  take (Z.to_nat (final - k)) (drop (Z.to_nat k) l).

(** [Math.ceil(n / d)] for integers [n] and a positive [d]. *)
Definition Math_ceil_div (n d : Z) : Z := - ((- n) / d).

Module LocalizationModel.

(** The class LocalizationModel is not among the sources at hand: the three
    methods called here are taken as they come.  [None] is [undefined]. *)
Record localization : Type := mk {
  t : string -> string;
  extractAnimalFromBadge : string -> option string;
  getBadgeEmoji : option string -> option string
}.

End LocalizationModel.

Module AppView.

Record t : Type := mk {
  localization : LocalizationModel.localization;
  terminalMessage_innerHTML : string;
  terminalMessage_show : bool;        (* 'show' is in the classList *)
  messageVisible : bool;
  messageTimeout : option Z
}.

(** The view after [hideMessage]: a pending timer is cleared. *)
Definition hidden (v : t) : t :=
  mk (localization v) (terminalMessage_innerHTML v) false false
     (match messageTimeout v with
      | Some h => if h =? 0 then Some h else None
      | None => None
      end).

Definition hideMessage : M t unit := set_this hidden.

(** The double quote of the markup. *)
Definition dq : string := String "034"%char EmptyString.

(** [<div class="cls">] *)
Definition div (cls : string) : string :=
  "<div class=" +:+ dq +:+ cls +:+ dq +:+ ">".

Definition displayText (badge : StoredBadge) : string :=
  let badgeName :=
    match badge with
    | BadgeString s => s
    | BadgeObject b => name b
    end in
  let badgeEmoji :=
    match badge with
    | BadgeString _ => ""
    | BadgeObject b => if truthy (emoji b) then emoji b else ""
    end in
  if truthy badgeEmoji then badgeEmoji +:+ " " +:+ badgeName else badgeName.

(** One pass of the [forEach] adds the line of one badge. *)
Definition badgeItem (startIdx : Z) (index : nat) (badge : StoredBadge) : string :=
  div "badge-item" +:+ pretty (startIdx + Z.of_nat index + 1) +:+ ". "
  +:+ displayText badge +:+ "</div>".

Fixpoint forEach_badgeItem (startIdx : Z) (index : nat)
    (pageBadges : list StoredBadge) (html : string) : string :=
  match pageBadges with
  | [] => html
  | badge :: rest =>
      forEach_badgeItem startIdx (S index) rest
        (html +:+ badgeItem startIdx index badge)
  end.

Definition startIdx_of (currentPage : Z) : Z := (currentPage - 1) * 5.

Definition endIdx_of (currentPage badgeCount : Z) : Z :=
  Z.min (startIdx_of currentPage + 5) badgeCount.

(** [badges.slice(startIdx, endIdx)] *)
Definition pageBadges {A} (badges : list A) (currentPage badgeCount : Z) : list A :=
  slice badges (startIdx_of currentPage) (endIdx_of currentPage badgeCount).

Definition badges_html (l : LocalizationModel.localization)
    (badges : list StoredBadge) (currentPage totalPages badgeCount : Z) : string :=
  let startIdx := startIdx_of currentPage in
  let html := div "badges-header" +:+ LocalizationModel.t l "BADGES_TITLE" +:+ "</div>" in
  let html := html +:+ div "badges-count" +:+ LocalizationModel.t l "BADGES_COUNT"
                   +:+ " " +:+ pretty badgeCount +:+ "</div>" in
  if bool_decide (length badges = 0%nat)
  then html +:+ div "badges-list" +:+ LocalizationModel.t l "NO_BADGES" +:+ "</div>"
  else
    let html := html +:+ div "badges-list" in
    let html :=
      forEach_badgeItem startIdx 0 (pageBadges badges currentPage badgeCount) html in
    let html := html +:+ "</div>" in
    if currentPage <? totalPages
    then html +:+ div "badges-instructions"
              +:+ LocalizationModel.t l "BADGES_PRESS_STAR" +:+ "</div>"
    else html +:+ div "badges-instructions"
              +:+ LocalizationModel.t l "BADGES_CLOSE" +:+ "</div>".

Definition showBadgesMessage (badges : list StoredBadge)
    (currentPage totalPages badgeCount : Z) : M t unit :=
  set_this (fun v =>
    mk (localization v)
       (badges_html (localization v) badges currentPage totalPages badgeCount)
       true true (messageTimeout v)).

End AppView.

Module AppController.

(** The fields that the two methods use. *)
Record t : Type := mk {
  localization : LocalizationModel.localization;
  userStorage : UserStorageModel.t;
  view : AppView.t;
  badgesPage : Z;
  badgesVisible : bool
}.

Definition onUserStorage {A} (m : M UserStorageModel.t A) : M t A :=
  let* c := this in
  call (userStorage c)
       (fun u c' => mk (localization c') u (view c') (badgesPage c') (badgesVisible c'))
       m.

Definition onView {A} (m : M AppView.t A) : M t A :=
  let* c := this in
  call (view c)
       (fun v c' => mk (localization c') (userStorage c') v (badgesPage c')
                       (badgesVisible c'))
       m.

Definition set_badges (page : Z) (visible : bool) : M t unit :=
  set_this (fun c => mk (localization c) (userStorage c) (view c) page visible).

(** [Math.ceil(badgeCount / 5) || 1] *)
Definition totalPages_of (badgeCount : Z) : Z :=
  let pages := Math_ceil_div badgeCount 5 in
  if pages =? 0 then 1 else pages.

Definition handleStarKey : M t unit :=
  let* currentUser := onUserStorage UserStorageModel.getCurrentUser in
  match currentUser with
  | None => ret tt
  | Some currentUser =>
      if negb (truthy currentUser) then ret tt
      else
        let* badges := onUserStorage (UserStorageModel.getBadges currentUser) in
        let badgeCount := Z.of_nat (length badges) in
        let totalPages := totalPages_of badgeCount in
        let* c := this in
        if negb (badgesVisible c)
        then
          set_badges 1 true ;;;
          onView (AppView.showBadgesMessage (map BadgeObject badges) 1 totalPages
                    badgeCount)
        else
          set_badges (badgesPage c + 1) (badgesVisible c) ;;;
          if badgesPage c + 1 >? totalPages
          then set_badges 0 false ;;; onView AppView.hideMessage
          else
            onView (AppView.showBadgesMessage (map BadgeObject badges)
                      (badgesPage c + 1) totalPages badgeCount)
  end.

Definition saveBadge (badgeMessage : string) : M t (option string) :=
  let* currentUser := onUserStorage UserStorageModel.getCurrentUser in
  let* c := this in
  match currentUser with
  | None => ret (Some "⭐")
  | Some currentUser =>
      if truthy currentUser
      then
        let animalName :=
          LocalizationModel.extractAnimalFromBadge (localization c) badgeMessage in
        let badgeEmoji := LocalizationModel.getBadgeEmoji (localization c) animalName in
        onUserStorage (UserStorageModel.addBadge currentUser badgeMessage badgeEmoji) ;;;
        ret badgeEmoji
      else ret (Some "⭐")
  end.

End AppController.

(** ** What the further theorems observe *)

(** The session that [setCurrentUser] of SupabaseStorageModel leaves, by
    the way it returned: from the state [(sb, w)] to [(sb', w')], for the
    trimmed username. *)
Definition session_of_exit (trimmedUsername : string) (x : Exit)
    (sb : SupabaseStorageModel.t) (w : World)
    (sb' : SupabaseStorageModel.t) (w' : World) : Prop :=
  match x with
  | RemoteSession =>
      session_marker w' = Some trimmedUsername
      ∧ local_only w' = false
      ∧ sessionStorage w' !! "lumi_user_id"
        = Some (SupabaseStorageModel.string_of_data
                  (SupabaseStorageModel.currentUserId sb'))
      ∧ SupabaseStorageModel.client sb = true
  | Fallback =>
      session_marker w' = Some trimmedUsername
      ∧ local_only w' = true
      ∧ fallbackToLocalStorage (SupabaseStorageModel.config sb) = true
  | InvalidUsername | NoAuthUser | Failed =>
      sessionStorage w' = sessionStorage w
      ∧ SupabaseStorageModel.currentUserId sb' = SupabaseStorageModel.currentUserId sb
  end.

(** The world after the two writes that open a local session. *)
Definition local_session (trimmedUsername : string) (w : World) : World :=
  set_sessionStorage (insert "lumi_use_local_only" "true")
    (set_sessionStorage (insert "lumi_current_user" trimmedUsername) w).

(** The local path of the facade's [setCurrentUser] in direct style; lemma
    [facade_setCurrentUser_local] proves them equal. *)
Definition local_setCurrentUser_outcome (trimmedUsername : string) (w : World)
    : Res Exit * World :=
  let w0 := local_session trimmedUsername w in
  if null_users w0 then (Throw TypeError, after_parse w0)
  else if bool_decide (is_Some (stored_users w0 !! "hasOwnProperty"))
  then (Throw TypeError, after_parse w0)
  else if bool_decide (is_Some (stored_users w0 !! trimmedUsername))
  then (Ret Fallback, after_parse w0)
  else
    (Ret Fallback,
     snd (local_save
            (<[trimmedUsername := UserRecord.mk (Some []) (clock w0)]> (stored_users w0))
            (after_parse (after_parse w0)))).

(** The facade's [setCurrentUser] takes its local path. *)
Definition logs_in_locally (o : UserStorageModel.t) (password : option string) : bool :=
  negb (UserStorageModel.remoteAvailable o && truthy_opt password
        && negb (String.eqb (trim (default "" password)) "")).

(** The three ways in which [migrateUserData] returns, from the world [w] to
    [w']: there was nothing to migrate; it failed; it went through the
    badges and counted. *)
Definition nothing_to_migrate (username : string) (w : World) (rep : Migration.Report)
    (w' : World) : Prop :=
  null_users w = false
  ∧ stored_users w !! username = None
  ∧ rep = Migration.mkReport true None None None "No data to migrate"
  ∧ w' = after_parse w.

Definition migration_failed (username : string) (w : World) (rep : Migration.Report)
    : Prop :=
  (null_users w = true ∨ is_Some (stored_users w !! username))
  ∧ ∃ msg, rep = Migration.mkReport false None None (Some msg) "Migration failed".

Definition migration_counted (username : string) (sb : SupabaseStorageModel.t)
    (w : World) (rep : Migration.Report) (w' : World) : Prop :=
  ∃ record m f rows,
    stored_users w !! username = Some record
    ∧ rep = Migration.mkReport true (Some m) (Some f) None
              ("Successfully migrated " +:+ pretty m +:+ " badges")
    ∧ (m + f = length (default [] (UserRecord.badges record)))%nat
    ∧ (fallbackToLocalStorage (SupabaseStorageModel.config sb) = true → f = 0%nat)
    ∧ session_marker w' = Some (trim username)
    ∧ Remote.badges (remote w') = Remote.badges (remote w) ++ rows
    ∧ Forall (λ row, truthy (Remote.badge_emoji row) = true) rows
    ∧ (length rows <= m)%nat
    ∧ (length (local_badges username w') + length rows
       = length (local_badges username w) + m)%nat.

(** The controller after one press of the star key, for a user whose badges
    are [badges]: [handleStarKey] in direct style; lemma [handleStarKey_local]
    proves them equal on the local path. *)
Definition shown (c : AppController.t) (badges : list Badge) (page : Z)
    : AppController.t :=
  let badgeCount := Z.of_nat (length badges) in
  AppController.mk (AppController.localization c) (AppController.userStorage c)
    (AppView.mk (AppView.localization (AppController.view c))
       (AppView.badges_html (AppView.localization (AppController.view c))
          (map BadgeObject badges) page (AppController.totalPages_of badgeCount)
          badgeCount)
       true true (AppView.messageTimeout (AppController.view c)))
    page true.

Definition closed (c : AppController.t) : AppController.t :=
  AppController.mk (AppController.localization c) (AppController.userStorage c)
    (AppView.hidden (AppController.view c)) 0 false.

Definition after_star (badges : list Badge) (c : AppController.t) : AppController.t :=
  if negb (AppController.badgesVisible c) then shown c badges 1
  else if AppController.badgesPage c + 1
          >? AppController.totalPages_of (Z.of_nat (length badges))
  then closed c
  else shown c badges (AppController.badgesPage c + 1).

(** The star key pressed [n] times, each press after the one before has
    finished. *)
Fixpoint press_star (n : nat) : M AppController.t unit :=
  match n with
  | O => ret tt
  | S k => AppController.handleStarKey ;;; press_star k
  end.

(** A controller for the examples: no message on the screen, the list of
    badges closed. *)
Definition exampleLocalization : LocalizationModel.localization :=
  LocalizationModel.mk (fun key => key) (fun badge => Some badge) (fun animal => Some "🦊").

Definition exampleController : AppController.t :=
  AppController.mk exampleLocalization localFacade
    (AppView.mk exampleLocalization "" false false None) 0 false.

(** Ana is logged in. *)
Definition anaSession : World :=
  set_sessionStorage (insert "lumi_current_user" "Ana") anaWorld.

(** ** The repository's tests, replayed on the embedding *)

(** tests/user-storage.test.js: 'should trim username whitespace'. *)
Example test_trim_username :
  let s := state_after (UserStorageModel.setCurrentUser (Some "  Мария  ") None
                          (localFacade, emptyWorld)) in
  fst (UserStorageModel.getCurrentUser s) = Ret (Some "Мария").
Proof. vm_compute. reflexivity. Qed.

(** 'should reject whitespace-only username'. *)
Example test_reject_blank_username :
  let r := UserStorageModel.setCurrentUser (Some "   ") None (localFacade, emptyWorld) in
  fst r = Ret false ∧ fst (UserStorageModel.getCurrentUser (state_after r)) = Ret None.
Proof. vm_compute. split; reflexivity. Qed.

(** 'should logout current user'. *)
Example test_logout :
  let s1 := state_after (UserStorageModel.setCurrentUser (Some "Иван") None
                           (localFacade, emptyWorld)) in
  let s2 := state_after (UserStorageModel.logout s1) in
  fst (UserStorageModel.getCurrentUser s1) = Ret (Some "Иван")
  ∧ fst (UserStorageModel.getCurrentUser s2) = Ret None.
Proof. vm_compute. split; reflexivity. Qed.

(** 'should add multiple badges' and 'should get badge count'. *)
Example test_add_multiple_badges :
  let s0 := state_after (UserStorageModel.setCurrentUser (Some "Димитър") None
                           (localFacade, emptyWorld)) in
  let s1 := state_after (UserStorageModel.addBadge "Димитър" "Значка 1" None s0) in
  let s2 := state_after (UserStorageModel.addBadge "Димитър" "Значка 2" None s1) in
  let s3 := state_after (UserStorageModel.addBadge "Димитър" "Значка 3" None s2) in
  fst (UserStorageModel.getBadgeCount "Димитър" s3) = Ret 3%nat.
Proof. vm_compute. reflexivity. Qed.

(** 'should create user if adding badge to non-existent user'. *)
Example test_badge_creates_user :
  let s := state_after (UserStorageModel.addBadge "НовПотребител" "Първа значка" None
                          (localFacade, emptyWorld)) in
  fst (UserStorageModel.userExists "НовПотребител" s) = Ret true
  ∧ fst (UserStorageModel.getBadgeCount "НовПотребител" s) = Ret 1%nat.
Proof. vm_compute. split; reflexivity. Qed.

(** The Supabase tests: 'should use default emoji when not provided'. *)
Example test_default_emoji :
  let s := state_after (SupabaseStorageModel.addBadge "Ivan" "Default Badge" None
                          (remoteModel, ivanWorld)) in
  Remote.badges (remote (snd s)) = [Remote.mkBadgeRow "id-1" "Default Badge" "⭐" 1000].
Proof. vm_compute. reflexivity. Qed.

(** 'should cache user IDs': the second lookup sends no request. *)
Example test_cache_user_ids :
  let first := SupabaseStorageModel.getUserId "Ivan" (remoteModel, ivanWorld) in
  let second := SupabaseStorageModel.getUserId "Ivan" (state_after first) in
  fst first = Ret (Some "id-1")
  ∧ fst second = Ret (Some "id-1")
  ∧ Remote.callLog (remote (snd (state_after second))) = [Remote.SelectUserId "Ivan"].
Proof. vm_compute. repeat split. Qed.

(** 'should clear cache when adding badge' and 'should clear cache on
    logout'. *)
Example test_clear_cache :
  let s1 := state_after (SupabaseStorageModel.getBadges "Ivan" (remoteModel, ivanWorld)) in
  let s2 := state_after (SupabaseStorageModel.addBadge "Ivan" "New Badge" (Some "🎁") s1) in
  let s3 := state_after (SupabaseStorageModel.logout s1) in
  SupabaseStorageModel.badges (SupabaseStorageModel.cache (fst s1)) ≠ None
  ∧ SupabaseStorageModel.badges (SupabaseStorageModel.cache (fst s2)) = None
  ∧ SupabaseStorageModel.users (SupabaseStorageModel.cache (fst s3)) = None
  ∧ SupabaseStorageModel.badges (SupabaseStorageModel.cache (fst s3)) = None.
Proof. vm_compute. repeat split. discriminate. Qed.

(** 'should fall back for badge operations': without a client the badge is
    saved in the local store. *)
Example test_fallback_without_client :
  let noClient := SupabaseStorageModel.mk defaultConfig false None
                    SupabaseStorageModel.emptyCache in
  let added := SupabaseStorageModel.addBadge "LocalUser" "Local Badge" (Some "💾")
                 (noClient, emptyWorld) in
  fst added = Ret true
  ∧ local_badges "LocalUser" (snd (state_after added))
    = [mkBadge "Local Badge" "💾" (At 0)].
Proof. vm_compute. split; reflexivity. Qed.

(** 'should handle corrupted localStorage data'. *)
Example test_corrupted_local_data :
  let noClient := SupabaseStorageModel.mk defaultConfig false None
                    SupabaseStorageModel.emptyCache in
  fst (SupabaseStorageModel.getBadges "AnyUser"
         (noClient,
          set_localStorage (insert "lumi_users" (Unparsable "invalid json")) emptyWorld))
  = Ret [].
Proof. vm_compute. reflexivity. Qed.

(** The scenario of the specification: Ivan earns "Star" with an emoji and
    "Moon" without; getBadges lists the two in that order. *)
Example scenario_star_then_moon :
  let s1 := state_after (UserStorageModel.addBadge "Ivan" "Star" (Some "⭐")
                           (localFacade, emptyWorld)) in
  let s2 := state_after (UserStorageModel.addBadge "Ivan" "Moon" None s1) in
  fst (UserStorageModel.getBadges "Ivan" s2)
  = Ret [mkBadge "Star" "⭐" (At 0); mkBadge "Moon" "" (At 0)].
Proof. vm_compute. reflexivity. Qed.

(** ** Theorems *)

(** *** Running the monad *)

Ltac run :=
  unfold sessionStorage_getItem, sessionStorage_setItem, sessionStorage_removeItem,
    localStorage_getItem, localStorage_setItem, console_error, Date_now,
    JSON_parse in *;
  unfold try_catch, bind, ret, throw, this, set_this, world, set_world, call in *;
  cbn beta iota delta [fst snd] in *.

(** Case analysis on the innermost scrutinee of the goal. *)
Ltac split_case :=
  match goal with
  | |- context [match ?x with _ => _ end] =>
      lazymatch x with
      | context [match _ with _ => _ end] => fail
      | _ => destruct x eqn:?
      end
  end.

Ltac split_cases := repeat (split_case; cbn in *; subst; try discriminate).

Lemma getAllUsersFromLocalStorage_run {O} (o : O) (w : World) :
  getAllUsersFromLocalStorage (o, w) = (Ret (stored_json w), (o, after_parse w)).
Proof.
  unfold getAllUsersFromLocalStorage, stored_json, null_users, stored_users, after_parse.
  run.
  destruct (localStorage w !! "lumi_users") as [[text| |users]|]; cbn; try reflexivity.
  destruct text; reflexivity.
Qed.

(** The users object that a method works on, unless the stored text is
    [null]. *)
Lemma users_object_run {O A} (o : O) (w : World)
    (k : gmap string UserRecord.t → M O A) :
  (let* users := getAllUsersFromLocalStorage in
   let* users := object_of users in
   k users) (o, w)
  = if null_users w then (Throw TypeError, (o, after_parse w))
    else k (stored_users w) (o, after_parse w).
Proof.
  unfold bind at 1. rewrite getAllUsersFromLocalStorage_run.
  unfold stored_json. destruct (null_users w); reflexivity.
Qed.

Lemma stored_users_not_null (w : World) (username : string) (record : UserRecord.t) :
  stored_users w !! username = Some record → null_users w = false.
Proof.
  unfold stored_users, null_users.
  destruct (localStorage w !! "lumi_users") as [[text| |users]|];
    rewrite ?lookup_empty; intros H; try discriminate; reflexivity.
Qed.

Lemma persisted_layout_not_null (w : World) :
  persisted_layout w = true → null_users w = false.
Proof.
  unfold persisted_layout, null_users.
  destruct (localStorage w !! "lumi_users") as [[text| |users]|];
    intros H; first [reflexivity | discriminate H].
Qed.

Lemma after_parse_stores w :
  sessionStorage (after_parse w) = sessionStorage w
  ∧ localStorage (after_parse w) = localStorage w
  ∧ quotaExceeded (after_parse w) = quotaExceeded w
  ∧ clock (after_parse w) = clock w
  ∧ remote (after_parse w) = remote w.
Proof.
  unfold after_parse.
  destruct (localStorage w !! "lumi_users") as [[text| |users]|]; auto.
  destruct (String.eqb text ""); auto.
Qed.

(** C9: when the blob under 'lumi_users' is absent or is not parseable as
    JSON, getAllUsers returns the empty mapping and does not throw; the
    stores are left as they were. *)
Theorem getAllUsers_fails_soft (o : UserStorageModel.t) (w : World) :
  blob_unusable w →
  ∃ w', UserStorageModel.getAllUsers (o, w) = (Ret (Some ∅), (o, w'))
        ∧ localStorage w' = localStorage w
        ∧ sessionStorage w' = sessionStorage w
        ∧ remote w' = remote w.
Proof.
  intros Hblob. exists (after_parse w).
  unfold UserStorageModel.getAllUsers. rewrite getAllUsersFromLocalStorage_run.
  destruct (after_parse_stores w) as (Hs & Hl & _ & _ & Hr).
  repeat split; try assumption.
  do 2 f_equal. unfold stored_json, null_users, stored_users.
  destruct Hblob as [-> | [text ->]]; reflexivity.
Qed.

Lemma getAllUsers_fails_soft_witness :
  ∃ w', UserStorageModel.getAllUsers
          (localFacade,
           set_localStorage (insert "lumi_users" (Unparsable "invalid json")) emptyWorld)
        = (Ret (Some ∅), (localFacade, w'))
        ∧ localStorage w'
          = localStorage
              (set_localStorage (insert "lumi_users" (Unparsable "invalid json")) emptyWorld)
        ∧ sessionStorage w' = ∅
        ∧ remote w' = emptyRemote.
Proof.
  apply (getAllUsers_fails_soft localFacade
           (set_localStorage (insert "lumi_users" (Unparsable "invalid json")) emptyWorld)).
  right. exists "invalid json". reflexivity.
Defined.

(** C6: setCurrentUser on an empty or white-space-only username (or none at
    all) returns false and changes nothing: the session marker is as before,
    so unset if it was unset, and neither the local store nor the service
    is touched.  This holds for the facade and for SupabaseStorageModel. *)
Theorem setCurrentUser_rejects_blank (username password : option string)
    (o : UserStorageModel.t) (sb : SupabaseStorageModel.t) (w : World) :
  blank username →
  UserStorageModel.setCurrentUser username password (o, w) = (Ret false, (o, w))
  ∧ SupabaseStorageModel.setCurrentUser username password (sb, w) = (Ret false, (sb, w))
  ∧ (session_marker w = None →
     session_marker (snd (snd (UserStorageModel.setCurrentUser username password (o, w))))
     = None).
Proof.
  intros Hblank.
  assert (Hu : UserStorageModel.setCurrentUser username password (o, w)
               = (Ret false, (o, w))).
  { unfold UserStorageModel.setCurrentUser, UserStorageModel.setCurrentUser_exit.
    destruct username as [s|]; [|reflexivity].
    cbn in Hblank. rewrite Hblank. rewrite orb_true_r. reflexivity. }
  split; [exact Hu|]. split.
  - unfold SupabaseStorageModel.setCurrentUser, SupabaseStorageModel.setCurrentUser_exit.
    destruct username as [s|]; [|reflexivity].
    cbn in Hblank. rewrite Hblank. rewrite orb_true_r. reflexivity.
  - rewrite Hu. intros H; exact H.
Qed.

Lemma setCurrentUser_rejects_blank_witness :
  UserStorageModel.setCurrentUser (Some "   ") (Some "secret") (remoteFacade, emptyWorld)
  = (Ret false, (remoteFacade, emptyWorld))
  ∧ SupabaseStorageModel.setCurrentUser (Some "   ") (Some "secret") (remoteModel, emptyWorld)
    = (Ret false, (remoteModel, emptyWorld))
  ∧ (session_marker emptyWorld = None →
     session_marker
       (snd (snd (UserStorageModel.setCurrentUser (Some "   ") (Some "secret")
                    (remoteFacade, emptyWorld))))
     = None).
Proof.
  apply (setCurrentUser_rejects_blank (Some "   ") (Some "secret")
           remoteFacade remoteModel emptyWorld).
  reflexivity.
Defined.

(** *** logout *)

(** C10: logout of SupabaseStorageModel returns normally from every state;
    afterwards the four session keys are absent, the cache is empty and the
    current user id is null, whatever the sign-out request does.  When the
    request throws, the error is caught and logged, nothing else. *)
Theorem logout_clears_before_signOut (sb : SupabaseStorageModel.t) (w : World) :
  ∃ sb' w',
    SupabaseStorageModel.logout (sb, w) = (Ret tt, (sb', w'))
    ∧ Forall (fun k => sessionStorage w' !! k = None) session_keys
    ∧ SupabaseStorageModel.cache sb' = SupabaseStorageModel.emptyCache
    ∧ SupabaseStorageModel.currentUserId sb' = None
    ∧ localStorage w' = localStorage w
    ∧ console w'
      = console w ++ (if signOut_throws sb w then ["Error signing out:"] else []).
Proof.
  unfold SupabaseStorageModel.logout, SupabaseStorageModel.clearCache,
    SupabaseStorageModel.client_request, Remote.signOut, Remote.request,
    Remote.receive, signOut_throws.
  run. cbn.
  assert (Hkeys : ∀ m : gmap string string,
    Forall (fun k => delete "lumi_use_local_only"
                       (delete "lumi_auth_user"
                          (delete "lumi_user_id"
                             (delete "lumi_current_user" m))) !! k = None)
           session_keys).
  { intros m. unfold session_keys.
    repeat constructor; rewrite ?lookup_delete_eq; try reflexivity;
      repeat (rewrite lookup_delete_ne by discriminate);
      rewrite ?lookup_delete_eq; reflexivity. }
  split_cases;
    eexists _, _; (split; [reflexivity|]); cbn;
    rewrite ?app_nil_r; repeat split; auto.
Qed.

(** The facade's logout is that of its SupabaseStorageModel when there is
    one with a client. *)
Lemma facade_logout_delegates (sb : SupabaseStorageModel.t) (w : World) :
  SupabaseStorageModel.client sb = true →
  UserStorageModel.logout (UserStorageModel.mk (Some sb), w)
  = match SupabaseStorageModel.logout (sb, w) with
    | (r, (sb', w')) => (r, (UserStorageModel.mk (Some sb'), w'))
    end.
Proof.
  intros Hc. unfold UserStorageModel.logout, UserStorageModel.onSupabase. run.
  unfold UserStorageModel.remoteAvailable, SupabaseStorageModel.isAvailable. cbn.
  rewrite Hc. reflexivity.
Qed.

(** *** createUser *)

Lemma saveAllUsers_run (o : UserStorageModel.t) (w : World)
    (users : gmap string UserRecord.t) :
  UserStorageModel.saveAllUsers users (o, w)
  = if quotaExceeded w
    then (Ret false, (o, set_console (fun l => l ++ ["Error saving users data:"]) w))
    else (Ret true, (o, set_localStorage (insert "lumi_users" (UsersJson users)) w)).
Proof.
  unfold UserStorageModel.saveAllUsers. run.
  destruct (quotaExceeded w); reflexivity.
Qed.

Lemma stored_users_saved (w : World) (users : gmap string UserRecord.t) :
  stored_users (set_localStorage (insert "lumi_users" (UsersJson users)) w) = users.
Proof. unfold stored_users. cbn. rewrite lookup_insert_eq. reflexivity. Qed.

Lemma stored_users_after_parse (w : World) :
  stored_users (after_parse w) = stored_users w.
Proof.
  unfold stored_users. destruct (after_parse_stores w) as (_ & -> & _). reflexivity.
Qed.

Lemma createUser_run (o : UserStorageModel.t) (w : World) (username : string) :
  UserStorageModel.createUser username (o, w)
  = if null_users w then (Throw TypeError, (o, after_parse w))
    else UserStorageModel.saveAllUsers
           (<[username := UserRecord.mk (Some []) (clock w)]> (stored_users w))
           (o, after_parse w).
Proof.
  unfold UserStorageModel.createUser, UserStorageModel.getAllUsers.
  unfold bind at 1. rewrite getAllUsersFromLocalStorage_run.
  unfold bind, Date_now, world, stored_json. cbn [fst snd].
  destruct (after_parse_stores w) as (_ & _ & _ & -> & _).
  destruct (null_users w); reflexivity.
Qed.




(** *** The cache and the user id *)

Lemma isCacheValid_run (sb : SupabaseStorageModel.t) (w : World) :
  SupabaseStorageModel.isCacheValid (sb, w) = (Ret (cache_valid sb w), (sb, w)).
Proof.
  unfold SupabaseStorageModel.isCacheValid, cache_valid. run.
  destruct (SupabaseStorageModel.lastUpdate (SupabaseStorageModel.cache sb)) as [last|];
    [|reflexivity].
  destruct (last =? 0); reflexivity.
Qed.

Ltac run_getUserId :=
  unfold SupabaseStorageModel.getUserId;
  unfold try_catch at 1; unfold bind at 1;
  rewrite isCacheValid_run;
  unfold SupabaseStorageModel.updateCache_users, SupabaseStorageModel.client_request,
    Remote.select_user_id, Remote.request, Remote.receive, Remote.serve_selectUserId;
  run.

(** C8, as the code has it, for a username that is not inherited (for an
    inherited one a valid cache answers with what Object.prototype holds
    under that name): the lookup returns normally in both cases, and
    with the same value.  Without a valid cached id, a missing user gives
    null and nothing is logged; a failed call (no client, a rejected
    request, an error reply other than "no rows") gives null too, the error
    being caught inside getUserId and written to the console. *)
Theorem getUserId_null_on_missing_and_on_failure (sb : SupabaseStorageModel.t)
    (w : World) (username : string) :
  inherited_name username = false →
  truthy_opt (cached_id sb w username) = false →
  (SupabaseStorageModel.client sb = true → healthy w = true →
   Remote.find_user username (remote w) = [] →
   ∃ w', SupabaseStorageModel.getUserId username (sb, w) = (Ret None, (sb, w'))
         ∧ console w' = console w)
  ∧ (lookup_fails sb w = true →
     ∃ w', SupabaseStorageModel.getUserId username (sb, w) = (Ret None, (sb, w'))
           ∧ console w' = console w ++ ["Error getting user ID:"]).
Proof.
  intros _ Hmiss. unfold cached_id in Hmiss. split.
  - intros Hclient Hhealthy Hfind. unfold healthy in Hhealthy.
    run_getUserId. rewrite Hmiss; cbn. rewrite Hclient; cbn.
    destruct (Remote.faults (remote w)) as [|[| |] fs]; try discriminate; cbn;
      unfold Remote.find_user in *; cbn; rewrite Hfind; cbn;
      eexists; split; reflexivity.
  - intros Hfails. unfold lookup_fails in Hfails.
    run_getUserId. rewrite Hmiss; cbn.
    destruct (SupabaseStorageModel.client sb); cbn in *.
    + destruct (Remote.faults (remote w)) as [|[|code msg|] fs]; try discriminate; cbn.
      * destruct (String.eqb code "PGRST116"); [discriminate|]. cbn.
        eexists; split; reflexivity.
      * eexists; split; reflexivity.
    + eexists; split; reflexivity.
Qed.
Lemma getUserId_run (sb : SupabaseStorageModel.t) (w : World) (username : string) :
  SupabaseStorageModel.getUserId username (sb, w)
  = (Ret (fst (getUserId_outcome username sb w)), snd (getUserId_outcome username sb w)).
Proof.
  unfold getUserId_outcome, cached_id. run_getUserId.
  unfold Remote.receive, Remote.find_user.
  destruct (cache_valid sb w); cbn.
  - destruct (truthy_opt _) eqn:Hhit; cbn; [reflexivity|].
    destruct (SupabaseStorageModel.client sb); cbn; [|reflexivity].
    destruct (Remote.faults (remote w)) as [|[|code msg|] fs]; cbn;
      try reflexivity.
    + destruct (List.filter _ _) as [|row [|row2 rest]]; reflexivity.
    + destruct (List.filter _ _) as [|row [|row2 rest]]; reflexivity.
    + destruct (String.eqb code "PGRST116"); reflexivity.
  - destruct (SupabaseStorageModel.client sb); cbn; [|reflexivity].
    destruct (Remote.faults (remote w)) as [|[|code msg|] fs]; cbn;
      try reflexivity.
    + destruct (List.filter _ _) as [|row [|row2 rest]]; reflexivity.
    + destruct (List.filter _ _) as [|row [|row2 rest]]; reflexivity.
    + destruct (String.eqb code "PGRST116"); reflexivity.
Qed.

(** *** Frames *)

Lemma same_stores_refl w : same_stores w w.
Proof. unfold same_stores. tauto. Qed.

Lemma same_stores_trans w1 w2 w3 :
  same_stores w1 w2 → same_stores w2 w3 → same_stores w1 w3.
Proof.
  unfold same_stores.
  intros (?&?&?&?&?&?&?&?) (?&?&?&?&?&?&?&?).
  repeat split; congruence.
Qed.

Lemma same_stores_logged msg w : same_stores w (logged msg w).
Proof. unfold same_stores, logged. cbn. tauto. Qed.

Lemma same_stores_after_parse w : same_stores w (after_parse w).
Proof.
  destruct (after_parse_stores w) as (?&?&?&?&Hr).
  unfold same_stores. rewrite Hr. tauto.
Qed.

Lemma receive_tables (c : Remote.Call) (r : Remote.State) :
  Remote.users (snd (Remote.receive c r)) = Remote.users r
  ∧ Remote.badges (snd (Remote.receive c r)) = Remote.badges r
  ∧ Remote.accounts (snd (Remote.receive c r)) = Remote.accounts r
  ∧ Remote.next_id (snd (Remote.receive c r)) = Remote.next_id r
  ∧ Remote.callLog (snd (Remote.receive c r)) = Remote.callLog r ++ [c].
Proof. unfold Remote.receive. destruct (Remote.faults r); cbn; tauto. Qed.

Lemma same_stores_received (c : Remote.Call) (w : World) :
  same_stores w (set_remote (snd (Remote.receive c (remote w))) w).
Proof.
  destruct (receive_tables c (remote w)) as (?&?&?&?&?).
  unfold same_stores. cbn. tauto.
Qed.

Create HintDb frames.
#[local] Hint Resolve same_stores_refl same_stores_logged same_stores_after_parse
  same_stores_received : frames.

(** What [getUserId] leaves alone. *)
Lemma getUserId_frame (sb : SupabaseStorageModel.t) (w : World) (username : string) :
  let sb' := fst (snd (getUserId_outcome username sb w)) in
  let w' := snd (snd (getUserId_outcome username sb w)) in
  same_stores w w'
  ∧ SupabaseStorageModel.config sb' = SupabaseStorageModel.config sb
  ∧ SupabaseStorageModel.client sb' = SupabaseStorageModel.client sb
  ∧ SupabaseStorageModel.badges (SupabaseStorageModel.cache sb')
    = SupabaseStorageModel.badges (SupabaseStorageModel.cache sb).
Proof.
  unfold getUserId_outcome.
  destruct (truthy_opt _); cbn; [auto with frames|].
  destruct (SupabaseStorageModel.client sb) eqn:Hc; cbn; [|auto with frames].
  pose proof (same_stores_received (Remote.SelectUserId username) w) as Hrecv.
  destruct (Remote.receive _ _) as [[|code msg|] r1]; cbn in *.
  - destruct (Remote.find_user username r1) as [|row [|row2 rest]]; cbn; auto.
  - destruct (String.eqb code "PGRST116"); cbn; (split; [|auto]); auto;
      try (eapply same_stores_trans; [exact Hrecv|]; apply same_stores_logged).
  - split; [|auto]; auto;
      try (eapply same_stores_trans; [exact Hrecv|]; apply same_stores_logged).
Qed.

(** *** The badge methods run as their direct-style forms *)

Lemma getBadgesFromLocalStorage_run (sb : SupabaseStorageModel.t) (w : World)
    (username : string) :
  SupabaseStorageModel.getBadgesFromLocalStorage username (sb, w)
  = ((if null_users w then Throw TypeError else Ret (local_badges username w)),
     (sb, after_parse w)).
Proof.
  unfold SupabaseStorageModel.getBadgesFromLocalStorage, local_badges.
  rewrite users_object_run. destruct (null_users w); [reflexivity|].
  destruct (stored_users w !! username) as [userData|]; [|reflexivity].
  destruct (UserRecord.badges userData); reflexivity.
Qed.

Lemma getBadges_catch (sb : SupabaseStorageModel.t) (w : World) (username : string)
    (e : Exn) :
  (console_error "Error getting badges:" ;;;
   let* o := this in
   if fallbackToLocalStorage (SupabaseStorageModel.config o)
   then SupabaseStorageModel.getBadgesFromLocalStorage username
   else ret []) (sb, w)
  = getBadges_fallback username sb w.
Proof.
  unfold getBadges_fallback. unfold bind at 1 2, console_error, set_world, this.
  cbn [fst snd].
  destruct (fallbackToLocalStorage (SupabaseStorageModel.config sb)); [|reflexivity].
  rewrite getBadgesFromLocalStorage_run. reflexivity.
Qed.

Lemma getBadges_run (sb : SupabaseStorageModel.t) (w : World) (username : string) :
  SupabaseStorageModel.getBadges username (sb, w) = getBadges_outcome username sb w.
Proof.
  unfold SupabaseStorageModel.getBadges, getBadges_outcome, cached_badges.
  unfold try_catch at 1. unfold bind at 1. rewrite isCacheValid_run.
  unfold bind at 1, this at 1. cbn [fst snd].
  destruct (if cache_valid sb w then _ else None) as [cachedBadges|]; [reflexivity|].
  unfold bind at 1. rewrite getUserId_run.
  destruct (getUserId_outcome username sb w) as [userId [sb1 w1]]. cbn [fst snd].
  destruct (truthy_opt userId); cbn [negb]; [|reflexivity].
  unfold SupabaseStorageModel.client_request, Remote.select_badges, Remote.request,
    Remote.serve_selectBadges, SupabaseStorageModel.updateCache_badges, remote_badges.
  unfold bind at 1 2, this at 1. cbn [fst snd].
  destruct (SupabaseStorageModel.client sb1).
  - destruct (Remote.receive _ _) as [[|code msg|] r1]; cbn [fst snd].
    + run. reflexivity.
    + cbn. apply (getBadges_catch sb1 (set_remote r1 w1) username (ReplyError code msg)).
    + apply (getBadges_catch sb1 (set_remote r1 w1) username Rejected).
  - apply (getBadges_catch sb1 w1 username TypeError).
Qed.

Lemma addBadgeToLocalStorage_run (sb : SupabaseStorageModel.t) (w : World)
    (username badgeName badgeEmoji : string) :
  SupabaseStorageModel.addBadgeToLocalStorage username badgeName badgeEmoji (sb, w)
  = if null_users w then (Throw TypeError, (sb, after_parse w))
    else if quotaExceeded w then (Throw QuotaExceededError, (sb, after_parse w))
    else (Ret true,
          (sb, with_local_badge username (mkBadge badgeName badgeEmoji (At (clock w))) w)).
Proof.
  unfold SupabaseStorageModel.addBadgeToLocalStorage, with_local_badge.
  rewrite users_object_run. destruct (null_users w); [reflexivity|]. run.
  destruct (after_parse_stores w) as (_ & _ & -> & -> & _).
  destruct (quotaExceeded w); reflexivity.
Qed.

Lemma addBadge_catch (sb : SupabaseStorageModel.t) (w : World)
    (username badgeName badgeEmoji : string) :
  (console_error "Error adding badge:" ;;;
   let* o := this in
   if fallbackToLocalStorage (SupabaseStorageModel.config o)
   then SupabaseStorageModel.addBadgeToLocalStorage username badgeName badgeEmoji
   else ret false) (sb, w)
  = addBadge_fallback username badgeName badgeEmoji sb w.
Proof.
  unfold addBadge_fallback. unfold bind at 1 2, console_error, set_world, this.
  cbn [fst snd]. fold (logged "Error adding badge:" w).
  destruct (fallbackToLocalStorage (SupabaseStorageModel.config sb)); [|reflexivity].
  apply addBadgeToLocalStorage_run.
Qed.

Lemma addBadge_run (sb : SupabaseStorageModel.t) (w : World)
    (username badgeName : string) (badgeEmoji : option string) :
  SupabaseStorageModel.addBadge username badgeName badgeEmoji (sb, w)
  = addBadge_outcome username badgeName badgeEmoji sb w.
Proof.
  unfold SupabaseStorageModel.addBadge, addBadge_outcome.
  unfold try_catch at 1. unfold bind at 1. rewrite getUserId_run.
  destruct (getUserId_outcome username sb w) as [userId [sb1 w1]]. cbn [fst snd].
  destruct (truthy_opt userId); cbn [negb].
  - unfold SupabaseStorageModel.client_request, Remote.insert_badge, Remote.request,
      SupabaseStorageModel.clearCache.
    unfold bind at 1 2 3, this at 1, Date_now at 1, world at 1. cbn [fst snd].
    destruct (SupabaseStorageModel.client sb1).
    + destruct (Remote.receive _ _) as [[|code msg|] r1]; cbn [fst snd].
      * destruct (Remote.serve_insertBadge _ r1) as [reply r2]. cbn [fst snd].
        destruct (Remote.error reply) as [[code msg]|]; cbn.
        -- apply addBadge_catch.
        -- reflexivity.
      * cbn. apply addBadge_catch.
      * apply addBadge_catch.
    + apply addBadge_catch.
  - apply addBadge_catch.
Qed.

(** *** The order of a remote read *)

Lemma insert_by_time_In (x y : Remote.BadgeRow) (l : list Remote.BadgeRow) :
  In y (Remote.insert_by_time x l) ↔ y = x ∨ In y l.
Proof.
  induction l as [|z l IH]; cbn.
  - intuition congruence.
  - destruct (Remote.earned_at x <? Remote.earned_at z); cbn; rewrite ?IH;
      intuition congruence.
Qed.

Lemma order_from_In (y : Remote.BadgeRow) (l acc : list Remote.BadgeRow) :
  In y (fold_left (fun acc x => Remote.insert_by_time x acc) l acc)
  ↔ In y l ∨ In y acc.
Proof.
  revert acc. induction l as [|x l IH]; intros acc; cbn.
  - tauto.
  - rewrite IH, insert_by_time_In. intuition congruence.
Qed.

Lemma order_by_time_In (y : Remote.BadgeRow) (l : list Remote.BadgeRow) :
  In y (Remote.order_by_time l) ↔ In y l.
Proof. unfold Remote.order_by_time. rewrite order_from_In. cbn. tauto. Qed.

Lemma insert_by_time_latest (x : Remote.BadgeRow) (l : list Remote.BadgeRow) :
  (∀ y, In y l → Remote.earned_at y <= Remote.earned_at x) →
  Remote.insert_by_time x l = l ++ [x].
Proof.
  induction l as [|z l IH]; intros Hle; cbn; [reflexivity|].
  assert (Hz : Remote.earned_at z <= Remote.earned_at x) by (apply Hle; left; reflexivity).
  destruct (Z.ltb_spec (Remote.earned_at x) (Remote.earned_at z)); [lia|].
  rewrite IH; [reflexivity|]. intros y Hy. apply Hle. right. exact Hy.
Qed.

(** A row that is not earlier than the rows before it is read last. *)
Lemma order_by_time_latest (x : Remote.BadgeRow) (l : list Remote.BadgeRow) :
  (∀ y, In y l → Remote.earned_at y <= Remote.earned_at x) →
  Remote.order_by_time (l ++ [x]) = Remote.order_by_time l ++ [x].
Proof.
  intros Hle. unfold Remote.order_by_time. rewrite fold_left_app. cbn.
  apply insert_by_time_latest. intros y Hy. apply Hle.
  apply order_from_In in Hy. cbn in Hy. tauto.
Qed.

Lemma rows_of_app (uid : string) (r : Remote.State) (row : Remote.BadgeRow)
    (rows : list Remote.BadgeRow) :
  Remote.badges r = rows ++ [row] →
  Remote.user_id row = uid →
  Remote.rows_of uid r
  = List.filter (fun b => String.eqb (Remote.user_id b) uid) rows ++ [row].
Proof.
  intros Hb Hu. unfold Remote.rows_of. rewrite Hb, List.filter_app. cbn.
  rewrite Hu, String.eqb_refl. reflexivity.
Qed.

(** *** The local store after a write *)

Lemma stored_users_same (w w' : World) :
  localStorage w' = localStorage w → stored_users w' = stored_users w.
Proof. unfold stored_users. intros ->. reflexivity. Qed.

Lemma local_badges_same (w w' : World) (username : string) :
  localStorage w' = localStorage w → local_badges username w' = local_badges username w.
Proof. unfold local_badges. intros H. rewrite (stored_users_same _ _ H). reflexivity. Qed.

Lemma local_badges_pushed (users : gmap string UserRecord.t) (w0 w : World)
    (username : string) (fresh : UserRecord.t) (b : Badge) :
  UserRecord.badges fresh = Some [] →
  stored_users w = users →
  local_badges username
    (set_localStorage
       (insert "lumi_users"
          (UsersJson (<[username := push_badge (default fresh (users !! username)) b]> users)))
       w0)
  = local_badges username w ++ [b].
Proof.
  intros Hfresh Hw. unfold local_badges. rewrite stored_users_saved, lookup_insert_eq, Hw.
  cbn. destruct (users !! username) as [record|]; cbn.
  - destruct (UserRecord.badges record); cbn; [|reflexivity].
    rewrite map_app. reflexivity.
  - rewrite Hfresh. reflexivity.
Qed.

Lemma with_local_badge_badges (w : World) (username : string) (b : Badge) :
  local_badges username (with_local_badge username b w) = local_badges username w ++ [b].
Proof. unfold with_local_badge. apply local_badges_pushed; reflexivity. Qed.

Lemma with_local_badge_frame (w : World) (username : string) (b : Badge) :
  sessionStorage (with_local_badge username b w) = sessionStorage w
  ∧ remote (with_local_badge username b w) = remote w
  ∧ clock (with_local_badge username b w) = clock w.
Proof.
  unfold with_local_badge. cbn.
  destruct (after_parse_stores w) as (-> & _ & _ & -> & ->). auto.
Qed.


Lemma addBadge_fallback_true (sb sb0 : SupabaseStorageModel.t) (w w1 : World)
    (username badgeName badgeEmoji : string) (sb' : SupabaseStorageModel.t) (w' : World) :
  same_stores w w1 →
  SupabaseStorageModel.config sb0 = SupabaseStorageModel.config sb →
  SupabaseStorageModel.badges (SupabaseStorageModel.cache sb0)
  = SupabaseStorageModel.badges (SupabaseStorageModel.cache sb) →
  addBadge_fallback username badgeName badgeEmoji sb0 w1 = (Ret true, (sb', w')) →
  saved_by_fallback sb w username (mkBadge badgeName badgeEmoji (At (clock w))) sb' w'.
Proof.
  intros (Hs & Hl & Hq & Hc & Hu & Hb & _) Hcfg Hcache.
  unfold addBadge_fallback, saved_by_fallback. cbn zeta. rewrite Hcfg.
  destruct (fallbackToLocalStorage (SupabaseStorageModel.config sb)); [|discriminate].
  destruct (null_users (logged "Error adding badge:" w1)); [discriminate|].
  destruct (quotaExceeded (logged "Error adding badge:" w1)); [discriminate|].
  intros [= <- <-].
  match goal with
  | |- context [remote (with_local_badge ?u ?b ?w0)] =>
      destruct (with_local_badge_frame w0 u b) as (_ & -> & _)
  end.
  rewrite with_local_badge_badges. cbn. rewrite Hb, Hc.
  repeat split; auto.
  f_equal. apply local_badges_same. cbn. exact Hl.
Qed.

Lemma addBadge_true_cases (sb : SupabaseStorageModel.t) (w : World)
    (username badgeName : string) (badgeEmoji : option string)
    (sb' : SupabaseStorageModel.t) (w' : World) :
  addBadge_outcome username badgeName badgeEmoji sb w = (Ret true, (sb', w')) →
  (∃ uid, inserted_remotely sb w
            (Remote.mkBadgeRow uid badgeName (default "⭐" badgeEmoji) (clock w)) sb' w')
  ∨ saved_by_fallback sb w username
      (mkBadge badgeName (default "⭐" badgeEmoji) (At (clock w))) sb' w'.
Proof.
  unfold addBadge_outcome.
  pose proof (getUserId_frame sb w username) as Hframe. cbn zeta in Hframe.
  destruct (getUserId_outcome username sb w) as [userId [sb1 w1]]. cbn [fst snd] in Hframe.
  destruct Hframe as (Hstores & Hcfg & Hclient & Hcache).
  destruct (truthy_opt userId) eqn:Htruthy;
    [|intros H; right; eapply addBadge_fallback_true; eauto].
  destruct (SupabaseStorageModel.client sb1) eqn:Hc1;
    [|intros H; right; eapply addBadge_fallback_true; eauto].
  pose proof (same_stores_received
                (Remote.InsertBadge
                   (Remote.mkBadgeRow (default "" userId) badgeName
                      (default "⭐" badgeEmoji) (clock w1))) w1) as Hrecv.
  destruct (Remote.receive _ (remote w1)) as [[|code msg|] r1]; cbn [snd] in Hrecv.
  2,3: intros H; right;
       eapply (addBadge_fallback_true sb sb1 w (set_remote r1 w1));
       [eapply same_stores_trans; eauto | exact Hcfg | exact Hcache | exact H].
  unfold Remote.serve_insertBadge. cbn [Remote.user_id Remote.badge_name Remote.badge_emoji].
  destruct (negb (Remote.user_known _ r1)); cbn [Remote.error Remote.failed].
  { intros H; right;
      eapply (addBadge_fallback_true sb sb1 w (set_remote r1 w1));
      [eapply same_stores_trans; eauto | exact Hcfg | exact Hcache | exact H]. }
  destruct (_ || _); cbn [Remote.error Remote.failed].
  { intros H; right;
      eapply (addBadge_fallback_true sb sb1 w (set_remote r1 w1));
      [eapply same_stores_trans; eauto | exact Hcfg | exact Hcache | exact H]. }
  destruct (10 <? _)%nat; cbn [Remote.error Remote.failed].
  { intros H; right;
      eapply (addBadge_fallback_true sb sb1 w (set_remote r1 w1));
      [eapply same_stores_trans; eauto | exact Hcfg | exact Hcache | exact H]. }
  intros [= <- <-]. left. exists (default "" userId).
  destruct Hstores as (Hs & Hl & Hq & Hck & Hu & Hb & _).
  destruct Hrecv as (Hs' & Hl' & Hq' & Hck' & Hu' & Hb' & _). cbn in *.
  unfold inserted_remotely. cbn.
  destruct userId as [uid|]; [|discriminate]. cbn in *.
  rewrite Hb', Hb, Hu', Hu, Hck. repeat split; auto.
Qed.

(** *** getBadges of SupabaseStorageModel: hit, and read through *)

Lemma getBadges_hit (sb : SupabaseStorageModel.t) (w : World) (username : string)
    (l : list Badge) :
  cached_badges sb w username = Some l →
  SupabaseStorageModel.getBadges username (sb, w) = (Ret l, (sb, w)).
Proof.
  intros Hhit. rewrite getBadges_run. unfold getBadges_outcome. rewrite Hhit. reflexivity.
Qed.

Lemma getUserId_found (sb : SupabaseStorageModel.t) (w : World) (username uid : string) :
  truthy_opt (cached_id sb w username) = false →
  SupabaseStorageModel.client sb = true →
  Remote.faults (remote w) = [] →
  Remote.find_user username (remote w) = [Remote.mkUserRow uid username] →
  getUserId_outcome username sb w
  = (Some uid,
     (with_cached_id username uid (clock w) sb,
      with_calls [Remote.SelectUserId username] w)).
Proof.
  intros Hmiss Hclient Hfaults Hfind.
  unfold getUserId_outcome, Remote.receive, with_calls. rewrite Hmiss, Hclient, Hfaults.
  unfold Remote.find_user in *. cbn. rewrite Hfind. reflexivity.
Qed.

Lemma getBadges_reads_through (sb : SupabaseStorageModel.t) (w : World)
    (username uid : string) :
  cached_badges sb w username = None →
  truthy_opt (cached_id sb w username) = false →
  SupabaseStorageModel.client sb = true →
  Remote.faults (remote w) = [] →
  Remote.find_user username (remote w) = [Remote.mkUserRow uid username] →
  truthy uid = true →
  ∃ sb' w',
    SupabaseStorageModel.getBadges username (sb, w)
    = (Ret (remote_badges uid w), (sb', w'))
    ∧ Remote.callLog (remote w')
      = Remote.callLog (remote w) ++ [Remote.SelectUserId username; Remote.SelectBadges uid]
    ∧ same_stores w w'
    ∧ sb' = with_cached_badges username (remote_badges uid w) (clock w)
              (with_cached_id username uid (clock w) sb).
Proof.
  intros Hnone Hmiss Hclient Hfaults Hfind Htruthy.
  rewrite getBadges_run. unfold getBadges_outcome. rewrite Hnone.
  rewrite (getUserId_found sb w username uid Hmiss Hclient Hfaults Hfind).
  cbn [truthy_opt]. rewrite Htruthy.
  change (SupabaseStorageModel.client (with_cached_id username uid (clock w) sb))
    with (SupabaseStorageModel.client sb).
  rewrite Hclient. unfold Remote.receive.
  change (Remote.faults (remote (with_calls [Remote.SelectUserId username] w)))
    with (Remote.faults (remote w)).
  rewrite Hfaults. cbn [default].
  eexists _, _. split; [reflexivity|]. cbn -[remote_badges].
  split; [rewrite <- app_assoc; reflexivity|].
  split; [unfold same_stores; cbn; tauto|].
  reflexivity.
Qed.

(** *** The facade's routing *)

Lemma useLocalOnly_run (o : UserStorageModel.t) (w : World) :
  UserStorageModel.useLocalOnly (o, w) = (Ret (local_only w), (o, w)).
Proof. reflexivity. Qed.

Lemma saveAllUsers_local_save (o : UserStorageModel.t) (w : World)
    (users : gmap string UserRecord.t) :
  UserStorageModel.saveAllUsers users (o, w)
  = (Ret (fst (local_save users w)), (o, snd (local_save users w))).
Proof.
  rewrite saveAllUsers_run. unfold local_save. destruct (quotaExceeded w); reflexivity.
Qed.

Lemma local_save_clock (users : gmap string UserRecord.t) (w : World) :
  clock (snd (local_save users w)) = clock w.
Proof. unfold local_save. destruct (quotaExceeded w); reflexivity. Qed.

Lemma after_parse_clock (w : World) : clock (after_parse w) = clock w.
Proof. destruct (after_parse_stores w) as (_ & _ & _ & H & _). exact H. Qed.

Lemma facade_getBadges_local (o : UserStorageModel.t) (w : World) (username : string) :
  routes_remote o w = false →
  UserStorageModel.getBadges username (o, w)
  = ((if null_users w then Throw TypeError else Ret (local_badges username w)),
     (o, after_parse w)).
Proof.
  intros Hroute. unfold UserStorageModel.getBadges.
  unfold bind at 1. rewrite useLocalOnly_run.
  unfold bind at 1, this at 1. cbn [fst snd].
  fold (routes_remote o w). rewrite Hroute.
  unfold UserStorageModel.getUserData, UserStorageModel.getAllUsers, local_badges.
  unfold bind at 1. rewrite users_object_run.
  destruct (null_users w); [reflexivity|]. unfold ret.
  destruct (stored_users w !! username) as [userData|]; [|reflexivity].
  destruct (UserRecord.badges userData); reflexivity.
Qed.

Lemma routes_remote_after_parse (o : UserStorageModel.t) (w : World) :
  routes_remote o (after_parse w) = routes_remote o w.
Proof.
  unfold routes_remote, local_only.
  destruct (after_parse_stores w) as (-> & _). reflexivity.
Qed.

Lemma facade_getBadgeCount_local (o : UserStorageModel.t) (w : World) (username : string) :
  routes_remote o w = false →
  UserStorageModel.getBadgeCount username (o, w)
  = ((if null_users w then Throw TypeError else Ret (length (local_badges username w))),
     (o, after_parse w)).
Proof.
  intros Hroute. unfold UserStorageModel.getBadgeCount.
  unfold bind at 1. rewrite useLocalOnly_run.
  unfold bind at 1, this at 1. cbn [fst snd].
  fold (routes_remote o w). rewrite Hroute.
  unfold bind. rewrite (facade_getBadges_local o w username Hroute).
  destruct (null_users w); reflexivity.
Qed.

Lemma null_users_same (w w' : World) :
  localStorage w' = localStorage w → null_users w' = null_users w.
Proof. unfold null_users. intros ->. reflexivity. Qed.

Lemma null_users_after_parse (w : World) : null_users (after_parse w) = null_users w.
Proof. apply null_users_same. destruct (after_parse_stores w) as (_ & H & _). exact H. Qed.

Lemma local_save_not_null (users : gmap string UserRecord.t) (w : World) :
  null_users w = false → null_users (snd (local_save users w)) = false.
Proof.
  unfold local_save. destruct (quotaExceeded w); cbn; [auto|].
  intros _. unfold null_users. cbn. rewrite lookup_insert_eq. reflexivity.
Qed.

Lemma facade_addBadge_local (o : UserStorageModel.t) (w : World)
    (username badgeName : string) (badgeEmoji : option string) :
  routes_remote o w = false →
  UserStorageModel.addBadge username badgeName badgeEmoji (o, w)
  = (fst (local_addBadge_outcome username
            (mkBadge badgeName (default "" badgeEmoji) (At (clock w))) w),
     (o, snd (local_addBadge_outcome username
                (mkBadge badgeName (default "" badgeEmoji) (At (clock w))) w))).
Proof.
  intros Hroute. unfold UserStorageModel.addBadge, local_addBadge_outcome.
  unfold bind at 1. rewrite useLocalOnly_run.
  unfold bind at 1, this at 1. cbn [fst snd].
  fold (routes_remote o w). rewrite Hroute.
  unfold UserStorageModel.getAllUsers.
  rewrite users_object_run.
  destruct (null_users w) eqn:Hnull; [reflexivity|].
  destruct (stored_users w !! username) as [record|] eqn:Hrec.
  - unfold bind at 1, ret at 1. rewrite Hrec.
    unfold bind, Date_now, world. cbn [fst snd].
    rewrite saveAllUsers_local_save, after_parse_clock.
    destruct (local_save _ _); reflexivity.
  - unfold bind at 1 2. rewrite createUser_run, null_users_after_parse, Hnull.
    rewrite saveAllUsers_local_save.
    rewrite stored_users_after_parse, after_parse_clock.
    pose proof (local_save_clock
                  (<[username := UserRecord.mk (Some []) (clock w)]> (stored_users w))
                  (after_parse (after_parse w))) as Hclock.
    pose proof (local_save_not_null
                  (<[username := UserRecord.mk (Some []) (clock w)]> (stored_users w))
                  (after_parse (after_parse w))) as Hnull1.
    rewrite !null_users_after_parse in Hnull1. specialize (Hnull1 Hnull).
    rewrite !after_parse_clock in Hclock.
    destruct (local_save _ (after_parse (after_parse w))) as [created w1].
    cbn [fst snd] in *.
    unfold bind at 1. rewrite getAllUsersFromLocalStorage_run.
    unfold stored_json. rewrite Hnull1. cbn [object_of]. unfold ret at 1.
    destruct (stored_users w1 !! username) as [record|]; [|reflexivity].
    unfold bind, Date_now, world. cbn [fst snd].
    rewrite saveAllUsers_local_save, after_parse_clock, Hclock.
    destruct (local_save _ (after_parse w1)); reflexivity.
Qed.

Lemma routes_remote_inv (o : UserStorageModel.t) (w : World) :
  routes_remote o w = true →
  ∃ sb, o = UserStorageModel.mk (Some sb)
        ∧ SupabaseStorageModel.client sb = true
        ∧ local_only w = false.
Proof.
  unfold routes_remote, UserStorageModel.remoteAvailable, SupabaseStorageModel.isAvailable.
  destruct o as [[sb|]]; cbn; [|discriminate].
  intros [Hc Hl]%andb_true_iff. exists sb. rewrite negb_true_iff in Hl. auto.
Qed.

Lemma facade_addBadge_remote (sb : SupabaseStorageModel.t) (w : World)
    (username badgeName : string) (badgeEmoji : option string) :
  routes_remote (UserStorageModel.mk (Some sb)) w = true →
  UserStorageModel.addBadge username badgeName badgeEmoji (UserStorageModel.mk (Some sb), w)
  = through_facade
      (SupabaseStorageModel.addBadge username badgeName (Some (default "" badgeEmoji)) (sb, w)).
Proof.
  intros Hroute. unfold UserStorageModel.addBadge.
  unfold bind at 1. rewrite useLocalOnly_run.
  unfold bind at 1, this at 1. cbn [fst snd].
  fold (routes_remote (UserStorageModel.mk (Some sb)) w). rewrite Hroute.
  unfold UserStorageModel.onSupabase, bind, this, call, through_facade. cbn [fst snd].
  cbn [UserStorageModel.supabaseStorage].
  destruct (SupabaseStorageModel.addBadge _ _ _ _) as [r [sb' w']]. reflexivity.
Qed.

Lemma facade_getBadges_remote (sb : SupabaseStorageModel.t) (w : World)
    (username : string) :
  routes_remote (UserStorageModel.mk (Some sb)) w = true →
  UserStorageModel.getBadges username (UserStorageModel.mk (Some sb), w)
  = through_facade (SupabaseStorageModel.getBadges username (sb, w)).
Proof.
  intros Hroute. unfold UserStorageModel.getBadges.
  unfold bind at 1. rewrite useLocalOnly_run.
  unfold bind at 1, this at 1. cbn [fst snd].
  fold (routes_remote (UserStorageModel.mk (Some sb)) w). rewrite Hroute.
  unfold UserStorageModel.onSupabase, bind, this, call, through_facade. cbn [fst snd].
  cbn [UserStorageModel.supabaseStorage].
  destruct (SupabaseStorageModel.getBadges _ _) as [r [sb' w']]. reflexivity.
Qed.

Lemma local_save_frame (users : gmap string UserRecord.t) (w : World) :
  sessionStorage (snd (local_save users w)) = sessionStorage w
  ∧ remote (snd (local_save users w)) = remote w
  ∧ quotaExceeded (snd (local_save users w)) = quotaExceeded w.
Proof. unfold local_save. destruct (quotaExceeded w) eqn:Hq; cbn; auto. Qed.

Lemma after_parse_frame (w : World) :
  sessionStorage (after_parse w) = sessionStorage w
  ∧ remote (after_parse w) = remote w
  ∧ quotaExceeded (after_parse w) = quotaExceeded w.
Proof. destruct (after_parse_stores w) as (? & _ & ? & _ & ?). auto. Qed.

(** The local branch of addBadge never touches the session or the
    service. *)
Lemma local_addBadge_frame (username : string) (b : Badge) (w : World) :
  sessionStorage (snd (local_addBadge_outcome username b w)) = sessionStorage w
  ∧ remote (snd (local_addBadge_outcome username b w)) = remote w.
Proof.
  unfold local_addBadge_outcome.
  destruct (null_users w); [destruct (after_parse_frame w) as (? & ? & _); auto|].
  destruct (stored_users w !! username) as [record|].
  - pose proof (local_save_frame (<[username := push_badge record b]> (stored_users w))
                  (after_parse w)) as (Hs & Hr & _).
    destruct (local_save _ _) as [saved w1]. cbn [fst snd] in *.
    destruct (after_parse_frame w) as (Hs' & Hr' & _). split; congruence.
  - pose proof (local_save_frame
                  (<[username := UserRecord.mk (Some []) (clock w)]> (stored_users w))
                  (after_parse (after_parse w))) as (Hs & Hr & _).
    destruct (local_save _ _) as [created w1]. cbn [fst snd] in *.
    destruct (after_parse_frame w) as (Hs1 & Hr1 & _).
    destruct (after_parse_frame (after_parse w)) as (Hs2 & Hr2 & _).
    destruct (after_parse_frame w1) as (Hs3 & Hr3 & _).
    destruct (stored_users w1 !! username) as [record|]; cbn [snd].
    + pose proof (local_save_frame (<[username := push_badge record b]> (stored_users w1))
                    (after_parse w1)) as (Hs4 & Hr4 & _).
      destruct (local_save _ (after_parse w1)) as [saved w2]. cbn [fst snd] in *.
      split; congruence.
    + split; congruence.
Qed.

(** When it returns true, the badge is the last one of the user. *)
Lemma local_addBadge_true (username : string) (b : Badge) (w w' : World) :
  local_addBadge_outcome username b w = (Ret true, w') →
  local_badges username w' = local_badges username w ++ [b].
Proof.
  unfold local_addBadge_outcome.
  destruct (null_users w); [discriminate|].
  destruct (stored_users w !! username) as [record|] eqn:Hrec.
  - unfold local_save.
    destruct (quotaExceeded (after_parse w)); [discriminate|]. intros [= <-].
    replace record with (default (UserRecord.mk (Some []) 0) (stored_users w !! username))
      by (rewrite Hrec; reflexivity).
    apply local_badges_pushed; reflexivity.
  - unfold local_save at 1.
    destruct (after_parse_frame w) as (_ & _ & Hq1).
    destruct (after_parse_frame (after_parse w)) as (_ & _ & Hq2).
    rewrite Hq2, Hq1.
    destruct (quotaExceeded w) eqn:Hq.
    + rewrite (stored_users_same w (logged _ _)), Hrec; [discriminate|].
      cbn. destruct (after_parse_stores (after_parse w)) as (_ & -> & _).
      destruct (after_parse_stores w) as (_ & -> & _). reflexivity.
    + rewrite stored_users_saved, lookup_insert_eq.
      unfold local_save.
      destruct (after_parse_frame
                  (set_localStorage
                     (insert "lumi_users"
                        (UsersJson
                           (<[username := UserRecord.mk (Some []) (clock w)]> (stored_users w))))
                     (after_parse (after_parse w)))) as (_ & _ & ->).
      cbn [quotaExceeded set_localStorage]. rewrite Hq2, Hq1.
      intros [= <-].
      unfold local_badges at 2. rewrite Hrec. cbn [app].
      unfold local_badges. rewrite stored_users_saved, lookup_insert_eq. reflexivity.
Qed.

Lemma local_badges_not_null (w : World) (username : string) (l : list Badge) (b : Badge) :
  local_badges username w = l ++ [b] → null_users w = false.
Proof.
  unfold local_badges.
  destruct (stored_users w !! username) as [record|] eqn:Hrec.
  - intros _. eapply stored_users_not_null; eauto.
  - intros H. destruct l; discriminate.
Qed.

(** *** A read after a remote insert *)

Lemma empty_cache_misses (sb : SupabaseStorageModel.t) (w : World) (username : string) :
  SupabaseStorageModel.cache sb = SupabaseStorageModel.emptyCache →
  cached_badges sb w username = None
  ∧ truthy_opt (cached_id sb w username) = false.
Proof.
  intros Hempty. unfold cached_badges, cached_id, cache_valid. rewrite Hempty. cbn. auto.
Qed.

Lemma read_after_insert (sb sb' : SupabaseStorageModel.t) (w w' : World)
    (username : string) (row : Remote.BadgeRow) (t : Z) :
  inserted_remotely sb w row sb' w' →
  Remote.faults (remote w') = [] →
  Remote.find_user username (remote w') = [Remote.mkUserRow (Remote.user_id row) username] →
  ∃ sb'' w'',
    SupabaseStorageModel.getBadges username (sb', set_clock t w')
    = (Ret (remote_badges (Remote.user_id row) w'), (sb'', w''))
    ∧ In (SupabaseStorageModel.badge_of_row row) (remote_badges (Remote.user_id row) w')
    ∧ Remote.callLog (remote w'')
      = Remote.callLog (remote w')
        ++ [Remote.SelectUserId username; Remote.SelectBadges (Remote.user_id row)]
    ∧ ((∀ old, In old (Remote.rows_of (Remote.user_id row) (remote w)) →
               Remote.earned_at old <= Remote.earned_at row) →
       ∃ l, remote_badges (Remote.user_id row) w' = l ++ [SupabaseStorageModel.badge_of_row row]).
Proof.
  intros (Htruthy & Hcache & Hclient & _ & Hbadges & _) Hfaults Hfind.
  destruct (empty_cache_misses sb' (set_clock t w') username Hcache) as [Hnone Hmiss].
  destruct (getBadges_reads_through sb' (set_clock t w') username (Remote.user_id row)
              Hnone Hmiss Hclient Hfaults Hfind Htruthy)
    as (sb'' & w'' & Hrun & Hlog & _ & _).
  exists sb'', w''. split; [exact Hrun|].
  assert (Hrows : Remote.rows_of (Remote.user_id row) (remote w')
                  = Remote.rows_of (Remote.user_id row) (remote w) ++ [row]).
  { apply rows_of_app; [exact Hbadges | reflexivity]. }
  split; [|split; [exact Hlog|]].
  - unfold remote_badges. apply in_map. apply order_by_time_In.
    rewrite Hrows. apply in_or_app. right. left. reflexivity.
  - intros Hlatest. unfold remote_badges. rewrite Hrows.
    rewrite (order_by_time_latest row _ Hlatest), map_app. eexists. reflexivity.
Qed.

(** C2, as the code has it, for a username that is not inherited and a
    local store of the persisted layout: addBadge of SupabaseStorageModel
    returns true in one of two ways.  Either the
    badge was inserted into the service's table; then the whole cache is
    empty, and the next getBadges for the user, at any time, also within the
    TTL window, asks the service and, served, returns a list that contains
    the new badge.  Or the insert failed and the catch block saved the
    badge in the local store; then the cache is not cleared: the service's
    table and the cached badge lists are as they were.  (The lookup of the
    user id that went before may have written the id and the cache's one
    timestamp.) *)
Theorem addBadge_clears_cache_after_remote_insert (sb : SupabaseStorageModel.t)
    (w : World) (username badgeName : string) (badgeEmoji : option string)
    (sb' : SupabaseStorageModel.t) (w' : World) :
  inherited_name username = false →
  persisted_layout w = true →
  SupabaseStorageModel.addBadge username badgeName badgeEmoji (sb, w)
  = (Ret true, (sb', w')) →
  (∃ uid,
     inserted_remotely sb w
       (Remote.mkBadgeRow uid badgeName (default "⭐" badgeEmoji) (clock w)) sb' w'
     ∧ ∀ t,
         Remote.faults (remote w') = [] →
         Remote.find_user username (remote w') = [Remote.mkUserRow uid username] →
         ∃ l sb'' w'',
           SupabaseStorageModel.getBadges username (sb', set_clock t w')
           = (Ret l, (sb'', w''))
           ∧ In (mkBadge badgeName (default "⭐" badgeEmoji) (At (clock w))) l
           ∧ Remote.callLog (remote w'')
             = Remote.callLog (remote w')
               ++ [Remote.SelectUserId username; Remote.SelectBadges uid])
  ∨ saved_by_fallback sb w username
      (mkBadge badgeName (default "⭐" badgeEmoji) (At (clock w))) sb' w'.
Proof.
  intros _ _. rewrite addBadge_run. intros Hrun.
  destruct (addBadge_true_cases sb w username badgeName badgeEmoji sb' w' Hrun)
    as [[uid Hins] | Hfall]; [left | right; exact Hfall].
  exists uid. split; [exact Hins|]. intros t Hfaults Hfind.
  destruct (read_after_insert sb sb' w w' username _ t Hins Hfaults Hfind)
    as (sb'' & w'' & Hread & Hin & Hlog & _).
  eexists _, sb'', w''. split; [exact Hread|]. split; [exact Hin | exact Hlog].
Qed.

(** C1, as the code has it.  Let addBadge of the facade return true.  On the
    local path, getBadges right after it returns a list whose last element
    is the new badge, with the empty string for an omitted emoji.  On the
    remote path the same holds when the badge went into the service's table
    and the read is served, every badge that the service held for the user
    being earlier than the new one: among badges of the same time the order
    of the read is not fixed. *)
Theorem addBadge_getBadges_round_trip (o : UserStorageModel.t) (w : World)
    (username badgeName : string) (badgeEmoji : option string)
    (o' : UserStorageModel.t) (w' : World) :
  UserStorageModel.addBadge username badgeName badgeEmoji (o, w) = (Ret true, (o', w')) →
  (routes_remote o w = false →
   ∃ l w'',
     UserStorageModel.getBadges username (o', w')
     = (Ret (l ++ [mkBadge badgeName (default "" badgeEmoji) (At (clock w))]), (o', w'')))
  ∧ (routes_remote o w = true →
     ∀ uid,
       Remote.badges (remote w')
       = Remote.badges (remote w)
         ++ [Remote.mkBadgeRow uid badgeName (default "" badgeEmoji) (clock w)] →
       Remote.faults (remote w') = [] →
       Remote.find_user username (remote w') = [Remote.mkUserRow uid username] →
       (∀ old, In old (Remote.rows_of uid (remote w)) → Remote.earned_at old < clock w) →
       ∃ l o'' w'',
         UserStorageModel.getBadges username (o', w')
         = (Ret (l ++ [mkBadge badgeName (default "" badgeEmoji) (At (clock w))]),
            (o'', w''))).
Proof.
  intros Hadd. split.
  - intros Hroute. rewrite (facade_addBadge_local o w _ _ _ Hroute) in Hadd.
    destruct (local_addBadge_outcome _ _ w) as [r w1] eqn:Hout.
    cbn [fst snd] in Hadd. injection Hadd as -> <- <-.
    pose proof (local_addBadge_true _ _ _ _ Hout) as Hlast.
    pose proof (local_addBadge_frame username
                  (mkBadge badgeName (default "" badgeEmoji) (At (clock w))) w) as [Hs _].
    rewrite Hout in Hs. cbn [snd] in Hs.
    assert (Hroute' : routes_remote o w1 = false).
    { unfold routes_remote, local_only in *. rewrite Hs. exact Hroute. }
    rewrite (facade_getBadges_local o w1 username Hroute').
    rewrite (local_badges_not_null _ _ _ _ Hlast), Hlast.
    eexists _, _. reflexivity.
  - intros Hroute uid Hbadges Hfaults Hfind Hlatest.
    destruct (routes_remote_inv o w Hroute) as (sb & -> & Hclient & Hlocal).
    rewrite (facade_addBadge_remote sb w _ _ _ Hroute), addBadge_run in Hadd.
    destruct (addBadge_outcome _ _ _ sb w) as [r [sb' w1]] eqn:Hout.
    cbn [through_facade] in Hadd. injection Hadd as -> <- <-.
    destruct (addBadge_true_cases sb w _ _ _ sb' w1 Hout) as [[uid' Hins] | Hfall].
    + assert (Huid : uid' = uid).
      { destruct Hins as (_ & _ & _ & _ & Hb & _). cbn [default] in Hb.
        rewrite Hb in Hbadges. apply app_inv_head in Hbadges.
        injection Hbadges as ->. reflexivity. }
      subst uid'. cbn [default] in Hins.
      assert (Hroute' : routes_remote (UserStorageModel.mk (Some sb')) w1 = true).
      { destruct Hins as (_ & _ & Hc & _ & _ & _ & _ & Hs & _).
        unfold routes_remote, local_only, UserStorageModel.remoteAvailable,
          SupabaseStorageModel.isAvailable in *. cbn in *. rewrite Hc, Hs.
        rewrite Hclient in Hroute. exact Hroute. }
      rewrite (facade_getBadges_remote sb' w1 username Hroute').
      destruct (read_after_insert sb sb' w w1 username _ (clock w1) Hins Hfaults Hfind)
        as (sb'' & w'' & Hread & _ & _ & Hlast).
      destruct (Hlast (λ old Hold, Z.lt_le_incl _ _ (Hlatest old Hold))) as [l Hl].
      assert (Hclock : set_clock (clock w1) w1 = w1) by (destruct w1; reflexivity).
      rewrite Hclock in Hread. rewrite Hread. cbn [through_facade].
      rewrite Hl. eexists _, _, _. reflexivity.
    + destruct Hfall as (_ & Hsame & _). rewrite Hsame in Hbadges.
      rewrite <- (app_nil_r (Remote.badges (remote w))) in Hbadges at 1.
      apply app_inv_head in Hbadges. discriminate.
Qed.

(** *** Examples for the user-id lookup *)

Lemma getUserId_null_on_missing_and_on_failure_witness :
  (∃ w', SupabaseStorageModel.getUserId "Petar" (remoteModel, ivanWorld)
         = (Ret None, (remoteModel, w'))
         ∧ console w' = console ivanWorld)
  ∧ (∃ w', SupabaseStorageModel.getUserId "Ivan" (remoteModel, rejecting ivanWorld)
           = (Ret None, (remoteModel, w'))
           ∧ console w' = console (rejecting ivanWorld) ++ ["Error getting user ID:"]).
Proof.
  split.
  - apply (getUserId_null_on_missing_and_on_failure remoteModel ivanWorld "Petar");
      reflexivity.
  - apply (getUserId_null_on_missing_and_on_failure remoteModel (rejecting ivanWorld) "Ivan");
      reflexivity.
Defined.

(** C8 fails as stated: Petar is not in the users table and the lookup
    returns null; Ivan is in the table, the request is rejected, and the
    lookup returns null as well. *)
Lemma getUserId_failure_as_missing_counterexample :
  Remote.find_user "Petar" (remote ivanWorld) = []
  ∧ fst (SupabaseStorageModel.getUserId "Petar" (remoteModel, ivanWorld)) = Ret None
  ∧ Remote.find_user "Ivan" (remote (rejecting ivanWorld)) = [Remote.mkUserRow "id-1" "Ivan"]
  ∧ lookup_fails remoteModel (rejecting ivanWorld) = true
  ∧ fst (SupabaseStorageModel.getUserId "Ivan" (remoteModel, rejecting ivanWorld))
    = Ret None.
Proof. vm_compute. repeat split. Qed.

(** *** Examples for addBadge *)

Lemma addBadge_clears_cache_after_remote_insert_witness :
  let s := state_after (SupabaseStorageModel.addBadge "Ivan" "Star" None (remoteModel, ivanWorld)) in
  (∃ uid,
     inserted_remotely remoteModel ivanWorld
       (Remote.mkBadgeRow uid "Star" "⭐" 1000) (fst s) (snd s)
     ∧ ∀ t,
         Remote.faults (remote (snd s)) = [] →
         Remote.find_user "Ivan" (remote (snd s)) = [Remote.mkUserRow uid "Ivan"] →
         ∃ l sb'' w'',
           SupabaseStorageModel.getBadges "Ivan" (fst s, set_clock t (snd s))
           = (Ret l, (sb'', w''))
           ∧ In (mkBadge "Star" "⭐" (At 1000)) l
           ∧ Remote.callLog (remote w'')
             = Remote.callLog (remote (snd s))
               ++ [Remote.SelectUserId "Ivan"; Remote.SelectBadges uid])
  ∨ saved_by_fallback remoteModel ivanWorld "Ivan" (mkBadge "Star" "⭐" (At 1000))
      (fst s) (snd s).
Proof.
  apply (addBadge_clears_cache_after_remote_insert remoteModel ivanWorld "Ivan" "Star" None);
    vm_compute; reflexivity.
Defined.

(** C2 fails as stated on the fallback branch.  At time 1000 getBadges
    caches Maria's (empty) badge list.  At time 2000 the insert request of
    addBadge is rejected and the catch block saves the badge locally:
    addBadge returns true.  The cached list is still there, and getBadges
    at time 3000, within the TTL of 300000, returns it: no badge. *)
Lemma addBadge_fallback_keeps_cache_counterexample :
  let s1 := state_after (SupabaseStorageModel.getBadges "Maria" (remoteModel, ivanWorld)) in
  let added := SupabaseStorageModel.addBadge "Maria" "Badge X" None
                 (then_rejecting (at_time 2000 s1)) in
  let s2 := at_time 3000 (state_after added) in
  fst added = Ret true
  ∧ local_badges "Maria" (snd s2) = [mkBadge "Badge X" "⭐" (At 2000)]
  ∧ cached_badges (fst s2) (snd s2) "Maria" = Some []
  ∧ fst (SupabaseStorageModel.getBadges "Maria" s2) = Ret [].
Proof. vm_compute. repeat split. Qed.

Lemma addBadge_getBadges_round_trip_witness :
  let local := state_after (UserStorageModel.addBadge "Ivan" "Moon" None (localFacade, emptyWorld)) in
  let remote := state_after (UserStorageModel.addBadge "Ivan" "Star" (Some "⭐")
                               (remoteFacade, ivanWorld)) in
  (∃ l w'',
     UserStorageModel.getBadges "Ivan" local
     = (Ret (l ++ [mkBadge "Moon" "" (At 0)]), (fst local, w'')))
  ∧ (∃ l o'' w'',
       UserStorageModel.getBadges "Ivan" remote
       = (Ret (l ++ [mkBadge "Star" "⭐" (At 1000)]), (o'', w''))).
Proof.
  split.
  - apply (addBadge_getBadges_round_trip localFacade emptyWorld "Ivan" "Moon" None
             (fst (state_after (UserStorageModel.addBadge "Ivan" "Moon" None
                                  (localFacade, emptyWorld))))
             (snd (state_after (UserStorageModel.addBadge "Ivan" "Moon" None
                                  (localFacade, emptyWorld)))));
      vm_compute; reflexivity.
  - apply (addBadge_getBadges_round_trip remoteFacade ivanWorld "Ivan" "Star" (Some "⭐")
             (fst (state_after (UserStorageModel.addBadge "Ivan" "Star" (Some "⭐")
                                  (remoteFacade, ivanWorld))))
             (snd (state_after (UserStorageModel.addBadge "Ivan" "Star" (Some "⭐")
                                  (remoteFacade, ivanWorld)))))
      with (uid := "id-1").
    + vm_compute; reflexivity.
    + vm_compute; reflexivity.
    + vm_compute; reflexivity.
    + vm_compute; reflexivity.
    + vm_compute; reflexivity.
    + intros old Hold. vm_compute in Hold. contradiction.
Defined.

(** C1 fails as stated on the remote path.  Petar is not known to the
    service: the facade's addBadge goes to SupabaseStorageModel, whose
    catch block saves the badge locally and returns true; getBadges right
    after it asks the service, finds no user and returns the empty list. *)
Lemma addBadge_getBadges_fallback_counterexample :
  let added := UserStorageModel.addBadge "Petar" "Badge X" (Some "⭐")
                 (remoteFacade, ivanWorld) in
  routes_remote remoteFacade ivanWorld = true
  ∧ fst added = Ret true
  ∧ local_badges "Petar" (snd (state_after added)) = [mkBadge "Badge X" "⭐" (At 1000)]
  ∧ fst (UserStorageModel.getBadges "Petar" (state_after added)) = Ret [].
Proof. vm_compute. repeat split. Qed.

(** *** The cache and its single timestamp *)

Lemma cache_valid_iff (sb : SupabaseStorageModel.t) (w : World) :
  cache_valid sb w = true
  ↔ ∃ last,
      SupabaseStorageModel.lastUpdate (SupabaseStorageModel.cache sb) = Some last
      ∧ last ≠ 0
      ∧ clock w - last < cacheTimeout (SupabaseStorageModel.config sb).
Proof.
  unfold cache_valid.
  destruct (SupabaseStorageModel.lastUpdate _) as [last|].
  - destruct (Z.eqb_spec last 0) as [-> | Hne].
    + split; [discriminate|]. intros (l & [= <-] & Hl & _). contradiction.
    + rewrite Z.ltb_lt. split.
      * intros H. exists last. auto.
      * intros (l & [= <-] & _ & H). exact H.
  - split; [discriminate|]. intros (l & H & _). discriminate.
Qed.

Lemma getBadges_fallback_remote (username : string) (sb : SupabaseStorageModel.t)
    (w : World) :
  remote (snd (snd (getBadges_fallback username sb w))) = remote w.
Proof.
  unfold getBadges_fallback.
  destruct (fallbackToLocalStorage _); cbn [snd]; [|reflexivity].
  destruct (after_parse_frame (logged "Error getting badges:" w)) as (_ & -> & _).
  reflexivity.
Qed.

Section Expired.

(** The last cache write is the TTL or more ago, and there is a client. *)
Context (sb : SupabaseStorageModel.t) (w : World) (username : string).
Hypothesis Hexpired : cache_valid sb w = false.
Hypothesis Hclient : SupabaseStorageModel.client sb = true.

Lemma getUserId_expired :
  Remote.callLog (remote (snd (snd (getUserId_outcome username sb w))))
  = Remote.callLog (remote w) ++ [Remote.SelectUserId username].
Proof.
  unfold getUserId_outcome, cached_id.
  rewrite Hexpired, Hclient. cbn [truthy_opt].
  destruct (receive_tables (Remote.SelectUserId username) (remote w))
    as (_ & _ & _ & _ & Hlog).
  destruct (Remote.receive _ _) as [[|code msg|] r1]; cbn [snd] in Hlog.
  - destruct (Remote.find_user username r1) as [|row [|row2 rest]]; exact Hlog.
  - destruct (String.eqb code "PGRST116"); exact Hlog.
  - exact Hlog.
Qed.

Lemma getBadges_expired :
  ∃ rest,
    Remote.callLog (remote (snd (snd (getBadges_outcome username sb w))))
    = Remote.callLog (remote w) ++ Remote.SelectUserId username :: rest.
Proof.
  unfold getBadges_outcome, cached_badges. rewrite Hexpired.
  pose proof getUserId_expired as Hlog.
  destruct (getUserId_outcome username sb w) as [userId [sb1 w1]]. cbn [snd] in Hlog.
  destruct (truthy_opt userId); [|exists []; exact Hlog].
  destruct (SupabaseStorageModel.client sb1).
  - destruct (receive_tables (Remote.SelectBadges (default "" userId)) (remote w1))
      as (_ & _ & _ & _ & Hlog2).
    exists [Remote.SelectBadges (default "" userId)].
    destruct (Remote.receive _ (remote w1)) as [[|code msg|] r1]; cbn [snd] in *;
      rewrite ?getBadges_fallback_remote; cbn;
      rewrite Hlog2, Hlog, <- app_assoc; reflexivity.
  - exists []. rewrite getBadges_fallback_remote. exact Hlog.
Qed.

End Expired.

(** C3, as the code has it: the cache keeps one timestamp for all its
    entries, the time of its last write.  While that write is less than the
    TTL ago, a cached badge list or user id is returned with no request to
    the service and no change of state.  Once it is the TTL or more ago (or
    nothing was written), every entry counts as absent: with a client, the
    read sends a request.  And a read that is served for one user writes the
    timestamp for all: the cached list of any other user is then returned
    again, whatever its age, until the TTL after this write. *)
Theorem cache_entries_share_one_timestamp (sb : SupabaseStorageModel.t) (w : World)
    (username : string) :
  (cache_valid sb w = true
   ↔ ∃ last,
       SupabaseStorageModel.lastUpdate (SupabaseStorageModel.cache sb) = Some last
       ∧ last ≠ 0
       ∧ clock w - last < cacheTimeout (SupabaseStorageModel.config sb))
  ∧ (cache_valid sb w = true →
     (∀ l,
        SupabaseStorageModel.badges (SupabaseStorageModel.cache sb) ≫= (.!! username)
        = Some l →
        SupabaseStorageModel.getBadges username (sb, w) = (Ret l, (sb, w)))
     ∧ (∀ uid,
          SupabaseStorageModel.users (SupabaseStorageModel.cache sb) ≫= (.!! username)
          = Some uid →
          truthy uid = true →
          SupabaseStorageModel.getUserId username (sb, w) = (Ret (Some uid), (sb, w))))
  ∧ (cache_valid sb w = false →
     SupabaseStorageModel.client sb = true →
     Remote.callLog
       (remote (snd (snd (SupabaseStorageModel.getUserId username (sb, w)))))
     = Remote.callLog (remote w) ++ [Remote.SelectUserId username]
     ∧ ∃ rest,
         Remote.callLog
           (remote (snd (snd (SupabaseStorageModel.getBadges username (sb, w)))))
         = Remote.callLog (remote w) ++ Remote.SelectUserId username :: rest)
  ∧ (cache_valid sb w = false →
     SupabaseStorageModel.client sb = true →
     Remote.faults (remote w) = [] →
     ∀ uid,
       Remote.find_user username (remote w) = [Remote.mkUserRow uid username] →
       truthy uid = true →
       clock w ≠ 0 →
       ∀ other l t,
         other ≠ username →
         SupabaseStorageModel.badges (SupabaseStorageModel.cache sb) ≫= (.!! other)
         = Some l →
         t - clock w < cacheTimeout (SupabaseStorageModel.config sb) →
         let s' := snd (SupabaseStorageModel.getBadges username (sb, w)) in
         SupabaseStorageModel.getBadges other (fst s', set_clock t (snd s'))
         = (Ret l, (fst s', set_clock t (snd s')))).
Proof.
  split; [apply cache_valid_iff|]. split; [|split].
  - intros Hvalid. split.
    + intros l Hl. apply getBadges_hit. unfold cached_badges. rewrite Hvalid. exact Hl.
    + intros uid Hid Htruthy. rewrite getUserId_run. unfold getUserId_outcome, cached_id.
      rewrite Hvalid, Hid. cbn [truthy_opt]. rewrite Htruthy. reflexivity.
  - intros Hexpired Hclient. rewrite getUserId_run, getBadges_run. cbn [snd].
    split; [apply getUserId_expired; assumption | apply getBadges_expired; assumption].
  - intros Hexpired Hclient Hfaults uid Hfind Htruthy Hclock other l t Hother Hl Ht.
    assert (Hnone : cached_badges sb w username = None)
      by (unfold cached_badges; rewrite Hexpired; reflexivity).
    assert (Hmiss : truthy_opt (cached_id sb w username) = false)
      by (unfold cached_id; rewrite Hexpired; reflexivity).
    destruct (getBadges_reads_through sb w username uid Hnone Hmiss Hclient Hfaults
                Hfind Htruthy) as (sb' & w' & Hrun & _ & Hstores & Hsb').
    rewrite Hrun. cbn [snd fst]. apply getBadges_hit.
    destruct Hstores as (_ & _ & _ & Hck & _).
    unfold cached_badges, cache_valid. subst sb'. cbn -[remote_badges].
    destruct (Z.eqb_spec (clock w) 0) as [|_]; [contradiction|].
    destruct (Z.ltb_spec (t - clock w) (cacheTimeout (SupabaseStorageModel.config sb)));
      [|lia].
    destruct (SupabaseStorageModel.badges (SupabaseStorageModel.cache sb)) as [m|];
      [|discriminate].
    cbn in *. rewrite lookup_insert_ne by congruence. exact Hl.
Qed.

Lemma cache_entries_share_one_timestamp_witness :
  let s1 := state_after (SupabaseStorageModel.getBadges "Maria" (remoteModel, ivanWorld)) in
  let early := at_time 2000 s1 in
  let late := at_time 400000 s1 in
  SupabaseStorageModel.getBadges "Maria" early = (Ret [], early)
  ∧ Remote.callLog
      (remote (snd (snd (SupabaseStorageModel.getUserId "Maria" late))))
    = Remote.callLog (remote (snd late)) ++ [Remote.SelectUserId "Maria"]
  ∧ (let s' := snd (SupabaseStorageModel.getBadges "Ivan" late) in
     SupabaseStorageModel.getBadges "Maria" (fst s', set_clock 500000 (snd s'))
     = (Ret [], (fst s', set_clock 500000 (snd s')))).
Proof.
  cbv zeta.
  pose proof (cache_entries_share_one_timestamp
                (fst (state_after (SupabaseStorageModel.getBadges "Maria"
                                     (remoteModel, ivanWorld))))
                (set_clock 2000
                   (snd (state_after (SupabaseStorageModel.getBadges "Maria"
                                        (remoteModel, ivanWorld)))))
                "Maria") as (_ & Hhit & _).
  pose proof (cache_entries_share_one_timestamp
                (fst (state_after (SupabaseStorageModel.getBadges "Maria"
                                     (remoteModel, ivanWorld))))
                (set_clock 400000
                   (snd (state_after (SupabaseStorageModel.getBadges "Maria"
                                        (remoteModel, ivanWorld)))))
                "Maria") as (_ & _ & Hexpired & _).
  pose proof (cache_entries_share_one_timestamp
                (fst (state_after (SupabaseStorageModel.getBadges "Maria"
                                     (remoteModel, ivanWorld))))
                (set_clock 400000
                   (snd (state_after (SupabaseStorageModel.getBadges "Maria"
                                        (remoteModel, ivanWorld)))))
                "Ivan") as (_ & _ & _ & Hrefresh).
  split; [|split].
  - apply Hhit; vm_compute; reflexivity.
  - apply Hexpired; vm_compute; reflexivity.
  - apply (Hrefresh eq_refl eq_refl eq_refl "id-1" eq_refl eq_refl); try discriminate.
    + vm_compute; reflexivity.
    + vm_compute; reflexivity.
Defined.

(** C3 fails as stated.  With a TTL of 300000: at time 1000 Ivan's badge
    list (empty) is cached; at time 250000 Maria's list is cached; another
    device then gives Ivan a badge.  At time 400000 Ivan's entry is 399000
    old, more than the TTL, and getBadges still returns it, without a
    request to the service. *)
Lemma stale_entry_served_counterexample :
  let s1 := state_after (SupabaseStorageModel.getBadges "Ivan" (remoteModel, ivanWorld)) in
  let s2 := state_after (SupabaseStorageModel.getBadges "Maria" (at_time 250000 s1)) in
  let s3 := at_time 400000
              (elsewhere_insert (Remote.mkBadgeRow "id-1" "Star" "⭐" 300000) s2) in
  let read := SupabaseStorageModel.getBadges "Ivan" s3 in
  clock (snd (remoteModel, ivanWorld)) = 1000
  ∧ cached_badges (fst s1) (snd s1) "Ivan" = Some []
  ∧ cacheTimeout (SupabaseStorageModel.config (fst s3)) = 300000
  ∧ clock (snd s3) - 1000 = 399000
  ∧ fst read = Ret []
  ∧ Remote.callLog (remote (snd (state_after read))) = Remote.callLog (remote (snd s3))
  ∧ remote_badges "id-1" (snd s3) = [mkBadge "Star" "⭐" (At 300000)].
Proof. vm_compute. repeat split. Qed.

(** *** The fallback session *)

Lemma bind_Ret_inv {O A B} (m : M O A) (k : A → M O B) (s s' : O * World) (b : B) :
  bind m k s = (Ret b, s') →
  ∃ a s1, m s = (Ret a, s1) ∧ k a s1 = (Ret b, s').
Proof.
  unfold bind. destruct (m s) as [[a|e] s1]; [|discriminate].
  intros H. exists a, s1. auto.
Qed.

Lemma try_catch_Ret_inv {O A} (m : M O A) (h : Exn → M O A) (s s' : O * World) (a : A) :
  try_catch m h s = (Ret a, s') →
  m s = (Ret a, s') ∨ ∃ e s1, h e s1 = (Ret a, s').
Proof.
  unfold try_catch. destruct (m s) as [[a0|e] s1]; [left; assumption|].
  intros H. right. exists e, s1. exact H.
Qed.

Lemma fallbackSession_Fallback (msg trimmedUsername : string)
    (s : SupabaseStorageModel.t * World) (sb' : SupabaseStorageModel.t) (w' : World) :
  SupabaseStorageModel.fallbackSession msg trimmedUsername s = (Ret Fallback, (sb', w')) →
  local_only w' = true.
Proof.
  unfold SupabaseStorageModel.fallbackSession. run.
  destruct (fallbackToLocalStorage _); [|discriminate].
  intros [= <- <-]. unfold local_only. cbn.
  rewrite lookup_insert_eq. apply bool_decide_eq_true_2. reflexivity.
Qed.

(** One step of an inversion: where did a returned [Fallback] come
    from? *)
Ltac exit_step H :=
  lazymatch type of H with
  | bind _ _ _ = (Ret _, _) =>
      let H1 := fresh in
      apply bind_Ret_inv in H as (? & ? & H1 & H); clear H1; cbv beta in H
  | ret _ _ = (Ret _, _) => unfold ret in H; discriminate H
  | throw _ _ = (Ret _, _) => unfold throw in H; discriminate H
  | (match ?x with _ => _ end) _ = (Ret _, _) => destruct x
  | (let (_, _) := ?x in _) _ = (Ret _, _) => destruct x
  end.

Lemma supabase_Fallback_marks_local_only (username password : option string)
    (s : SupabaseStorageModel.t * World) (sb' : SupabaseStorageModel.t) (w' : World) :
  SupabaseStorageModel.setCurrentUser_exit username password s = (Ret Fallback, (sb', w')) →
  local_only w' = true.
Proof.
  unfold SupabaseStorageModel.setCurrentUser_exit. intros H.
  destruct username as [username|]; [|discriminate H].
  destruct (negb (truthy username) || String.eqb (trim username) ""); [discriminate H|].
  destruct (truthy_opt password && _).
  - apply try_catch_Ret_inv in H as [H | (e & s1 & H)].
    + repeat exit_step H.
    + eapply fallbackSession_Fallback; eassumption.
  - apply try_catch_Ret_inv in H as [H | (e & s1 & H)].
    + repeat exit_step H.
    + eapply fallbackSession_Fallback; eassumption.
Qed.

Lemma local_only_same (w w' : World) :
  sessionStorage w' = sessionStorage w → local_only w' = local_only w.
Proof. unfold local_only. intros ->. reflexivity. Qed.

Lemma facade_Fallback_marks_local_only (username password : option string)
    (o o1 : UserStorageModel.t) (w w1 : World) :
  UserStorageModel.setCurrentUser_exit username password (o, w) = (Ret Fallback, (o1, w1)) →
  local_only w1 = true.
Proof.
  unfold UserStorageModel.setCurrentUser_exit. intros H.
  destruct username as [username|]; [|discriminate H].
  destruct (negb (truthy username) || String.eqb (trim username) ""); [discriminate H|].
  unfold bind at 1, this at 1 in H. cbn [fst snd] in H.
  destruct (UserStorageModel.remoteAvailable o && truthy_opt password && _).
  - unfold UserStorageModel.onSupabase, bind, this, call in H. cbn [fst snd] in H.
    destruct (UserStorageModel.supabaseStorage o) as [sb|]; [|discriminate H].
    destruct (SupabaseStorageModel.setCurrentUser_exit _ _ _) as [r [sb' w']] eqn:Hexit.
    injection H as -> _ <-.
    eapply supabase_Fallback_marks_local_only; eassumption.
  - unfold bind at 1 2, sessionStorage_setItem, set_world in H. cbn [fst snd] in H.
    set (w0 := set_sessionStorage (insert "lumi_use_local_only" "true")
                 (set_sessionStorage (insert "lumi_current_user" (trim username)) w)) in *.
    assert (Hflag : local_only w0 = true).
    { unfold local_only, w0. cbn. rewrite lookup_insert_eq.
      apply bool_decide_eq_true_2. reflexivity. }
    unfold UserStorageModel.userExists, UserStorageModel.getAllUsers in H.
    unfold bind at 1 in H. rewrite users_object_run in H.
    destruct (null_users w0); [discriminate H|].
    unfold ret at 1 in H. cbn beta iota in H.
    destruct (bool_decide (is_Some (stored_users w0 !! "hasOwnProperty")));
      [unfold bind, throw in H; discriminate H|].
    destruct (bool_decide _).
    + unfold bind, ret in H. injection H as _ <-.
      rewrite <- Hflag. apply local_only_same.
      destruct (after_parse_frame w0) as (Hs & _). exact Hs.
    + unfold bind at 1 in H. rewrite createUser_run, null_users_after_parse in H.
      destruct (null_users w0); [discriminate H|].
      rewrite saveAllUsers_local_save in H. unfold ret in H. injection H as _ <-.
      rewrite <- Hflag. apply local_only_same.
      match goal with
      | |- sessionStorage (snd (local_save ?u ?w2)) = _ =>
          destruct (local_save_frame u w2) as (-> & _)
      end.
      destruct (after_parse_frame (after_parse w0)) as (-> & _).
      destruct (after_parse_frame w0) as (-> & _). reflexivity.
Qed.

Lemma local_only_not_routed (o : UserStorageModel.t) (w : World) :
  local_only w = true → routes_remote o w = false.
Proof. unfold routes_remote. intros ->. apply andb_false_r. Qed.

(** One step of a local-only session: no request, and what a facade
    without remote backend would do. *)
Lemma step_local (e : Event) (o : UserStorageModel.t) (w : World) :
  local_only w = true →
  ∃ seen w',
    step e (o, w) = (seen, (o, w'))
    ∧ step e (localOnlyFacade, w) = (seen, (localOnlyFacade, w'))
    ∧ local_only w' = true
    ∧ Remote.callLog (remote w') = Remote.callLog (remote w).
Proof.
  intros Hlocal.
  pose proof (local_only_not_routed o w Hlocal) as Ho.
  pose proof (local_only_not_routed localOnlyFacade w Hlocal) as Hl.
  destruct (after_parse_frame w) as (Hs & Hr & _).
  destruct e as [username badgeName badgeEmoji | username | username | service time full];
    unfold step.
  - rewrite (facade_addBadge_local o w _ _ _ Ho),
      (facade_addBadge_local localOnlyFacade w _ _ _ Hl).
    destruct (local_addBadge_frame username
                (mkBadge badgeName (default "" badgeEmoji) (At (clock w))) w) as [Hs' Hr'].
    eexists _, _. split; [reflexivity|]. split; [reflexivity|]. split.
    + rewrite <- Hlocal. apply local_only_same. exact Hs'.
    + rewrite Hr'. reflexivity.
  - rewrite (facade_getBadges_local o w _ Ho),
      (facade_getBadges_local localOnlyFacade w _ Hl).
    eexists _, _. split; [reflexivity|]. split; [reflexivity|]. split.
    + rewrite <- Hlocal. apply local_only_same. exact Hs.
    + rewrite Hr. reflexivity.
  - rewrite (facade_getBadgeCount_local o w _ Ho),
      (facade_getBadgeCount_local localOnlyFacade w _ Hl).
    eexists _, _. split; [reflexivity|]. split; [reflexivity|]. split.
    + rewrite <- Hlocal. apply local_only_same. exact Hs.
    + rewrite Hr. reflexivity.
  - eexists _, _. split; [reflexivity|]. split; [reflexivity|]. split.
    + exact Hlocal.
    + reflexivity.
Qed.

Lemma session_local (events : list Event) (o : UserStorageModel.t) (w : World) :
  local_only w = true →
  ∃ seen w',
    session events (o, w) = (seen, (o, w'))
    ∧ session events (localOnlyFacade, w) = (seen, (localOnlyFacade, w'))
    ∧ local_only w' = true
    ∧ Remote.callLog (remote w') = Remote.callLog (remote w).
Proof.
  revert w. induction events as [|e events IH]; intros w Hlocal.
  - exists [], w. cbn. auto.
  - destruct (step_local e o w Hlocal) as (seen & w1 & Hstep & Hstep' & Hlocal1 & Hlog1).
    destruct (IH w1 Hlocal1) as (rest & w2 & Hrun & Hrun' & Hlocal2 & Hlog2).
    exists (seen :: rest), w2. cbn [session].
    rewrite Hstep, Hstep', Hrun, Hrun'. repeat split; auto. congruence.
Qed.

(** C4: let setCurrentUser leave through a fallback return (the local path
    of the facade, or a catch block of SupabaseStorageModel, called through
    the facade or directly).  Then, whatever badge operations follow and
    whatever happens to the service, the clock and the local quota between
    them, no operation sends a request to the service, the session stays
    marked local-only, the facade's objects are as they were, and every
    operation returns what a facade without any remote backend returns.
    And the operations work on the local store: after the session, and so
    after each of its operations, for usernames that are not inherited and
    a local store of the persisted layout, getBadges returns the badges
    that the local store holds for the user, getBadgeCount their number,
    and an addBadge that returns true has appended the badge to them. *)
Theorem fallback_session_stays_local (o1 : UserStorageModel.t) (w1 : World)
    (events : list Event) :
  established_by_fallback o1 w1 →
  ∃ seen w2,
    session events (o1, w1) = (seen, (o1, w2))
    ∧ Remote.callLog (remote w2) = Remote.callLog (remote w1)
    ∧ local_only w2 = true
    ∧ fst (session events (localOnlyFacade, w1)) = seen
    ∧ (forallb own_event events = true →
       persisted_layout w2 = true →
       ∀ username,
         inherited_name username = false →
         fst (UserStorageModel.getBadges username (o1, w2))
         = Ret (local_badges username w2)
         ∧ fst (UserStorageModel.getBadgeCount username (o1, w2))
           = Ret (length (local_badges username w2))
         ∧ ∀ badgeName badgeEmoji,
             fst (UserStorageModel.addBadge username badgeName badgeEmoji (o1, w2))
             = Ret true →
             local_badges username
               (snd (state_after
                       (UserStorageModel.addBadge username badgeName badgeEmoji (o1, w2))))
             = local_badges username w2
               ++ [mkBadge badgeName (default "" badgeEmoji) (At (clock w2))]).
Proof.
  intros Hfallback.
  assert (Hlocal : local_only w1 = true).
  { destruct Hfallback as [(username & password & o & w & Hexit)
                          | (username & password & sb & sb' & w & Hexit)].
    - eapply facade_Fallback_marks_local_only; eassumption.
    - eapply supabase_Fallback_marks_local_only; eassumption. }
  destruct (session_local events o1 w1 Hlocal) as (seen & w2 & Hrun & Hrun' & Hl2 & Hlog).
  exists seen, w2. rewrite Hrun'.
  split; [exact Hrun|]. split; [exact Hlog|]. split; [exact Hl2|]. split; [reflexivity|].
  intros _ Hlayout username _.
  pose proof (local_only_not_routed o1 w2 Hl2) as Hroute.
  pose proof (persisted_layout_not_null w2 Hlayout) as Hnull.
  rewrite (facade_getBadges_local o1 w2 username Hroute),
    (facade_getBadgeCount_local o1 w2 username Hroute), Hnull.
  split; [reflexivity|]. split; [reflexivity|].
  intros badgeName badgeEmoji.
  rewrite (facade_addBadge_local o1 w2 username badgeName badgeEmoji Hroute).
  unfold state_after. cbn [fst snd].
  destruct (local_addBadge_outcome username
              (mkBadge badgeName (default "" badgeEmoji) (At (clock w2))) w2)
    as [r w3] eqn:Hout.
  cbn [fst snd]. intros ->. exact (local_addBadge_true _ _ _ _ Hout).
Qed.

Lemma fallback_session_stays_local_witness :
  let login := UserStorageModel.setCurrentUser_exit (Some "Ivan") (Some "secret")
                 (remoteFacade, rejecting ivanWorld) in
  fst login = Ret Fallback
  ∧ ∃ seen w2,
      session exampleEvents (state_after login) = (seen, (fst (state_after login), w2))
      ∧ Remote.callLog (remote w2) = Remote.callLog (remote (snd (state_after login)))
      ∧ local_only w2 = true
      ∧ fst (session exampleEvents (localOnlyFacade, snd (state_after login))) = seen
      ∧ local_badges "Ivan" w2 = [mkBadge "Star" "" (At 5000)]
      ∧ ∀ username,
          inherited_name username = false →
          fst (UserStorageModel.getBadges username (fst (state_after login), w2))
          = Ret (local_badges username w2)
          ∧ fst (UserStorageModel.getBadgeCount username (fst (state_after login), w2))
            = Ret (length (local_badges username w2))
          ∧ ∀ badgeName badgeEmoji,
              fst (UserStorageModel.addBadge username badgeName badgeEmoji
                     (fst (state_after login), w2))
              = Ret true →
              local_badges username
                (snd (state_after
                        (UserStorageModel.addBadge username badgeName badgeEmoji
                           (fst (state_after login), w2))))
              = local_badges username w2
                ++ [mkBadge badgeName (default "" badgeEmoji) (At (clock w2))].
Proof.
  cbv zeta. split; [vm_compute; reflexivity|].
  destruct (fallback_session_stays_local
              (fst (state_after (UserStorageModel.setCurrentUser_exit (Some "Ivan")
                                   (Some "secret") (remoteFacade, rejecting ivanWorld))))
              (snd (state_after (UserStorageModel.setCurrentUser_exit (Some "Ivan")
                                   (Some "secret") (remoteFacade, rejecting ivanWorld))))
              exampleEvents)
    as (seen & w2 & Hrun & Hlog & Hlocal & Hseen & Hstore).
  { left. exists (Some "Ivan"), (Some "secret"), remoteFacade, (rejecting ivanWorld).
    vm_compute. reflexivity. }
  exists seen, w2.
  split; [exact Hrun|]. split; [exact Hlog|]. split; [exact Hlocal|].
  split; [exact Hseen|].
  assert (Hw2 : snd (snd (session exampleEvents
                            (fst (state_after
                                    (UserStorageModel.setCurrentUser_exit (Some "Ivan")
                                       (Some "secret") (remoteFacade, rejecting ivanWorld))),
                             snd (state_after
                                    (UserStorageModel.setCurrentUser_exit (Some "Ivan")
                                       (Some "secret") (remoteFacade, rejecting ivanWorld))))))
                = w2).
  { rewrite Hrun. reflexivity. }
  split.
  - rewrite <- Hw2. vm_compute. reflexivity.
  - apply Hstore; [reflexivity|]. rewrite <- Hw2. vm_compute. reflexivity.
Defined.

(** *** verifyMigration *)

Lemma getBadges_fallback_spec (username : string) (sb : SupabaseStorageModel.t)
    (w : World) :
  same_stores w (snd (snd (getBadges_fallback username sb w)))
  ∧ (∀ e, fst (getBadges_fallback username sb w) = Throw e → null_users w = true).
Proof.
  unfold getBadges_fallback.
  destruct (fallbackToLocalStorage _); cbn [fst snd].
  - split.
    + eapply same_stores_trans; [apply same_stores_logged | apply same_stores_after_parse].
    + intros e. destruct (null_users w); [reflexivity | discriminate].
  - split; [apply same_stores_logged | discriminate].
Qed.

Lemma null_users_stores (w w' : World) :
  same_stores w w' → null_users w' = null_users w.
Proof. intros (_ & Hl & _). apply null_users_same. exact Hl. Qed.

(** getBadges of SupabaseStorageModel changes no stored record, and throws
    only on a local store that holds [null]. *)
Lemma getBadges_spec (sb : SupabaseStorageModel.t) (w : World) (username : string) :
  same_stores w (snd (snd (getBadges_outcome username sb w)))
  ∧ (∀ e, fst (getBadges_outcome username sb w) = Throw e → null_users w = true).
Proof.
  unfold getBadges_outcome.
  destruct (cached_badges sb w username); [split; [apply same_stores_refl | discriminate]|].
  destruct (getUserId_frame sb w username) as (Hstores & _).
  destruct (getUserId_outcome username sb w) as [userId [sb1 w1]]. cbn [fst snd] in Hstores.
  destruct (truthy_opt userId); [|split; [exact Hstores | discriminate]].
  destruct (SupabaseStorageModel.client sb1).
  - pose proof (same_stores_received (Remote.SelectBadges (default "" userId)) w1) as Hrecv.
    destruct (Remote.receive _ (remote w1)) as [[|code msg|] r1]; cbn [snd] in Hrecv.
    + split; [eapply same_stores_trans; eassumption | discriminate].
    + destruct (getBadges_fallback_spec username sb1 (set_remote r1 w1)) as [Hf Hthrow].
      split.
      * eapply same_stores_trans; [|exact Hf]. eapply same_stores_trans; eassumption.
      * intros e He. rewrite <- (null_users_stores w (set_remote r1 w1)); [eauto|].
        eapply same_stores_trans; eassumption.
    + destruct (getBadges_fallback_spec username sb1 (set_remote r1 w1)) as [Hf Hthrow].
      split.
      * eapply same_stores_trans; [|exact Hf]. eapply same_stores_trans; eassumption.
      * intros e He. rewrite <- (null_users_stores w (set_remote r1 w1)); [eauto|].
        eapply same_stores_trans; eassumption.
  - destruct (getBadges_fallback_spec username sb1 w1) as [Hf Hthrow]. split.
    + eapply same_stores_trans; eassumption.
    + intros e He. rewrite <- (null_users_stores w w1 Hstores). eauto.
Qed.

(** The same for getBadges of the facade. *)
Lemma facade_getBadges_spec (o : UserStorageModel.t) (w : World) (username : string) :
  same_stores w (snd (snd (UserStorageModel.getBadges username (o, w))))
  ∧ (∀ e, fst (UserStorageModel.getBadges username (o, w)) = Throw e → null_users w = true).
Proof.
  destruct (routes_remote o w) eqn:Hroute.
  - destruct (routes_remote_inv o w Hroute) as (sb & -> & _).
    rewrite (facade_getBadges_remote sb w username Hroute), getBadges_run.
    destruct (getBadges_spec sb w username) as [Hs Ht].
    destruct (getBadges_outcome username sb w) as [r [sb' w']]. cbn in *. auto.
  - rewrite (facade_getBadges_local o w username Hroute). cbn [fst snd]. split.
    + apply same_stores_after_parse.
    + intros e. destruct (null_users w); [reflexivity | discriminate].
Qed.






(** ** Further properties of the code *)

(** *** [trim] is idempotent *)

Lemma string_length_ind (P : string → Prop) :
  (∀ s, (∀ s', (String.length s' < String.length s)%nat → P s') → P s) → ∀ s, P s.
Proof.
  intros H s. remember (String.length s) as n eqn:Hn.
  revert s Hn. induction n as [n IH] using lt_wf_ind.
  intros s ->. apply H. intros s' Hlt. exact (IH _ Hlt s' eq_refl).
Qed.

Lemma trimStart_length (s : string) :
  (String.length (trimStart s) <= String.length s)%nat.
Proof.
  induction s as [s IH] using string_length_ind.
  destruct s as [|c1 [|c2 [|c3 s3]]]; cbn [trimStart String.length].
  - lia.
  - destruct (isWhiteSpace1 c1); cbn; lia.
  - destruct (isWhiteSpace1 c1).
    + assert (H := IH (String c2 "") ltac:(cbn; lia)). cbn in H |- *. lia.
    + destruct (isWhiteSpace2 c1 c2); cbn; lia.
  - destruct (isWhiteSpace1 c1).
    + assert (H := IH (String c2 (String c3 s3)) ltac:(cbn; lia)).
      cbn in H |- *. lia.
    + destruct (isWhiteSpace2 c1 c2).
      * assert (H := IH (String c3 s3) ltac:(cbn; lia)). cbn in H |- *. lia.
      * destruct (isWhiteSpace3 c1 c2 c3).
        -- assert (H := IH s3 ltac:(cbn; lia)). cbn in H |- *. lia.
        -- cbn [String.length]. lia.
Qed.

Lemma trimStart_fixed (s : string) : trimStart (trimStart s) = trimStart s.
Proof.
  induction s as [s IH] using string_length_ind.
  destruct s as [|c1 [|c2 [|c3 s3]]]; cbn [trimStart].
  - reflexivity.
  - destruct (isWhiteSpace1 c1) eqn:H1; cbn [trimStart]; rewrite ?H1; reflexivity.
  - destruct (isWhiteSpace1 c1) eqn:H1.
    + apply (IH (String c2 "")). cbn; lia.
    + destruct (isWhiteSpace2 c1 c2) eqn:H2; cbn [trimStart]; rewrite ?H1, ?H2; reflexivity.
  - destruct (isWhiteSpace1 c1) eqn:H1.
    + apply (IH (String c2 (String c3 s3))). cbn; lia.
    + destruct (isWhiteSpace2 c1 c2) eqn:H2.
      * apply (IH (String c3 s3)). cbn; lia.
      * destruct (isWhiteSpace3 c1 c2 c3) eqn:H3.
        -- apply IH. cbn; lia.
        -- cbn [trimStart]. rewrite H1, H2, H3. reflexivity.
Qed.

(** A prefix of a text that starts with no white space starts with none. *)
Lemma trimStart_prefix (y q : string) :
  trimStart (y +:+ q) = y +:+ q → trimStart y = y.
Proof.
  intros H.
  assert (Hl : ∀ s c, trimStart s ≠ String c s).
  { intros s c Heq. pose proof (trimStart_length s) as Hlen.
    rewrite Heq in Hlen. cbn in Hlen. lia. }
  assert (Hl2 : ∀ s c c', trimStart s ≠ String c (String c' s)).
  { intros s c c' Heq. pose proof (trimStart_length s) as Hlen.
    rewrite Heq in Hlen. cbn in Hlen. lia. }
  assert (Hl3 : ∀ s c c' c'', trimStart s ≠ String c (String c' (String c'' s))).
  { intros s c c' c'' Heq. pose proof (trimStart_length s) as Hlen.
    rewrite Heq in Hlen. cbn in Hlen. lia. }
  destruct y as [|c1 y1]; [reflexivity|].
  change (String c1 y1 +:+ q) with (String c1 (y1 +:+ q)) in H.
  cbn [trimStart] in H.
  destruct (isWhiteSpace1 c1) eqn:H1; [exfalso; exact (Hl _ _ H)|].
  destruct y1 as [|c2 y2]; [cbn [trimStart]; rewrite H1; reflexivity|].
  change (String c2 y2 +:+ q) with (String c2 (y2 +:+ q)) in H. cbn beta iota in H.
  destruct (isWhiteSpace2 c1 c2) eqn:H2; [exfalso; exact (Hl2 _ _ _ H)|].
  destruct y2 as [|c3 y3]; [cbn [trimStart]; rewrite H1, H2; reflexivity|].
  change (String c3 y3 +:+ q) with (String c3 (y3 +:+ q)) in H. cbn beta iota in H.
  destruct (isWhiteSpace3 c1 c2 c3) eqn:H3; [exfalso; exact (Hl3 _ _ _ _ H)|].
  cbn [trimStart]. rewrite H1, H2, H3. reflexivity.
Qed.

Lemma append_String (c : ascii) (s t : string) :
  String c s +:+ t = String c (s +:+ t).
Proof. reflexivity. Qed.

Lemma trimStart_rev_suffix (s : string) :
  ∃ p, s = p +:+ trimStart_rev s.
Proof.
  induction s as [s IH] using string_length_ind.
  destruct s as [|c1 [|c2 [|c3 s3]]]; cbn [trimStart_rev].
  - exists "". reflexivity.
  - destruct (isWhiteSpace1 c1); [exists (String c1 "")|exists ""]; reflexivity.
  - destruct (isWhiteSpace1 c1).
    + destruct (IH (String c2 "") ltac:(cbn; lia)) as [p Hp]. cbn [trimStart_rev] in Hp.
      exists (String c1 p). rewrite !append_String, <- Hp. reflexivity.
    + destruct (isWhiteSpace2 c2 c1); [exists (String c1 (String c2 ""))|exists ""];
        reflexivity.
  - destruct (isWhiteSpace1 c1).
    + destruct (IH (String c2 (String c3 s3)) ltac:(cbn; lia)) as [p Hp]. cbn [trimStart_rev] in Hp.
      exists (String c1 p). rewrite !append_String, <- Hp. reflexivity.
    + destruct (isWhiteSpace2 c2 c1).
      * destruct (IH (String c3 s3) ltac:(cbn; lia)) as [p Hp]. cbn [trimStart_rev] in Hp.
        exists (String c1 (String c2 p)). rewrite Hp at 1.
        reflexivity.
      * destruct (isWhiteSpace3 c3 c2 c1).
        -- destruct (IH s3 ltac:(cbn; lia)) as [p Hp]. cbn [trimStart_rev] in Hp.
           exists (String c1 (String c2 (String c3 p))). rewrite !append_String, <- Hp. reflexivity.
        -- exists "". reflexivity.
Qed.

Lemma trimStart_rev_fixed (s : string) :
  trimStart_rev (trimStart_rev s) = trimStart_rev s.
Proof.
  induction s as [s IH] using string_length_ind.
  destruct s as [|c1 [|c2 [|c3 s3]]]; cbn [trimStart_rev].
  - reflexivity.
  - destruct (isWhiteSpace1 c1) eqn:H1; cbn [trimStart_rev]; rewrite ?H1; reflexivity.
  - destruct (isWhiteSpace1 c1) eqn:H1.
    + apply (IH (String c2 "")). cbn; lia.
    + destruct (isWhiteSpace2 c2 c1) eqn:H2; cbn [trimStart_rev]; rewrite ?H1, ?H2;
        reflexivity.
  - destruct (isWhiteSpace1 c1) eqn:H1.
    + apply (IH (String c2 (String c3 s3))). cbn; lia.
    + destruct (isWhiteSpace2 c2 c1) eqn:H2.
      * apply (IH (String c3 s3)). cbn; lia.
      * destruct (isWhiteSpace3 c3 c2 c1) eqn:H3.
        -- apply IH. cbn; lia.
        -- cbn [trimStart_rev]. rewrite H1, H2, H3. reflexivity.
Qed.

Lemma append_empty_r (s : string) : s +:+ "" = s.
Proof. induction s as [|c s IH]; [reflexivity|]. rewrite append_String, IH. reflexivity. Qed.

Lemma rev_app_rev_app (s t u : string) :
  String.rev_app (String.rev_app s t) u = String.rev_app t (s +:+ u).
Proof.
  revert t. induction s as [|c s IH]; intros t; [reflexivity|].
  cbn [String.rev_app]. rewrite IH. reflexivity.
Qed.

Lemma rev_rev (s : string) : String.rev (String.rev s) = s.
Proof. unfold String.rev. rewrite rev_app_rev_app. cbn. apply append_empty_r. Qed.

Lemma rev_app_append (s t u : string) :
  String.rev_app s t +:+ u = String.rev_app s (t +:+ u).
Proof.
  revert t. induction s as [|c s IH]; intros t; [reflexivity|].
  cbn [String.rev_app]. rewrite IH. reflexivity.
Qed.

Lemma rev_app_of_append (s t u : string) :
  String.rev_app (s +:+ t) u = String.rev_app t (String.rev_app s u).
Proof.
  revert u. induction s as [|c s IH]; intros u; [reflexivity|].
  rewrite append_String. cbn [String.rev_app]. apply IH.
Qed.

Lemma rev_append (s t : string) :
  String.rev (s +:+ t) = String.rev t +:+ String.rev s.
Proof.
  unfold String.rev. rewrite rev_app_of_append, rev_app_append. reflexivity.
Qed.

(** [trim] is idempotent: what it returns has no white space left at either
    end. *)
Lemma trim_trim (s : string) : trim (trim s) = trim s.
Proof.
  unfold trim, trimEnd.
  set (x := trimStart s).
  assert (Hx : trimStart x = x) by apply trimStart_fixed.
  destruct (trimStart_rev_suffix (String.rev x)) as [p Hp].
  assert (Hsplit : x = String.rev (trimStart_rev (String.rev x)) +:+ String.rev p).
  { rewrite <- rev_append, <- Hp, rev_rev. reflexivity. }
  assert (Hy : trimStart (String.rev (trimStart_rev (String.rev x)))
               = String.rev (trimStart_rev (String.rev x))).
  { apply (trimStart_prefix _ (String.rev p)). rewrite <- Hsplit. exact Hx. }
  rewrite Hy, rev_rev, trimStart_rev_fixed. reflexivity.
Qed.

(** *** The session that setCurrentUser leaves *)

Lemma returned_true (x : Exit) : returned x = true → x = RemoteSession ∨ x = Fallback.
Proof. destruct x; cbn; intros H; try discriminate H; auto. Qed.

Ltac lookups :=
  repeat first
    [ rewrite lookup_insert_eq
    | rewrite lookup_delete_eq
    | rewrite lookup_insert_ne by discriminate
    | rewrite lookup_delete_ne by discriminate ].

Lemma supabase_setCurrentUser_exit_spec (username : string) (password : option string)
    (sb : SupabaseStorageModel.t) (w : World) :
  ∃ x sb' w',
    SupabaseStorageModel.setCurrentUser_exit (Some username) password (sb, w)
    = (Ret x, (sb', w'))
    ∧ session_of_exit (trim username) x sb w sb' w'
    ∧ (returned x = true → trim username ≠ "")
    ∧ localStorage w' = localStorage w
    ∧ SupabaseStorageModel.config sb' = SupabaseStorageModel.config sb
    ∧ SupabaseStorageModel.client sb' = SupabaseStorageModel.client sb
    ∧ SupabaseStorageModel.cache sb' = SupabaseStorageModel.cache sb.
Proof.
  unfold SupabaseStorageModel.setCurrentUser_exit, SupabaseStorageModel.fallbackSession,
    SupabaseStorageModel.client_request.
  run.
  split_cases.
  all: eexists _, _, _; (split; [reflexivity|]).
  all: unfold session_of_exit, session_marker, local_only; cbn.
  all: lookups; repeat split; try reflexivity; try assumption.
  all: try (intros Hret; try discriminate Hret;
            match goal with
            | H : _ || _ = false |- _ =>
                apply orb_false_elim in H as [_ H]; apply String.eqb_neq in H; exact H
            end).
  all: try (apply bool_decide_eq_true_2; reflexivity).
  all: try (apply bool_decide_eq_false_2; discriminate).
Qed.

Lemma facade_setCurrentUser_local (o : UserStorageModel.t) (w : World)
    (username : string) (password : option string) :
  trim username ≠ "" →
  logs_in_locally o password = true →
  UserStorageModel.setCurrentUser_exit (Some username) password (o, w)
  = (fst (local_setCurrentUser_outcome (trim username) w),
     (o, snd (local_setCurrentUser_outcome (trim username) w))).
Proof.
  intros Htrim Hlocal.
  unfold UserStorageModel.setCurrentUser_exit.
  assert (Hblank : negb (truthy username) || String.eqb (trim username) "" = false).
  { apply orb_false_intro.
    - unfold truthy. rewrite negb_involutive. apply String.eqb_neq.
      intros ->. apply Htrim. reflexivity.
    - apply String.eqb_neq. exact Htrim. }
  rewrite Hblank.
  unfold bind at 1, this at 1. cbn [fst snd].
  unfold logs_in_locally in Hlocal. apply negb_true_iff in Hlocal. rewrite Hlocal.
  unfold bind at 1 2, sessionStorage_setItem, set_world. cbn [fst snd].
  unfold local_setCurrentUser_outcome.
  fold (local_session (trim username) w).
  set (w0 := local_session (trim username) w).
  unfold UserStorageModel.userExists, UserStorageModel.getAllUsers.
  unfold bind at 1. rewrite users_object_run.
  destruct (null_users w0) eqn:Hnull; [reflexivity|].
  unfold ret at 1. cbn beta iota.
  destruct (bool_decide (is_Some (stored_users w0 !! "hasOwnProperty")));
    [reflexivity|].
  destruct (bool_decide _).
  - reflexivity.
  - unfold bind at 1. rewrite createUser_run, null_users_after_parse, Hnull.
    rewrite saveAllUsers_local_save. unfold ret.
    rewrite stored_users_after_parse, after_parse_clock. reflexivity.
Qed.

Lemma local_session_frame (trimmedUsername : string) (w : World) :
  localStorage (local_session trimmedUsername w) = localStorage w
  ∧ clock (local_session trimmedUsername w) = clock w
  ∧ quotaExceeded (local_session trimmedUsername w) = quotaExceeded w
  ∧ remote (local_session trimmedUsername w) = remote w
  ∧ session_marker (local_session trimmedUsername w) = Some trimmedUsername
  ∧ local_only (local_session trimmedUsername w) = true.
Proof.
  unfold local_session, session_marker, local_only. cbn. lookups.
  repeat split.
Qed.

Lemma local_setCurrentUser_session (trimmedUsername : string) (w : World) :
  sessionStorage (snd (local_setCurrentUser_outcome trimmedUsername w))
  = sessionStorage (local_session trimmedUsername w)
  ∧ remote (snd (local_setCurrentUser_outcome trimmedUsername w)) = remote w.
Proof.
  unfold local_setCurrentUser_outcome.
  set (w0 := local_session trimmedUsername w).
  assert (Hr : remote w0 = remote w) by apply local_session_frame.
  destruct (after_parse_frame w0) as (Hs & Hr0 & _).
  destruct (null_users w0); [cbn [snd]; rewrite Hr0; auto|].
  destruct (bool_decide _); [cbn [snd]; rewrite Hr0; auto|].
  destruct (bool_decide _); [cbn [snd]; rewrite Hr0; auto|].
  cbn [snd].
  match goal with
  | |- context [local_save ?u ?w2] => destruct (local_save_frame u w2) as (-> & -> & _)
  end.
  destruct (after_parse_frame (after_parse w0)) as (-> & -> & _).
  rewrite Hs, Hr0. auto.
Qed.

(** The exits of the facade's setCurrentUser that return true leave the
    trimmed username as the session marker. *)
Lemma facade_exit_marker (username : string) (password : option string)
    (o : UserStorageModel.t) (w : World) (x : Exit) (o' : UserStorageModel.t)
    (w' : World) :
  UserStorageModel.setCurrentUser_exit (Some username) password (o, w)
  = (Ret x, (o', w')) →
  returned x = true →
  session_marker w' = Some (trim username) ∧ trim username ≠ "".
Proof.
  intros H Hret.
  destruct (String.eqb (trim username) "") eqn:Hblank.
  { unfold UserStorageModel.setCurrentUser_exit in H.
    rewrite Hblank, orb_true_r in H. injection H as <- _ _. discriminate Hret. }
  apply String.eqb_neq in Hblank. split; [|exact Hblank].
  destruct (logs_in_locally o password) eqn:Hlocal.
  - rewrite (facade_setCurrentUser_local o w username password Hblank Hlocal) in H.
    injection H as _ _ <-.
    unfold session_marker.
    destruct (local_setCurrentUser_session (trim username) w) as [-> _].
    apply local_session_frame.
  - unfold UserStorageModel.setCurrentUser_exit in H.
    assert (Hb : negb (truthy username) || String.eqb (trim username) "" = false).
    { apply orb_false_intro.
      - unfold truthy. rewrite negb_involutive. apply String.eqb_neq.
        intros ->. apply Hblank. reflexivity.
      - apply String.eqb_neq. exact Hblank. }
    rewrite Hb in H. unfold bind at 1, this at 1 in H. cbn [fst snd] in H.
    unfold logs_in_locally in Hlocal. apply negb_false_iff in Hlocal.
    rewrite Hlocal in H.
    unfold UserStorageModel.onSupabase, bind, this, call in H. cbn [fst snd] in H.
    destruct (UserStorageModel.supabaseStorage o) as [sb|]; [|discriminate H].
    destruct (supabase_setCurrentUser_exit_spec (trim username) password sb w)
      as (x0 & sb' & w0 & Hexit & Hsession & _).
    cbn [fst snd] in H. rewrite Hexit in H. injection H as <- _ <-.
    rewrite trim_trim in Hsession.
    destruct (returned_true _ Hret) as [-> | ->]; apply Hsession.
Qed.

(** X1: when setCurrentUser of the facade returns true, on any of its
    paths, getCurrentUser right after it returns the trimmed username, which
    is not empty. *)
Theorem setCurrentUser_then_getCurrentUser (username : string)
    (password : option string) (s : UserStorageModel.t * World) :
  fst (UserStorageModel.setCurrentUser (Some username) password s) = Ret true →
  UserStorageModel.getCurrentUser
    (state_after (UserStorageModel.setCurrentUser (Some username) password s))
  = (Ret (Some (trim username)),
     state_after (UserStorageModel.setCurrentUser (Some username) password s))
  ∧ trim username ≠ "".
Proof.
  destruct s as [o w]. unfold UserStorageModel.setCurrentUser, state_after.
  unfold bind, ret.
  destruct (UserStorageModel.setCurrentUser_exit (Some username) password (o, w))
    as [[x|e] [o' w']] eqn:Hexit; cbn [fst snd]; [|discriminate].
  intros [= Hret].
  destruct (facade_exit_marker _ _ _ _ _ _ _ Hexit Hret) as [Hmarker Htrim].
  split; [|exact Htrim].
  unfold UserStorageModel.getCurrentUser, sessionStorage_getItem, world. cbn [fst snd].
  unfold session_marker in Hmarker. rewrite Hmarker. reflexivity.
Qed.

Lemma setCurrentUser_then_getCurrentUser_witness :
  UserStorageModel.getCurrentUser
    (state_after (UserStorageModel.setCurrentUser (Some "  Nadia ") (Some "secret")
                    (remoteFacade, emptyWorld)))
  = (Ret (Some (trim "  Nadia ")),
     state_after (UserStorageModel.setCurrentUser (Some "  Nadia ") (Some "secret")
                    (remoteFacade, emptyWorld)))
  ∧ trim "  Nadia " ≠ "".
Proof.
  apply (setCurrentUser_then_getCurrentUser "  Nadia " (Some "secret")
           (remoteFacade, emptyWorld)).
  vm_compute. reflexivity.
Defined.

(** X2: setCurrentUser of SupabaseStorageModel never rejects and never
    writes localStorage or the cache.  When it returns false, the session
    storage and currentUserId are as before.  When it returns true with the
    fallback switched off, the session is a remote one: there is a client
    and the session is not marked local-only. *)
Theorem supabase_setCurrentUser_never_rejects (username password : option string)
    (sb : SupabaseStorageModel.t) (w : World) :
  ∃ b sb' w',
    SupabaseStorageModel.setCurrentUser username password (sb, w) = (Ret b, (sb', w'))
    ∧ localStorage w' = localStorage w
    ∧ SupabaseStorageModel.cache sb' = SupabaseStorageModel.cache sb
    ∧ (b = false →
       sessionStorage w' = sessionStorage w
       ∧ SupabaseStorageModel.currentUserId sb' = SupabaseStorageModel.currentUserId sb)
    ∧ (b = true →
       fallbackToLocalStorage (SupabaseStorageModel.config sb) = false →
       SupabaseStorageModel.client sb = true ∧ local_only w' = false).
Proof.
  unfold SupabaseStorageModel.setCurrentUser.
  destruct username as [username|].
  - destruct (supabase_setCurrentUser_exit_spec username password sb w)
      as (x & sb' & w' & Hexit & Hsession & _ & Hlocal & _ & _ & Hcache).
    exists (returned x), sb', w'. unfold bind, ret. rewrite Hexit.
    split; [reflexivity|]. split; [exact Hlocal|]. split; [exact Hcache|].
    destruct x; cbn in *; split; intros H; try discriminate H; try exact Hsession.
    + intros _. split; apply Hsession.
    + intros Hoff. destruct Hsession as (_ & _ & Hon). congruence.
  - exists false, sb, w. repeat split; try discriminate.
Qed.

(** X3: a session that setCurrentUser of the facade established with the
    service is routed to the service.  The facade holds a
    SupabaseStorageModel with a client, the session is not marked
    local-only and carries the trimmed username, and addBadge and getBadges
    of the facade are those of SupabaseStorageModel, the facade's default
    emoji, the empty string, being passed on. *)
Theorem remote_session_is_routed_remote (username : string) (password : option string)
    (s : UserStorageModel.t * World) :
  fst (UserStorageModel.setCurrentUser_exit (Some username) password s)
  = Ret RemoteSession →
  let s' := state_after (UserStorageModel.setCurrentUser_exit (Some username) password s) in
  ∃ sb',
    fst s' = UserStorageModel.mk (Some sb')
    ∧ SupabaseStorageModel.client sb' = true
    ∧ local_only (snd s') = false
    ∧ session_marker (snd s') = Some (trim username)
    ∧ (∀ u badgeName badgeEmoji,
         UserStorageModel.addBadge u badgeName badgeEmoji s'
         = through_facade
             (SupabaseStorageModel.addBadge u badgeName (Some (default "" badgeEmoji))
                (sb', snd s')))
    ∧ (∀ u,
         UserStorageModel.getBadges u s'
         = through_facade (SupabaseStorageModel.getBadges u (sb', snd s'))).
Proof.
  destruct s as [o w]. unfold state_after.
  destruct (UserStorageModel.setCurrentUser_exit (Some username) password (o, w))
    as [[x|e] [o' w']] eqn:Hexit; cbn [fst snd]; [|discriminate].
  intros [= ->].
  destruct (facade_exit_marker _ _ _ _ _ _ _ Hexit eq_refl) as [Hmarker Htrim].
  destruct (logs_in_locally o password) eqn:Hlocal.
  { rewrite (facade_setCurrentUser_local o w username password Htrim Hlocal) in Hexit.
    unfold local_setCurrentUser_outcome in Hexit.
    destruct (null_users _); [discriminate Hexit|].
    destruct (bool_decide _); [discriminate Hexit|].
    destruct (bool_decide _); discriminate Hexit. }
  unfold UserStorageModel.setCurrentUser_exit in Hexit.
  assert (Hb : negb (truthy username) || String.eqb (trim username) "" = false).
  { apply orb_false_intro.
    - unfold truthy. rewrite negb_involutive. apply String.eqb_neq.
      intros ->. apply Htrim. reflexivity.
    - apply String.eqb_neq. exact Htrim. }
  rewrite Hb in Hexit. unfold bind at 1, this at 1 in Hexit. cbn [fst snd] in Hexit.
  unfold logs_in_locally in Hlocal. apply negb_false_iff in Hlocal.
  rewrite Hlocal in Hexit.
  unfold UserStorageModel.onSupabase, bind, this, call in Hexit. cbn [fst snd] in Hexit.
  destruct (UserStorageModel.supabaseStorage o) as [sb|]; [|discriminate Hexit].
  destruct (supabase_setCurrentUser_exit_spec (trim username) password sb w)
    as (x0 & sb' & w0 & Hsb & Hsession & _ & _ & _ & Hclient & _).
  cbn [fst snd] in Hexit. rewrite Hsb in Hexit. injection Hexit as -> <- <-.
  destruct Hsession as (_ & Hflag & _ & Hc).
  assert (Hroute : routes_remote (UserStorageModel.mk (Some sb')) w0 = true).
  { unfold routes_remote, UserStorageModel.remoteAvailable,
      SupabaseStorageModel.isAvailable. cbn. rewrite Hclient, Hc, Hflag. reflexivity. }
  exists sb'. split; [reflexivity|]. split; [congruence|]. split; [exact Hflag|].
  split; [exact Hmarker|]. split.
  - intros u badgeName badgeEmoji. apply facade_addBadge_remote. exact Hroute.
  - intros u. apply facade_getBadges_remote. exact Hroute.
Qed.

Lemma remote_session_is_routed_remote_witness :
  let s' := state_after (UserStorageModel.setCurrentUser_exit (Some " Nadia ")
                           (Some "secret") (remoteFacade, emptyWorld)) in
  ∃ sb',
    fst s' = UserStorageModel.mk (Some sb')
    ∧ SupabaseStorageModel.client sb' = true
    ∧ local_only (snd s') = false
    ∧ session_marker (snd s') = Some (trim " Nadia ")
    ∧ (∀ u badgeName badgeEmoji,
         UserStorageModel.addBadge u badgeName badgeEmoji s'
         = through_facade
             (SupabaseStorageModel.addBadge u badgeName (Some (default "" badgeEmoji))
                (sb', snd s')))
    ∧ (∀ u,
         UserStorageModel.getBadges u s'
         = through_facade (SupabaseStorageModel.getBadges u (sb', snd s'))).
Proof.
  apply (remote_session_is_routed_remote " Nadia " (Some "secret")
           (remoteFacade, emptyWorld)).
  vm_compute. reflexivity.
Defined.

Lemma local_session_users (trimmedUsername : string) (w : World) :
  stored_users (local_session trimmedUsername w) = stored_users w
  ∧ null_users (local_session trimmedUsername w) = null_users w.
Proof.
  destruct (local_session_frame trimmedUsername w) as (Hl & _).
  split; [apply stored_users_same | apply null_users_same]; exact Hl.
Qed.

Lemma facade_setCurrentUser_of_exit (username password : option string)
    (s : UserStorageModel.t * World) :
  UserStorageModel.setCurrentUser username password s
  = match UserStorageModel.setCurrentUser_exit username password s with
    | (Ret x, s') => (Ret (returned x), s')
    | (Throw e, s') => (Throw e, s')
    end.
Proof. reflexivity. Qed.

Lemma not_inherited_not_hasOwnProperty (name : string) :
  inherited_name name = false → name ≠ "hasOwnProperty".
Proof. intros H ->. discriminate H. Qed.

Lemma hasOwnProperty_test (users : gmap string UserRecord.t) :
  users !! "hasOwnProperty" = None →
  bool_decide (is_Some (users !! "hasOwnProperty")) = false.
Proof. intros ->. apply bool_decide_eq_false_2. intros [? ?]; discriminate. Qed.

(** X4: on its local path, with a local store of the persisted layout that
    has room and in which no user is named hasOwnProperty, setCurrentUser
    for a username that is not inherited returns true and the user has a
    record afterwards: the one it had, or a fresh one, without badges and
    created now.  The records of all other users are as before. *)
Theorem setCurrentUser_local_creates_user (username : string)
    (password : option string) (o : UserStorageModel.t) (w : World) :
  trim username ≠ "" →
  inherited_name (trim username) = false →
  logs_in_locally o password = true →
  persisted_layout w = true →
  hasOwnProperty_inherited w →
  quotaExceeded w = false →
  ∃ w',
    UserStorageModel.setCurrentUser (Some username) password (o, w) = (Ret true, (o, w'))
    ∧ stored_users w' !! trim username
      = Some (default (UserRecord.mk (Some []) (clock w))
                      (stored_users w !! trim username))
    ∧ (∀ other, other ≠ trim username →
                stored_users w' !! other = stored_users w !! other)
    ∧ fst (UserStorageModel.userExists (trim username) (o, w')) = Ret true.
Proof.
  intros Htrim Hname Hlocal Hlayout Hown Hquota.
  apply not_inherited_not_hasOwnProperty in Hname.
  unfold hasOwnProperty_inherited in Hown.
  pose proof (persisted_layout_not_null w Hlayout) as Hnull.
  rewrite facade_setCurrentUser_of_exit,
    (facade_setCurrentUser_local o w username password Htrim Hlocal).
  unfold local_setCurrentUser_outcome.
  destruct (local_session_users (trim username) w) as [Husers Hnull0].
  destruct (local_session_frame (trim username) w) as (_ & Hclock & Hq & _).
  set (w0 := local_session (trim username) w) in *.
  rewrite Hnull0, Hnull, Husers, Hclock.
  rewrite (hasOwnProperty_test _ Hown).
  assert (Hexists : ∀ w1, null_users w1 = false →
            stored_users w1 !! "hasOwnProperty" = None →
            is_Some (stored_users w1 !! trim username) →
            fst (UserStorageModel.userExists (trim username) (o, w1)) = Ret true).
  { intros w1 Hn Hown1 Hsome.
    unfold UserStorageModel.userExists, UserStorageModel.getAllUsers.
    rewrite users_object_run, Hn. cbn beta iota.
    rewrite (hasOwnProperty_test _ Hown1).
    rewrite bool_decide_eq_true_2 by exact Hsome. reflexivity. }
  destruct (stored_users w !! trim username) as [record|] eqn:Hrecord.
  - rewrite bool_decide_eq_true_2 by (eexists; reflexivity). cbn [fst snd].
    exists (after_parse w0). split; [reflexivity|].
    rewrite stored_users_after_parse, Husers, Hrecord.
    split; [reflexivity|]. split; [reflexivity|].
    apply Hexists.
    + rewrite null_users_after_parse, Hnull0. exact Hnull.
    + rewrite stored_users_after_parse, Husers. exact Hown.
    + rewrite stored_users_after_parse, Husers, Hrecord. eexists; reflexivity.
  - rewrite bool_decide_eq_false_2 by (intros [? ?]; discriminate). cbn [fst snd].
    unfold local_save.
    destruct (after_parse_frame (after_parse w0)) as (_ & _ & ->).
    destruct (after_parse_frame w0) as (_ & _ & ->).
    rewrite Hq, Hquota. cbn [snd].
    eexists. split; [reflexivity|].
    rewrite stored_users_saved, lookup_insert_eq.
    split; [reflexivity|]. split.
    + intros other Hother. rewrite lookup_insert_ne by congruence. reflexivity.
    + apply Hexists.
      * unfold null_users. cbn. rewrite lookup_insert_eq. reflexivity.
      * rewrite stored_users_saved, lookup_insert_ne by exact Hname. exact Hown.
      * rewrite stored_users_saved, lookup_insert_eq. eexists; reflexivity.
Qed.

Lemma setCurrentUser_local_creates_user_witness :
  ∃ w',
    UserStorageModel.setCurrentUser (Some " Boris ") None (localFacade, anaWorld)
    = (Ret true, (localFacade, w'))
    ∧ stored_users w' !! trim " Boris "
      = Some (default (UserRecord.mk (Some []) (clock anaWorld))
                      (stored_users anaWorld !! trim " Boris "))
    ∧ (∀ other, other ≠ trim " Boris " →
                stored_users w' !! other = stored_users anaWorld !! other)
    ∧ fst (UserStorageModel.userExists (trim " Boris ") (localFacade, w')) = Ret true.
Proof.
  apply (setCurrentUser_local_creates_user " Boris " None localFacade anaWorld);
    vm_compute; first [discriminate | reflexivity].
Defined.

(** X5: on its local path setCurrentUser returns true also when it could
    not create the user.  With a full local store of the persisted layout,
    in which no user is named hasOwnProperty, and a user that has no record
    yet, it returns true, localStorage is as before, the user has no
    record, and the failed save is on the console. *)
Theorem setCurrentUser_local_true_without_record (username : string)
    (password : option string) (o : UserStorageModel.t) (w : World) :
  trim username ≠ "" →
  logs_in_locally o password = true →
  persisted_layout w = true →
  hasOwnProperty_inherited w →
  quotaExceeded w = true →
  stored_users w !! trim username = None →
  ∃ w',
    UserStorageModel.setCurrentUser (Some username) password (o, w) = (Ret true, (o, w'))
    ∧ localStorage w' = localStorage w
    ∧ fst (UserStorageModel.userExists (trim username) (o, w')) = Ret false
    ∧ session_marker w' = Some (trim username)
    ∧ last (console w') = Some "Error saving users data:".
Proof.
  intros Htrim Hlocal Hlayout Hown Hquota Habsent.
  unfold hasOwnProperty_inherited in Hown.
  pose proof (persisted_layout_not_null w Hlayout) as Hnull.
  rewrite facade_setCurrentUser_of_exit,
    (facade_setCurrentUser_local o w username password Htrim Hlocal).
  pose proof (local_setCurrentUser_session (trim username) w) as [Hsess _].
  revert Hsess. unfold local_setCurrentUser_outcome.
  destruct (local_session_users (trim username) w) as [Husers Hnull0].
  destruct (local_session_frame (trim username) w) as (Hl & _ & Hq & _ & Hmarker & _).
  set (w0 := local_session (trim username) w) in *.
  rewrite Hnull0, Hnull, Husers, Habsent, (hasOwnProperty_test _ Hown).
  rewrite bool_decide_eq_false_2 by (intros [? ?]; discriminate). cbn [fst snd].
  unfold local_save.
  destruct (after_parse_frame (after_parse w0)) as (_ & _ & Hq2).
  destruct (after_parse_frame w0) as (_ & _ & Hq1).
  rewrite Hq2, Hq1, Hq, Hquota. cbn [snd]. intros Hsess.
  eexists. split; [reflexivity|].
  assert (Hstore : localStorage (logged "Error saving users data:"
                                   (after_parse (after_parse w0))) = localStorage w).
  { cbn. destruct (after_parse_stores (after_parse w0)) as (_ & -> & _).
    destruct (after_parse_stores w0) as (_ & -> & _). exact Hl. }
  split; [exact Hstore|]. split; [|split].
  - unfold UserStorageModel.userExists, UserStorageModel.getAllUsers.
    rewrite users_object_run, (null_users_same w _ Hstore), Hnull.
    cbn beta iota.
    rewrite (stored_users_same w _ Hstore), Habsent, (hasOwnProperty_test _ Hown).
    rewrite bool_decide_eq_false_2 by (intros [? ?]; discriminate). reflexivity.
  - unfold session_marker in *. rewrite Hsess. exact Hmarker.
  - cbn. apply last_snoc.
Qed.

Lemma setCurrentUser_local_true_without_record_witness :
  ∃ w',
    UserStorageModel.setCurrentUser (Some "Boris") None
      (localFacade, mkWorld ∅ ∅ true 7 [] emptyRemote)
    = (Ret true, (localFacade, w'))
    ∧ localStorage w' = localStorage (mkWorld ∅ ∅ true 7 [] emptyRemote)
    ∧ fst (UserStorageModel.userExists (trim "Boris") (localFacade, w')) = Ret false
    ∧ session_marker w' = Some (trim "Boris")
    ∧ last (console w') = Some "Error saving users data:".
Proof.
  apply (setCurrentUser_local_true_without_record "Boris" None localFacade
           (mkWorld ∅ ∅ true 7 [] emptyRemote));
    vm_compute; first [discriminate | reflexivity].
Defined.

(** X6: on its local path setCurrentUser writes the session before it
    reads the local store.  When the stored text is [null] it rejects with
    a TypeError, and the session storage already carries the trimmed
    username and the local-only mark. *)
Theorem setCurrentUser_local_rejects_after_marking (username : string)
    (password : option string) (o : UserStorageModel.t) (w : World) :
  trim username ≠ "" →
  logs_in_locally o password = true →
  null_users w = true →
  ∃ w',
    UserStorageModel.setCurrentUser (Some username) password (o, w)
    = (Throw TypeError, (o, w'))
    ∧ session_marker w' = Some (trim username)
    ∧ local_only w' = true
    ∧ localStorage w' = localStorage w.
Proof.
  intros Htrim Hlocal Hnull.
  rewrite facade_setCurrentUser_of_exit,
    (facade_setCurrentUser_local o w username password Htrim Hlocal).
  unfold local_setCurrentUser_outcome.
  destruct (local_session_users (trim username) w) as [_ Hnull0].
  destruct (local_session_frame (trim username) w) as (Hl & _ & _ & _ & Hmarker & Hflag).
  set (w0 := local_session (trim username) w) in *.
  rewrite Hnull0, Hnull. cbn [fst snd].
  exists (after_parse w0). split; [reflexivity|].
  destruct (after_parse_stores w0) as (Hs & Hl0 & _).
  unfold session_marker, local_only in *. rewrite Hs, Hl0. auto.
Qed.

Lemma setCurrentUser_local_rejects_after_marking_witness :
  ∃ w',
    UserStorageModel.setCurrentUser (Some "Ana") None (localFacade, nullWorld)
    = (Throw TypeError, (localFacade, w'))
    ∧ session_marker w' = Some (trim "Ana")
    ∧ local_only w' = true
    ∧ localStorage w' = localStorage nullWorld.
Proof.
  apply (setCurrentUser_local_rejects_after_marking "Ana" None localFacade nullWorld);
    vm_compute; [discriminate | reflexivity | reflexivity].
Defined.

(** *** The local path of the facade *)

(** X7: without an available SupabaseStorageModel, logout of the facade
    removes two keys of the session storage, the marker and the local-only
    mark, and nothing else: every other key, 'lumi_user_id' and
    'lumi_auth_user' among them, localStorage and the service are as
    before, and getCurrentUser returns null afterwards. *)
Theorem logout_local_removes_two_keys (o : UserStorageModel.t) (w : World) :
  UserStorageModel.remoteAvailable o = false →
  ∃ w',
    UserStorageModel.logout (o, w) = (Ret tt, (o, w'))
    ∧ UserStorageModel.getCurrentUser (o, w') = (Ret None, (o, w'))
    ∧ local_only w' = false
    ∧ (∀ k, k ≠ "lumi_current_user" → k ≠ "lumi_use_local_only" →
            sessionStorage w' !! k = sessionStorage w !! k)
    ∧ localStorage w' = localStorage w
    ∧ remote w' = remote w.
Proof.
  intros Hremote. unfold UserStorageModel.logout.
  unfold bind at 1, this at 1. cbn [fst snd]. rewrite Hremote.
  unfold UserStorageModel.getCurrentUser. run.
  eexists. split; [reflexivity|]. cbn.
  split; [|split; [|split]].
  - lookups. reflexivity.
  - unfold local_only. cbn. lookups. apply bool_decide_eq_false_2. discriminate.
  - intros k Hk1 Hk2. rewrite !lookup_delete_ne by congruence. reflexivity.
  - split; reflexivity.
Qed.

Lemma logout_local_removes_two_keys_witness :
  ∃ w',
    UserStorageModel.logout
      (localFacade, set_sessionStorage (insert "lumi_current_user" "Ana") anaWorld)
    = (Ret tt, (localFacade, w'))
    ∧ UserStorageModel.getCurrentUser (localFacade, w') = (Ret None, (localFacade, w'))
    ∧ local_only w' = false
    ∧ (∀ k, k ≠ "lumi_current_user" → k ≠ "lumi_use_local_only" →
            sessionStorage w' !! k
            = sessionStorage
                (set_sessionStorage (insert "lumi_current_user" "Ana") anaWorld) !! k)
    ∧ localStorage w'
      = localStorage (set_sessionStorage (insert "lumi_current_user" "Ana") anaWorld)
    ∧ remote w' = remote (set_sessionStorage (insert "lumi_current_user" "Ana") anaWorld).
Proof.
  apply (logout_local_removes_two_keys localFacade
           (set_sessionStorage (insert "lumi_current_user" "Ana") anaWorld)).
  reflexivity.
Defined.

(** X8: addBadge on the local path with a full local store of the persisted
    layout, for a username that is not inherited.  For a user that has a
    record it returns false and localStorage is as before.  For a user
    without a record it does not return: the record it tried to create is
    not there, and reading its badges throws a TypeError. *)
Theorem addBadge_local_full_store (o : UserStorageModel.t) (w : World)
    (username badgeName : string) (badgeEmoji : option string) :
  inherited_name username = false →
  routes_remote o w = false →
  persisted_layout w = true →
  quotaExceeded w = true →
  ∃ w',
    UserStorageModel.addBadge username badgeName badgeEmoji (o, w)
    = ((if bool_decide (is_Some (stored_users w !! username))
        then Ret false else Throw TypeError),
       (o, w'))
    ∧ localStorage w' = localStorage w.
Proof.
  intros _ Hroute Hlayout Hquota.
  pose proof (persisted_layout_not_null w Hlayout) as Hnull.
  rewrite (facade_addBadge_local o w _ _ _ Hroute).
  unfold local_addBadge_outcome. rewrite Hnull.
  assert (Hsave : ∀ users w1, quotaExceeded w1 = true →
            local_save users w1 = (false, logged "Error saving users data:" w1)).
  { intros users w1 Hq. unfold local_save. rewrite Hq. reflexivity. }
  destruct (after_parse_stores w) as (_ & Hl1 & Hq1 & _).
  destruct (stored_users w !! username) as [record|] eqn:Hrecord.
  - rewrite bool_decide_eq_true_2 by (eexists; reflexivity).
    rewrite Hsave by congruence. cbn [fst snd].
    eexists. split; [reflexivity|]. cbn. exact Hl1.
  - rewrite bool_decide_eq_false_2 by (intros [? ?]; discriminate).
    destruct (after_parse_stores (after_parse w)) as (_ & Hl2 & Hq2 & _).
    rewrite Hsave by congruence.
    assert (Hstore : localStorage (logged "Error saving users data:"
                                     (after_parse (after_parse w))) = localStorage w).
    { cbn. congruence. }
    rewrite (stored_users_same w _ Hstore), Hrecord. cbn [fst snd].
    eexists. split; [reflexivity|].
    destruct (after_parse_stores
                (logged "Error saving users data:" (after_parse (after_parse w))))
      as (_ & -> & _).
    exact Hstore.
Qed.

Lemma addBadge_local_full_store_witness :
  ∃ w',
    UserStorageModel.addBadge "Boris" "Moon" None
      (localFacade, mkWorld ∅ ∅ true 7 [] emptyRemote)
    = ((if bool_decide
             (is_Some (stored_users (mkWorld ∅ ∅ true 7 [] emptyRemote) !! "Boris"))
        then Ret false else Throw TypeError),
       (localFacade, w'))
    ∧ localStorage w' = localStorage (mkWorld ∅ ∅ true 7 [] emptyRemote).
Proof.
  apply (addBadge_local_full_store localFacade (mkWorld ∅ ∅ true 7 [] emptyRemote)
           "Boris" "Moon" None);
    reflexivity.
Defined.

(** X9: addBadge on the local path only appends.  When it returns true,
    the records of all other users are as before, and the user's record
    keeps its creation time when there was one. *)
Theorem addBadge_local_keeps_other_users (o : UserStorageModel.t) (w : World)
    (username badgeName : string) (badgeEmoji : option string) :
  routes_remote o w = false →
  fst (UserStorageModel.addBadge username badgeName badgeEmoji (o, w)) = Ret true →
  let w' := snd (state_after (UserStorageModel.addBadge username badgeName badgeEmoji (o, w))) in
  (∀ other, other ≠ username → stored_users w' !! other = stored_users w !! other)
  ∧ (∀ record, stored_users w !! username = Some record →
       UserRecord.createdAt <$> (stored_users w' !! username)
       = Some (UserRecord.createdAt record)).
Proof.
  intros Hroute. rewrite (facade_addBadge_local o w _ _ _ Hroute).
  unfold state_after. cbn [fst snd].
  set (b := mkBadge badgeName (default "" badgeEmoji) (At (clock w))).
  unfold local_addBadge_outcome.
  destruct (null_users w) eqn:Hnull; [discriminate|].
  assert (Hsave : ∀ users w1 saved w2,
            local_save users w1 = (saved, w2) →
            saved = true → stored_users w2 = users).
  { intros users w1 saved w2. unfold local_save.
    destruct (quotaExceeded w1); intros [= <- <-]; [discriminate|].
    intros _. apply stored_users_saved. }
  destruct (stored_users w !! username) as [record|] eqn:Hrecord.
  - destruct (local_save _ (after_parse w)) as [saved w1] eqn:Hs. cbn [fst snd].
    intros [= ->]. rewrite (Hsave _ _ _ _ Hs eq_refl). split.
    + intros other Hother. rewrite lookup_insert_ne by congruence. reflexivity.
    + intros record' [= <-]. rewrite lookup_insert_eq. destruct record as [[l|] c]; reflexivity.
  - destruct (local_save _ (after_parse (after_parse w))) as [saved1 w1] eqn:Hs1.
    destruct (stored_users w1 !! username) as [record|] eqn:Hrecord1; [|discriminate].
    destruct (local_save _ (after_parse w1)) as [saved w2] eqn:Hs2. cbn [fst snd].
    intros [= ->]. rewrite (Hsave _ _ _ _ Hs2 eq_refl). split; [|discriminate].
    intros other Hother. rewrite lookup_insert_ne by congruence.
    revert Hs1. unfold local_save.
    destruct (quotaExceeded (after_parse (after_parse w))).
    + intros [= _ <-].
      rewrite (stored_users_same (after_parse (after_parse w))) by reflexivity.
      rewrite !stored_users_after_parse. reflexivity.
    + intros [= _ <-]. rewrite stored_users_saved.
      rewrite lookup_insert_ne by congruence. reflexivity.
Qed.

Lemma addBadge_local_keeps_other_users_witness :
  let w' := snd (state_after (UserStorageModel.addBadge "Ana" "Moon" None
                                (localFacade, anaWorld))) in
  (∀ other, other ≠ "Ana" → stored_users w' !! other = stored_users anaWorld !! other)
  ∧ (∀ record, stored_users anaWorld !! "Ana" = Some record →
       UserRecord.createdAt <$> (stored_users w' !! "Ana")
       = Some (UserRecord.createdAt record)).
Proof.
  apply (addBadge_local_keeps_other_users localFacade anaWorld "Ana" "Moon" None);
    vm_compute; reflexivity.
Defined.

(** *** What addBadge of SupabaseStorageModel changes *)

Lemma addBadge_fallback_effect (username badgeName badgeEmoji : string)
    (sb : SupabaseStorageModel.t) (w : World) :
  ∃ r w',
    addBadge_fallback username badgeName badgeEmoji sb w = (r, (sb, w'))
    ∧ sessionStorage w' = sessionStorage w
    ∧ remote w' = remote w
    ∧ clock w' = clock w
    ∧ quotaExceeded w' = quotaExceeded w
    ∧ (if fallbackToLocalStorage (SupabaseStorageModel.config sb)
       then r = Ret true ∨ ((∃ e, r = Throw e) ∧ localStorage w' = localStorage w)
       else r = Ret false ∧ localStorage w' = localStorage w).
Proof.
  unfold addBadge_fallback.
  set (w1 := logged "Error adding badge:" w).
  destruct (after_parse_stores w1) as (Hs & Hl & Hq & Hc & Hr).
  destruct (fallbackToLocalStorage _).
  - destruct (null_users w1).
    { eexists _, _. split; [reflexivity|]. rewrite Hs, Hl, Hq, Hc, Hr.
      repeat (split; [reflexivity|]). cbn beta iota. right.
      split; [eexists|]; reflexivity. }
    destruct (quotaExceeded w1) eqn:Hquota.
    { eexists _, _. split; [reflexivity|]. rewrite Hs, Hl, Hq, Hc, Hr.
      repeat (split; [first [reflexivity | symmetry; exact Hquota]|]).
      cbn beta iota. right. split; [eexists|]; reflexivity. }
    eexists _, _. split; [reflexivity|].
    destruct (with_local_badge_frame w1 username
                (mkBadge badgeName badgeEmoji (At (clock w1)))) as (-> & -> & ->).
    repeat (split; [reflexivity|]).
    split; [unfold with_local_badge; cbn; rewrite Hq; symmetry; exact Hquota|].
    cbn beta iota. left. reflexivity.
  - eexists _, _. split; [reflexivity|]. repeat (split; [reflexivity|]).
    split; reflexivity.
Qed.

Lemma addBadge_effect (username badgeName : string) (badgeEmoji : option string)
    (sb : SupabaseStorageModel.t) (w : World) :
  ∃ r sb' w',
    addBadge_outcome username badgeName badgeEmoji sb w = (r, (sb', w'))
    ∧ sessionStorage w' = sessionStorage w
    ∧ clock w' = clock w
    ∧ quotaExceeded w' = quotaExceeded w
    ∧ Remote.users (remote w') = Remote.users (remote w)
    ∧ Remote.accounts (remote w') = Remote.accounts (remote w)
    ∧ SupabaseStorageModel.config sb' = SupabaseStorageModel.config sb
    ∧ SupabaseStorageModel.client sb' = SupabaseStorageModel.client sb
    ∧ ((r = Ret true
        ∧ localStorage w' = localStorage w
        ∧ ∃ uid,
            Remote.badges (remote w')
            = Remote.badges (remote w)
              ++ [Remote.mkBadgeRow uid badgeName (default "⭐" badgeEmoji) (clock w)])
       ∨ (Remote.badges (remote w') = Remote.badges (remote w)
          ∧ if fallbackToLocalStorage (SupabaseStorageModel.config sb)
            then r = Ret true ∨ ((∃ e, r = Throw e) ∧ localStorage w' = localStorage w)
            else r = Ret false ∧ localStorage w' = localStorage w)).
Proof.
  unfold addBadge_outcome.
  pose proof (getUserId_frame sb w username) as Hframe.
  destruct (getUserId_outcome username sb w) as [userId [sb1 w1]].
  cbn [fst snd] in Hframe.
  destruct Hframe as ((Hs & Hl & Hq & Hc & Hu & Hb & Ha & Hn) & Hcfg & Hcl & _).
  assert (Hfb : ∀ w2,
            sessionStorage w2 = sessionStorage w → localStorage w2 = localStorage w →
            clock w2 = clock w → quotaExceeded w2 = quotaExceeded w →
            Remote.users (remote w2) = Remote.users (remote w) →
            Remote.accounts (remote w2) = Remote.accounts (remote w) →
            Remote.badges (remote w2) = Remote.badges (remote w) →
            ∃ r sb' w',
              addBadge_fallback username badgeName (default "⭐" badgeEmoji) sb1 w2
              = (r, (sb', w'))
              ∧ sessionStorage w' = sessionStorage w
              ∧ clock w' = clock w
              ∧ quotaExceeded w' = quotaExceeded w
              ∧ Remote.users (remote w') = Remote.users (remote w)
              ∧ Remote.accounts (remote w') = Remote.accounts (remote w)
              ∧ SupabaseStorageModel.config sb' = SupabaseStorageModel.config sb
              ∧ SupabaseStorageModel.client sb' = SupabaseStorageModel.client sb
              ∧ ((r = Ret true
                  ∧ localStorage w' = localStorage w
                  ∧ ∃ uid,
                      Remote.badges (remote w')
                      = Remote.badges (remote w)
                        ++ [Remote.mkBadgeRow uid badgeName (default "⭐" badgeEmoji)
                              (clock w)])
                 ∨ (Remote.badges (remote w') = Remote.badges (remote w)
                    ∧ if fallbackToLocalStorage (SupabaseStorageModel.config sb)
                      then r = Ret true
                           ∨ ((∃ e, r = Throw e) ∧ localStorage w' = localStorage w)
                      else r = Ret false ∧ localStorage w' = localStorage w))).
  { intros w2 Hs2 Hl2 Hc2 Hq2 Hu2 Ha2 Hb2.
    destruct (addBadge_fallback_effect username badgeName (default "⭐" badgeEmoji) sb1 w2)
      as (r & w' & Hrun & Hs' & Hr' & Hc' & Hq' & Hcase).
    exists r, sb1, w'. split; [exact Hrun|].
    rewrite Hs', Hc', Hq', Hr'. repeat (split; [congruence|]).
    right. split; [exact Hb2|].
    rewrite Hcfg in Hcase. destruct (fallbackToLocalStorage _).
    - destruct Hcase as [Hcase | [Hthrow Hl']]; [left; exact Hcase|].
      right. split; [exact Hthrow | congruence].
    - destruct Hcase as [Hfalse Hl']. split; [exact Hfalse | congruence]. }
  destruct (truthy_opt userId); [|apply Hfb; assumption].
  destruct (SupabaseStorageModel.client sb1) eqn:Hclient; [|apply Hfb; assumption].
  set (row := Remote.mkBadgeRow (default "" userId) badgeName (default "⭐" badgeEmoji)
                (clock w1)).
  destruct (receive_tables (Remote.InsertBadge row) (remote w1))
    as (Hu1 & Hb1 & Ha1 & Hn1 & _).
  destruct (Remote.receive (Remote.InsertBadge row) (remote w1)) as [fault r1].
  cbn [fst snd] in Hu1, Hb1, Ha1, Hn1.
  destruct fault; try (apply Hfb; cbn; congruence).
  unfold Remote.serve_insertBadge.
  destruct (negb _); [cbn; apply Hfb; cbn; congruence|].
  destruct (_ || _); [cbn; apply Hfb; cbn; congruence|].
  destruct (_ <? _)%nat; [cbn; apply Hfb; cbn; congruence|].
  cbn. eexists _, _, _. split; [reflexivity|]. cbn.
  repeat (split; [congruence|]).
  left. split; [reflexivity|]. split; [congruence|].
  exists (default "" userId). unfold row. rewrite Hb1, Hb, Hc. reflexivity.
Qed.

(** X10: whatever happens, addBadge of SupabaseStorageModel leaves the
    service's users and accounts and the session storage as they were, and
    of the badges table it changes nothing or appends one row, with the
    given name, the given emoji or '⭐', and the time of the call. *)
Theorem supabase_addBadge_appends_at_most_one_row (username badgeName : string)
    (badgeEmoji : option string) (sb : SupabaseStorageModel.t) (w : World) :
  let w' := snd (state_after
                   (SupabaseStorageModel.addBadge username badgeName badgeEmoji (sb, w))) in
  Remote.users (remote w') = Remote.users (remote w)
  ∧ Remote.accounts (remote w') = Remote.accounts (remote w)
  ∧ sessionStorage w' = sessionStorage w
  ∧ (Remote.badges (remote w') = Remote.badges (remote w)
     ∨ ∃ uid,
         Remote.badges (remote w')
         = Remote.badges (remote w)
           ++ [Remote.mkBadgeRow uid badgeName (default "⭐" badgeEmoji) (clock w)]).
Proof.
  rewrite addBadge_run. unfold state_after.
  destruct (addBadge_effect username badgeName badgeEmoji sb w)
    as (r & sb' & w' & -> & Hs & _ & _ & Hu & Ha & _ & _ & Hcase).
  cbn [snd]. repeat (split; [assumption|]).
  destruct Hcase as [(_ & _ & Hrow) | [Hsame _]]; [right; exact Hrow | left; exact Hsame].
Qed.

(** X11: with the fallback switched off, addBadge of SupabaseStorageModel
    never throws and never writes localStorage.  It returns true exactly
    when it appended the row to the service's table, and false with the
    table unchanged otherwise. *)
Theorem supabase_addBadge_without_fallback (username badgeName : string)
    (badgeEmoji : option string) (sb : SupabaseStorageModel.t) (w : World) :
  fallbackToLocalStorage (SupabaseStorageModel.config sb) = false →
  ∃ b sb' w',
    SupabaseStorageModel.addBadge username badgeName badgeEmoji (sb, w)
    = (Ret b, (sb', w'))
    ∧ localStorage w' = localStorage w
    ∧ (if b
       then ∃ uid,
              Remote.badges (remote w')
              = Remote.badges (remote w)
                ++ [Remote.mkBadgeRow uid badgeName (default "⭐" badgeEmoji) (clock w)]
       else Remote.badges (remote w') = Remote.badges (remote w)).
Proof.
  intros Hoff. rewrite addBadge_run.
  destruct (addBadge_effect username badgeName badgeEmoji sb w)
    as (r & sb' & w' & -> & _ & _ & _ & _ & _ & _ & _ & Hcase).
  rewrite Hoff in Hcase.
  destruct Hcase as [(-> & Hl & Hrow) | (Hsame & -> & Hl)].
  - exists true, sb', w'. auto.
  - exists false, sb', w'. auto.
Qed.

Lemma supabase_addBadge_without_fallback_witness :
  ∃ b sb' w',
    SupabaseStorageModel.addBadge "Ivan" "Star" None
      (SupabaseStorageModel.new (mkConfig true false 300000) true, rejecting ivanWorld)
    = (Ret b, (sb', w'))
    ∧ localStorage w' = localStorage (rejecting ivanWorld)
    ∧ (if b
       then ∃ uid,
              Remote.badges (remote w')
              = Remote.badges (remote (rejecting ivanWorld))
                ++ [Remote.mkBadgeRow uid "Star" (default "⭐" None)
                      (clock (rejecting ivanWorld))]
       else Remote.badges (remote w') = Remote.badges (remote (rejecting ivanWorld))).
Proof.
  apply (supabase_addBadge_without_fallback "Ivan" "Star" None
           (SupabaseStorageModel.new (mkConfig true false 300000) true)
           (rejecting ivanWorld)).
  reflexivity.
Defined.

(** *** The migration of one user *)

Lemma badgeEmoji_of_truthy (badge : StoredBadge) :
  truthy (Migration.badgeEmoji_of badge) = true.
Proof.
  destruct badge as [b|s]; cbn; [|reflexivity].
  destruct (truthy (emoji b)) eqn:H; [exact H | reflexivity].
Qed.

(** The loop of migrateUserData: what it leaves and what it counts. *)
Lemma migrateBadges_spec (username : string) (badges : list StoredBadge) :
  ∀ (m f : nat) (us : UserStorageModel.t) (sb : SupabaseStorageModel.t) (w : World),
  ∃ r sb' w',
    Migration.migrateBadges username badges m f (DataMigrationUtil.mk us sb, w)
    = (r, (DataMigrationUtil.mk us sb', w'))
    ∧ sessionStorage w' = sessionStorage w
    ∧ SupabaseStorageModel.config sb' = SupabaseStorageModel.config sb
    ∧ Remote.users (remote w') = Remote.users (remote w)
    ∧ (∃ rows,
         Remote.badges (remote w') = Remote.badges (remote w) ++ rows
         ∧ Forall (λ row, truthy (Remote.badge_emoji row) = true) rows
         ∧ match r with
           | Ret (m', _) =>
               (length rows + m <= m')%nat
               ∧ (length (local_badges username w') + length rows + m
                  = length (local_badges username w) + m')%nat
           | Throw _ => True
           end)
    ∧ match r with
      | Ret (m', f') =>
          (m' + f' = m + f + length badges)%nat
          ∧ (fallbackToLocalStorage (SupabaseStorageModel.config sb) = true → f' = f)
      | Throw _ => fallbackToLocalStorage (SupabaseStorageModel.config sb) = true
      end.
Proof.
  induction badges as [|badge rest IH]; intros m f us sb w.
  - exists (Ret (m, f)), sb, w. cbn [Migration.migrateBadges]. unfold ret.
    split; [reflexivity|]. repeat (split; [reflexivity|]). split.
    + exists []. rewrite app_nil_r. split; [reflexivity|]. split; [constructor|].
      cbn. lia.
    + cbn. split; [lia | reflexivity].
  - cbn [Migration.migrateBadges].
    unfold bind at 1. unfold DataMigrationUtil.onSupabase, bind at 1, this, call.
    cbn [fst snd DataMigrationUtil.supabaseStorage DataMigrationUtil.userStorage].
    rewrite addBadge_run.
    destruct (addBadge_effect username (Migration.badgeName_of badge)
                (Some (Migration.badgeEmoji_of badge)) sb w)
      as (r0 & sb1 & w1 & Hrun & Hs & _ & _ & Hu & _ & Hcfg & _ & Hcase).
    rewrite Hrun.
    assert (Hrows : ∃ rows0,
              Remote.badges (remote w1) = Remote.badges (remote w) ++ rows0
              ∧ Forall (λ row, truthy (Remote.badge_emoji row) = true) rows0
              ∧ (r0 ≠ Ret true →
                 rows0 = [] ∧ local_badges username w1 = local_badges username w)
              ∧ (r0 = Ret true →
                 (length (local_badges username w1) + length rows0
                  = length (local_badges username w) + 1)%nat
                 ∧ (length rows0 <= 1)%nat)).
    { destruct r0 as [[|]|e].
      - destruct (addBadge_true_cases _ _ _ _ _ _ _ Hrun)
          as [(uid & _ & _ & _ & _ & Hrow & _ & Hl & _) | (_ & Hsame & _ & Hlocal)].
        + eexists. split; [exact Hrow|]. split.
          { constructor; [|constructor]. cbn. apply badgeEmoji_of_truthy. }
          split; [congruence|]. intros _.
          rewrite (local_badges_same w w1 username Hl). cbn. lia.
        + exists []. rewrite app_nil_r. split; [exact Hsame|]. split; [constructor|].
          split; [congruence|]. intros _. rewrite Hlocal, length_app. cbn. lia.
      - exists []. rewrite app_nil_r.
        destruct Hcase as [(Habs & _) | [Hsame Hcase]]; [discriminate Habs|].
        split; [exact Hsame|]. split; [constructor|]. split; [|discriminate].
        intros _. split; [reflexivity|]. apply local_badges_same.
        destruct (fallbackToLocalStorage _).
        + destruct Hcase as [Habs | [[e Habs] _]]; discriminate Habs.
        + apply Hcase.
      - exists []. rewrite app_nil_r.
        destruct Hcase as [(Habs & _) | [Hsame Hcase]]; [discriminate Habs|].
        split; [exact Hsame|]. split; [constructor|]. split; [|discriminate].
        intros _. split; [reflexivity|]. apply local_badges_same.
        destruct (fallbackToLocalStorage _).
        + destruct Hcase as [Habs | [_ Hl]]; [discriminate Habs | exact Hl].
        + destruct Hcase as [Habs _]. discriminate Habs. }
    destruct Hrows as (rows0 & Hb0 & Hall0 & Hnone & Hone).
    destruct r0 as [[|]|e].
    + destruct (Hone eq_refl) as [Hlocal0 Hlen0].
      destruct (IH (S m) f us sb1 w1)
        as (r & sb' & w' & -> & Hs' & Hcfg' & Hu' & (rows & Hb & Hall & Hlen) & Hcount).
      exists r, sb', w'. split; [reflexivity|].
      split; [congruence|]. split; [congruence|]. split; [congruence|]. split.
      * exists (rows0 ++ rows). rewrite Hb, Hb0, app_assoc.
        split; [reflexivity|]. split; [apply Forall_app; auto|].
        destruct r as [[m' f']|]; [|exact I]. rewrite length_app. lia.
      * rewrite Hcfg in Hcount. destruct r as [[m' f']|]; [|exact Hcount].
        destruct Hcount as [Hsum Hf]. split; [cbn [length]; lia | exact Hf].
    + destruct (Hnone ltac:(discriminate)) as [-> Hlocal0].
      destruct (IH m (S f) us sb1 w1)
        as (r & sb' & w' & -> & Hs' & Hcfg' & Hu' & (rows & Hb & Hall & Hlen) & Hcount).
      assert (Hoff : fallbackToLocalStorage (SupabaseStorageModel.config sb) = false).
      { destruct Hcase as [(Habs & _) | [_ Hcase]]; [discriminate Habs|].
        destruct (fallbackToLocalStorage _); [|reflexivity].
        destruct Hcase as [Habs | [[e Habs] _]]; discriminate Habs. }
      rewrite app_nil_r in Hb0.
      exists r, sb', w'. split; [reflexivity|].
      split; [congruence|]. split; [congruence|]. split; [congruence|]. split.
      * exists rows. rewrite Hb, Hb0. split; [reflexivity|]. split; [exact Hall|].
        destruct r as [[m' f']|]; [|exact I]. rewrite <- Hlocal0. lia.
      * rewrite Hcfg, Hoff in Hcount. rewrite Hoff.
        destruct r as [[m' f']|]; [|discriminate Hcount].
        destruct Hcount as [Hsum _]. split; [cbn [length]; lia | discriminate].
    + exists (Throw e), sb1, w1. split; [reflexivity|].
      split; [exact Hs|]. split; [exact Hcfg|]. split; [exact Hu|]. split.
      * exists rows0. auto.
      * destruct Hcase as [(Habs & _) | [_ Hcase]]; [discriminate Habs|].
        destruct (fallbackToLocalStorage _); [reflexivity|].
        destruct Hcase as [Habs _]. discriminate Habs.
Qed.

Lemma request_badges {D} (c : Remote.Call) (serve : Remote.State → Remote.Reply D * Remote.State)
    (r : Remote.State) :
  (∀ r1, Remote.badges (snd (serve r1)) = Remote.badges r1) →
  Remote.badges (snd (Remote.request c serve r)) = Remote.badges r.
Proof.
  intros Hserve. unfold Remote.request.
  destruct (receive_tables c r) as (_ & Hb & _).
  destruct (Remote.receive c r) as [[| |] r1]; cbn [fst snd] in *; try exact Hb.
  specialize (Hserve r1). destruct (serve r1) as [rep r2]. cbn [snd] in *. congruence.
Qed.

Lemma signIn_badges (em pw : string) (r : Remote.State) :
  Remote.badges (snd (Remote.signInWithPassword em pw r)) = Remote.badges r.
Proof.
  apply request_badges. intros r1. unfold Remote.serve_signIn.
  destruct (Remote.find_account em r1); [destruct (String.eqb _ _)|]; reflexivity.
Qed.

Lemma signUp_badges (em pw uname : string) (r : Remote.State) :
  Remote.badges (snd (Remote.signUp em pw uname r)) = Remote.badges r.
Proof.
  apply request_badges. intros r1. unfold Remote.serve_signUp.
  destruct (Remote.find_account em r1); reflexivity.
Qed.

Lemma rpc_badges (p_username : string) (r : Remote.State) :
  Remote.badges (snd (Remote.rpc_get_or_create_user p_username r)) = Remote.badges r.
Proof.
  apply request_badges. intros r1. unfold Remote.serve_getOrCreateUser.
  destruct (String.eqb _ _); [reflexivity|].
  destruct (_ <? _)%nat; [reflexivity|].
  destruct (Remote.find_user _ r1); [|reflexivity].
  destruct (Remote.has_space _); reflexivity.
Qed.

(** setCurrentUser of SupabaseStorageModel does not touch the badges
    table. *)
Lemma supabase_setCurrentUser_badges (username : string) (password : option string)
    (sb : SupabaseStorageModel.t) (w : World) :
  Remote.badges
    (remote (snd (snd (SupabaseStorageModel.setCurrentUser_exit (Some username) password
                         (sb, w)))))
  = Remote.badges (remote w).
Proof.
  unfold SupabaseStorageModel.setCurrentUser_exit, SupabaseStorageModel.fallbackSession,
    SupabaseStorageModel.client_request.
  run.
  split_cases; cbn.
  all: repeat match goal with
       | H : Remote.signInWithPassword ?e ?p ?r = (_, ?s) |- _ =>
           let H' := fresh in
           pose proof (signIn_badges e p r) as H'; rewrite H in H'; cbn [snd] in H';
           clear H
       | H : Remote.signUp ?e ?p ?u ?r = (_, ?s) |- _ =>
           let H' := fresh in
           pose proof (signUp_badges e p u r) as H'; rewrite H in H'; cbn [snd] in H';
           clear H
       | H : Remote.rpc_get_or_create_user ?u ?r = (_, ?s) |- _ =>
           let H' := fresh in
           pose proof (rpc_badges u r) as H'; rewrite H in H'; cbn [snd] in H';
           clear H
       end.
  all: try reflexivity; cbn in *; congruence.
Qed.

Lemma migrateUserData_spec (username : string) (us : UserStorageModel.t)
    (sb : SupabaseStorageModel.t) (w : World) :
  ∃ rep sb' w',
    Migration.migrateUserData username (DataMigrationUtil.mk us sb, w)
    = (Ret rep, (DataMigrationUtil.mk us sb', w'))
    ∧ ((nothing_to_migrate username w rep w' ∧ sb' = sb)
       ∨ migration_failed username w rep
       ∨ migration_counted username sb w rep w').
Proof.
  unfold Migration.migrateUserData.
  unfold try_catch, bind at 1.
  unfold DataMigrationUtil.onUserStorage, bind at 1, this at 1, call at 1.
  unfold UserStorageModel.getAllUsers.
  cbn [fst snd DataMigrationUtil.supabaseStorage DataMigrationUtil.userStorage].
  rewrite getAllUsersFromLocalStorage_run. unfold stored_json.
  unfold bind at 1, object_of.
  destruct (null_users w) eqn:Hnull.
  { unfold throw. unfold bind, console_error, set_world, ret. cbn [fst snd].
    eexists _, _, _. split; [reflexivity|]. right. left.
    split; [left; exact Hnull | eexists; reflexivity]. }
  unfold ret at 1.
  destruct (stored_users w !! username) as [record|] eqn:Hrecord.
  2:{ unfold ret. eexists _, _, _. split; [reflexivity|]. left.
      split; [|reflexivity]. repeat split; assumption. }
  unfold bind at 1.
  unfold DataMigrationUtil.onSupabase at 1, bind at 1, this at 1, call at 1.
  cbn [fst snd DataMigrationUtil.supabaseStorage DataMigrationUtil.userStorage].
  unfold SupabaseStorageModel.setCurrentUser, bind at 1.
  pose proof (supabase_setCurrentUser_badges username None sb (after_parse w)) as Hbadges.
  destruct (supabase_setCurrentUser_exit_spec username None sb (after_parse w))
    as (x & sb1 & w1 & Hexit & Hsession & _ & Hlocal & Hcfg & _).
  rewrite Hexit in Hbadges |- *. cbn [snd] in Hbadges. unfold ret at 1.
  destruct (returned x) eqn:Hret; cbn [negb].
  2:{ unfold throw, bind, console_error, set_world, ret. cbn [fst snd].
      eexists _, _, _. split; [reflexivity|]. right. left.
      split; [right; exists record; exact Hrecord | eexists; reflexivity]. }
  unfold bind at 1.
  destruct (migrateBadges_spec username (default [] (UserRecord.badges record)) 0 0 us sb1 w1)
    as (r & sb' & w' & -> & Hs' & Hcfg' & _ & (rows & Hb & Hall & Hlen) & Hcount).
  destruct r as [[m f]|e].
  - unfold ret. cbn [fst snd]. eexists _, _, _. split; [reflexivity|]. right. right.
    exists record, m, f, rows. split; [exact Hrecord|]. split; [reflexivity|].
    destruct Hcount as [Hsum Hf]. split; [lia|]. split; [rewrite <- Hcfg; exact Hf|].
    split.
    + unfold session_marker. rewrite Hs'.
      destruct (returned_true _ Hret) as [-> | ->]; apply Hsession.
    + rewrite Hb, Hbadges.
      destruct (after_parse_stores w) as (_ & Hparse & _ & _ & ->).
      split; [reflexivity|]. split; [exact Hall|]. split; [lia|].
      rewrite <- (local_badges_same w w1 username) by congruence. lia.
  - unfold bind, console_error, set_world, ret. cbn [fst snd].
    eexists _, _, _. split; [reflexivity|]. right. left.
    split; [right; exists record; exact Hrecord | eexists; reflexivity].
Qed.

(** When migrateUserData reports a count, it returned through its loop. *)
Lemma migrateUserData_counted (username : string) (d : DataMigrationUtil.t) (w : World)
    (rep : Migration.Report) (m : nat) :
  fst (Migration.migrateUserData username (d, w)) = Ret rep →
  Migration.migratedCount rep = Some m →
  migration_counted username (DataMigrationUtil.supabaseStorage d) w rep
    (snd (state_after (Migration.migrateUserData username (d, w)))).
Proof.
  destruct d as [us sb]. unfold state_after.
  destruct (migrateUserData_spec username us sb w)
    as (rep0 & sb' & w' & -> & Hcases).
  cbn [fst snd]. intros [= ->] Hm.
  destruct Hcases as [((_ & _ & -> & _) & _) | [(_ & msg & ->) | Hcounted]];
    [discriminate Hm | discriminate Hm | exact Hcounted].
Qed.

(** X12: migrateUserData never rejects.  It returns a report that either
    says success and carries no error, or says failure with an error message
    and without counts. *)
Theorem migrateUserData_never_rejects (username : string) (d : DataMigrationUtil.t)
    (w : World) :
  ∃ rep d' w',
    Migration.migrateUserData username (d, w) = (Ret rep, (d', w'))
    ∧ DataMigrationUtil.userStorage d' = DataMigrationUtil.userStorage d
    ∧ ((Migration.success rep = true ∧ Migration.error rep = None)
       ∨ (Migration.success rep = false
          ∧ is_Some (Migration.error rep)
          ∧ Migration.migratedCount rep = None
          ∧ Migration.failedCount rep = None
          ∧ Migration.message rep = "Migration failed")).
Proof.
  destruct d as [us sb].
  destruct (migrateUserData_spec username us sb w) as (rep & sb' & w' & Hrun & Hcases).
  exists rep, (DataMigrationUtil.mk us sb'), w'.
  split; [exact Hrun|]. split; [reflexivity|].
  destruct Hcases as [((_ & _ & -> & _) & _) | [(_ & msg & ->) | Hcounted]].
  - left. split; reflexivity.
  - right. cbn. repeat split. eexists; reflexivity.
  - destruct Hcounted as (record & m & f & rows & _ & -> & _). left. split; reflexivity.
Qed.

(** X13: for a username that is not inherited and has no record in a local
    store of the persisted layout, migrateUserData reports success with the
    message 'No data to migrate' and without counts.  It sends no request,
    opens no session and leaves both stores as they were. *)
Theorem migrateUserData_nothing_to_migrate (username : string)
    (d : DataMigrationUtil.t) (w : World) :
  inherited_name username = false →
  persisted_layout w = true →
  stored_users w !! username = None →
  ∃ w',
    Migration.migrateUserData username (d, w)
    = (Ret (Migration.mkReport true None None None "No data to migrate"), (d, w'))
    ∧ remote w' = remote w
    ∧ sessionStorage w' = sessionStorage w
    ∧ localStorage w' = localStorage w.
Proof.
  intros _ Hlayout Habsent. destruct d as [us sb].
  pose proof (persisted_layout_not_null w Hlayout) as Hnull.
  destruct (migrateUserData_spec username us sb w) as (rep & sb' & w' & Hrun & Hcases).
  destruct Hcases
    as [((_ & _ & -> & ->) & ->) | [([Habs | [record Habs]] & _) | Hcounted]].
  - exists (after_parse w). split; [exact Hrun|].
    destruct (after_parse_stores w) as (-> & -> & _ & _ & ->). auto.
  - congruence.
  - congruence.
  - destruct Hcounted as (record & m & f & rows & Habs & _). congruence.
Qed.

Lemma migrateUserData_nothing_to_migrate_witness :
  ∃ w',
    Migration.migrateUserData "Boris" (exampleUtil, anaWorld)
    = (Ret (Migration.mkReport true None None None "No data to migrate"),
       (exampleUtil, w'))
    ∧ remote w' = remote anaWorld
    ∧ sessionStorage w' = sessionStorage anaWorld
    ∧ localStorage w' = localStorage anaWorld.
Proof.
  apply (migrateUserData_nothing_to_migrate "Boris" exampleUtil anaWorld);
    vm_compute; reflexivity.
Defined.

(** X14: when migrateUserData, for a username that is not inherited and
    from a local store of the persisted layout, reports counts, the user has
    a record in the local store and migratedCount and failedCount add up to
    the number of its badges; the report says success.  With the fallback
    switched on, failedCount is zero: addBadge then returns true or throws,
    so a badge whose insert failed counts as migrated. *)
Theorem migrateUserData_counts_add_up (username : string) (d : DataMigrationUtil.t)
    (w : World) (rep : Migration.Report) (m : nat) :
  inherited_name username = false →
  persisted_layout w = true →
  fst (Migration.migrateUserData username (d, w)) = Ret rep →
  Migration.migratedCount rep = Some m →
  ∃ record f,
    stored_users w !! username = Some record
    ∧ Migration.failedCount rep = Some f
    ∧ (m + f = length (default [] (UserRecord.badges record)))%nat
    ∧ Migration.success rep = true
    ∧ (fallbackToLocalStorage
         (SupabaseStorageModel.config (DataMigrationUtil.supabaseStorage d)) = true →
       f = 0%nat).
Proof.
  intros _ _ Hrun Hm.
  destruct (migrateUserData_counted username d w rep m Hrun Hm)
    as (record & m0 & f & rows & Hrecord & -> & Hsum & Hf & _).
  cbn in Hm. injection Hm as ->.
  exists record, f. auto.
Qed.

Lemma migrateUserData_counts_add_up_witness :
  ∃ record f,
    stored_users ivanMigrated !! "Ivan" = Some record
    ∧ Migration.failedCount
        (Migration.mkReport true (Some 2%nat) (Some 0%nat) None
           "Successfully migrated 2 badges") = Some f
    ∧ (2 + f = length (default [] (UserRecord.badges record)))%nat
    ∧ Migration.success
        (Migration.mkReport true (Some 2%nat) (Some 0%nat) None
           "Successfully migrated 2 badges") = true
    ∧ (fallbackToLocalStorage
         (SupabaseStorageModel.config (DataMigrationUtil.supabaseStorage exampleUtil))
       = true →
       f = 0%nat).
Proof.
  apply (migrateUserData_counts_add_up "Ivan" exampleUtil ivanMigrated
           (Migration.mkReport true (Some 2%nat) (Some 0%nat) None
              "Successfully migrated 2 badges") 2);
    vm_compute; reflexivity.
Defined.

(** X15: a migration that reports counts has logged the user in.  The
    session marker is the trimmed username afterwards, whoever was logged
    in before. *)
Theorem migrateUserData_opens_session (username : string) (d : DataMigrationUtil.t)
    (w : World) (rep : Migration.Report) (m : nat) :
  fst (Migration.migrateUserData username (d, w)) = Ret rep →
  Migration.migratedCount rep = Some m →
  session_marker (snd (state_after (Migration.migrateUserData username (d, w))))
  = Some (trim username).
Proof.
  intros Hrun Hm.
  destruct (migrateUserData_counted username d w rep m Hrun Hm)
    as (record & m0 & f & rows & _ & _ & _ & _ & Hmarker & _).
  exact Hmarker.
Qed.

Lemma migrateUserData_opens_session_witness :
  session_marker
    (snd (state_after
            (Migration.migrateUserData "Ivan"
               (exampleUtil,
                set_sessionStorage (insert "lumi_current_user" "Maria") ivanMigrated))))
  = Some (trim "Ivan").
Proof.
  apply (migrateUserData_opens_session "Ivan" exampleUtil
           (set_sessionStorage (insert "lumi_current_user" "Maria") ivanMigrated)
           (Migration.mkReport true (Some 2%nat) (Some 0%nat) None
              "Successfully migrated 2 badges") 2);
    vm_compute; reflexivity.
Defined.

(** X16: every badge that migrateUserData counts as migrated is a new row of
    the service's badges table or a new entry of the user's badges in the
    local store, where the catch block of addBadge put it.  The rows are
    appended to the table, and each has a non-empty emoji: '⭐' where the
    local badge had none. *)
Theorem migrateUserData_rows_or_local_copies (username : string)
    (d : DataMigrationUtil.t) (w : World) (rep : Migration.Report) (m : nat) :
  fst (Migration.migrateUserData username (d, w)) = Ret rep →
  Migration.migratedCount rep = Some m →
  let w' := snd (state_after (Migration.migrateUserData username (d, w))) in
  ∃ rows,
    Remote.badges (remote w') = Remote.badges (remote w) ++ rows
    ∧ Forall (λ row, truthy (Remote.badge_emoji row) = true) rows
    ∧ (length (local_badges username w') + length rows
       = length (local_badges username w) + m)%nat.
Proof.
  intros Hrun Hm.
  destruct (migrateUserData_counted username d w rep m Hrun Hm)
    as (record & m0 & f & rows & _ & -> & _ & _ & _ & Hrows & Hall & _ & Hlocal).
  cbn in Hm. injection Hm as ->.
  exists rows. auto.
Qed.

Lemma migrateUserData_rows_or_local_copies_witness :
  let w' := snd (state_after (Migration.migrateUserData "Ana"
                                (exampleUtil, rejecting anaWorld))) in
  ∃ rows,
    Remote.badges (remote w') = Remote.badges (remote (rejecting anaWorld)) ++ rows
    ∧ Forall (λ row, truthy (Remote.badge_emoji row) = true) rows
    ∧ (length (local_badges "Ana" w') + length rows
       = length (local_badges "Ana" (rejecting anaWorld)) + 1)%nat.
Proof.
  apply (migrateUserData_rows_or_local_copies "Ana" exampleUtil (rejecting anaWorld)
           (Migration.mkReport true (Some 1%nat) (Some 0%nat) None
              "Successfully migrated 1 badges") 1);
    vm_compute; reflexivity.
Defined.

(** *** Reading twice *)

(** X17: a read of the badges that the service served is answered from the
    cache for the next TTL, for a username that is not inherited.  A
    second getBadges for the user, at a time less
    than the TTL after the first, returns the same list, sends no request
    and changes nothing, also when a row was added to the service's table in
    between. *)
Theorem getBadges_second_read_from_cache (sb : SupabaseStorageModel.t) (w : World)
    (username uid : string) (t : Z) (row : Remote.BadgeRow) :
  inherited_name username = false →
  cached_badges sb w username = None →
  truthy_opt (cached_id sb w username) = false →
  SupabaseStorageModel.client sb = true →
  Remote.faults (remote w) = [] →
  Remote.find_user username (remote w) = [Remote.mkUserRow uid username] →
  truthy uid = true →
  clock w ≠ 0 →
  t - clock w < cacheTimeout (SupabaseStorageModel.config sb) →
  let first := SupabaseStorageModel.getBadges username (sb, w) in
  let later := at_time t (elsewhere_insert row (state_after first)) in
  fst first = Ret (remote_badges uid w)
  ∧ SupabaseStorageModel.getBadges username later = (Ret (remote_badges uid w), later).
Proof.
  intros _ Hmiss Hid Hclient Hfaults Hfind Huid Hclock Httl.
  destruct (getBadges_reads_through sb w username uid Hmiss Hid Hclient Hfaults Hfind Huid)
    as (sb' & w' & Hrun & _ & Hsame & ->).
  cbn zeta. rewrite Hrun. unfold state_after, at_time, elsewhere_insert. cbn [fst snd].
  split; [reflexivity|].
  apply getBadges_hit.
  unfold cached_badges, cache_valid, with_cached_badges, with_cached_id. cbn.
  destruct (clock w =? 0) eqn:Hzero; [apply Z.eqb_eq in Hzero; contradiction|].
  rewrite (proj2 (Z.ltb_lt _ _) Httl). cbn. rewrite lookup_insert_eq. reflexivity.
Qed.

Lemma getBadges_second_read_from_cache_witness :
  let first := SupabaseStorageModel.getBadges "Ivan" (remoteModel, ivanWorld) in
  let later :=
    at_time 2000
      (elsewhere_insert (Remote.mkBadgeRow "id-1" "Comet" "☄" 1500) (state_after first)) in
  fst first = Ret (remote_badges "id-1" ivanWorld)
  ∧ SupabaseStorageModel.getBadges "Ivan" later
    = (Ret (remote_badges "id-1" ivanWorld), later).
Proof.
  apply (getBadges_second_read_from_cache remoteModel ivanWorld "Ivan" "id-1" 2000
           (Remote.mkBadgeRow "id-1" "Comet" "☄" 1500));
    vm_compute; try reflexivity; discriminate.
Defined.

(** X18: getBadgeCount of the facade is the length of what getBadges of the
    facade returns: from any state both take the same route, fail alike and
    leave the same state. *)
Theorem getBadgeCount_is_length_of_getBadges (o : UserStorageModel.t) (w : World)
    (username : string) :
  UserStorageModel.getBadgeCount username (o, w)
  = match UserStorageModel.getBadges username (o, w) with
    | (Ret badges, s') => (Ret (length badges), s')
    | (Throw e, s') => (Throw e, s')
    end.
Proof.
  destruct (routes_remote o w) eqn:Hroute.
  - destruct (routes_remote_inv o w Hroute) as (sb & -> & _ & _).
    rewrite (facade_getBadges_remote sb w username Hroute).
    unfold UserStorageModel.getBadgeCount.
    unfold bind at 1. rewrite useLocalOnly_run.
    unfold bind at 1, this at 1. cbn [fst snd].
    unfold routes_remote in Hroute. rewrite Hroute.
    unfold UserStorageModel.onSupabase, bind at 1, this at 1, call.
    cbn [fst snd UserStorageModel.supabaseStorage].
    unfold SupabaseStorageModel.getBadgeCount, bind, ret, through_facade.
    cbn [fst snd].
    destruct (SupabaseStorageModel.getBadges username (sb, w)) as [[l|e] [sb' w']];
      reflexivity.
  - rewrite (facade_getBadgeCount_local o w username Hroute),
      (facade_getBadges_local o w username Hroute).
    destruct (null_users w); reflexivity.
Qed.

(** *** The service's function get_or_create_user *)

(** X19: get_or_create_user is idempotent.  When a call returns an id, a
    second call with the same argument returns the same id and adds no
    row to the users table. *)
Theorem get_or_create_user_idempotent (p_username : string) (r : Remote.State)
    (uid : string) :
  Remote.data (fst (Remote.serve_getOrCreateUser p_username r)) = Some uid →
  let r1 := snd (Remote.serve_getOrCreateUser p_username r) in
  Remote.serve_getOrCreateUser p_username r1 = (Remote.ok uid, r1).
Proof.
  unfold Remote.serve_getOrCreateUser.
  set (t := Remote.pg_trim p_username).
  destruct (String.eqb t "") eqn:Hempty; [discriminate|].
  destruct (50 <? char_length t)%nat eqn:Hlong; [discriminate|].
  destruct (Remote.find_user t r) as [|u rest] eqn:Hfind.
  - destruct (Remote.has_space t) eqn:Hspace; [discriminate|].
    cbn [fst snd Remote.data Remote.ok]. intros [= <-].
    unfold Remote.find_user in *. cbn [Remote.users].
    rewrite List.filter_app, Hfind. cbn. rewrite String.eqb_refl. reflexivity.
  - cbn [fst snd Remote.data Remote.ok]. intros [= <-].
    rewrite Hfind. reflexivity.
Qed.

Lemma get_or_create_user_idempotent_witness :
  let r1 := snd (Remote.serve_getOrCreateUser "  Nadia " emptyRemote) in
  Remote.serve_getOrCreateUser "  Nadia " r1 = (Remote.ok "id-0", r1).
Proof.
  apply (get_or_create_user_idempotent "  Nadia " emptyRemote "id-0").
  vm_compute. reflexivity.
Defined.

(** *** The badge list on the screen *)

Lemma handleStarKey_local (c : AppController.t) (w : World) (u : string) :
  routes_remote (AppController.userStorage c) w = false →
  null_users w = false →
  session_marker w = Some u →
  truthy u = true →
  AppController.handleStarKey (c, w)
  = (Ret tt, (after_star (local_badges u w) c, after_parse w)).
Proof.
  intros Hroute Hnull Hmarker Htruthy.
  destruct c as [loc us v page visible].
  unfold AppController.handleStarKey.
  unfold bind at 1. unfold AppController.onUserStorage at 1, bind at 1, this at 1, call at 1.
  unfold UserStorageModel.getCurrentUser, sessionStorage_getItem, world.
  cbn [fst snd AppController.userStorage AppController.localization AppController.view
       AppController.badgesPage AppController.badgesVisible].
  unfold session_marker in Hmarker. rewrite Hmarker, Htruthy. cbn [negb].
  unfold bind at 1. unfold AppController.onUserStorage at 1, bind at 1, this at 1, call at 1.
  cbn [fst snd AppController.userStorage AppController.localization AppController.view
       AppController.badgesPage AppController.badgesVisible].
  rewrite (facade_getBadges_local us w u Hroute), Hnull.
  unfold bind at 1, this at 1.
  cbn [fst snd AppController.userStorage AppController.localization AppController.view
       AppController.badgesPage AppController.badgesVisible].
  unfold after_star, shown, closed.
  cbn [fst snd AppController.userStorage AppController.localization AppController.view
       AppController.badgesPage AppController.badgesVisible].
  destruct visible; cbn [negb].
  - unfold bind at 1, AppController.set_badges at 1, set_this at 1.
    cbn [fst snd AppController.userStorage AppController.localization AppController.view
         AppController.badgesPage AppController.badgesVisible].
    destruct (page + 1 >? _).
    + unfold bind, AppController.set_badges, set_this, AppController.onView, this, call,
        AppView.hideMessage.
      cbn. reflexivity.
    + unfold AppController.onView, bind, this, call, AppView.showBadgesMessage, set_this.
      cbn. reflexivity.
  - unfold bind, AppController.set_badges, set_this, AppController.onView, this, call,
      AppView.showBadgesMessage.
    cbn. reflexivity.
Qed.

Lemma after_star_userStorage (badges : list Badge) (c : AppController.t) :
  AppController.userStorage (after_star badges c) = AppController.userStorage c.
Proof.
  unfold after_star, shown, closed.
  destruct (negb _); [reflexivity|]. destruct (_ >? _); reflexivity.
Qed.

Lemma press_star_local (u : string) (k : nat) :
  ∀ (c : AppController.t) (w : World),
  routes_remote (AppController.userStorage c) w = false →
  null_users w = false →
  session_marker w = Some u →
  truthy u = true →
  press_star k (c, w)
  = (Ret tt, (Nat.iter k (after_star (local_badges u w)) c, Nat.iter k after_parse w)).
Proof.
  induction k as [|k IH]; intros c w Hroute Hnull Hmarker Htruthy; [reflexivity|].
  cbn [press_star]. unfold bind.
  rewrite (handleStarKey_local c w u Hroute Hnull Hmarker Htruthy).
  rewrite IH.
  - unfold local_badges. rewrite stored_users_after_parse.
    rewrite !Nat.iter_succ_r. reflexivity.
  - rewrite after_star_userStorage, routes_remote_after_parse. exact Hroute.
  - rewrite null_users_after_parse. exact Hnull.
  - unfold session_marker in *. destruct (after_parse_frame w) as (-> & _). exact Hmarker.
  - exact Htruthy.
Qed.

Lemma totalPages_of_bounds (n : nat) :
  1 ≤ AppController.totalPages_of (Z.of_nat n)
  ∧ Z.of_nat n ≤ 5 * AppController.totalPages_of (Z.of_nat n)
  ∧ (n ≠ 0%nat → 5 * (AppController.totalPages_of (Z.of_nat n) - 1) < Z.of_nat n).
Proof.
  unfold AppController.totalPages_of, Math_ceil_div.
  pose proof (Z.div_mod (- Z.of_nat n) 5 ltac:(lia)) as Hdiv.
  pose proof (Z.mod_pos_bound (- Z.of_nat n) 5 ltac:(lia)) as Hmod.
  destruct (- (- Z.of_nat n / 5) =? 0) eqn:Hzero.
  - apply Z.eqb_eq in Hzero. lia.
  - apply Z.eqb_neq in Hzero. lia.
Qed.

Lemma shown_shown (c : AppController.t) (badges : list Badge) (p q : Z) :
  shown (shown c badges p) badges q = shown c badges q.
Proof. reflexivity. Qed.

Lemma iter_after_star_shown (badges : list Badge) (c : AppController.t) (k : nat) :
  AppController.badgesVisible c = false →
  (1 <= k)%nat →
  Z.of_nat k ≤ AppController.totalPages_of (Z.of_nat (length badges)) →
  Nat.iter k (after_star badges) c = shown c badges (Z.of_nat k).
Proof.
  intros Hhidden. induction k as [|k IH]; intros Hk Htotal; [lia|].
  rewrite Nat.iter_succ. destruct k as [|k].
  - change (Nat.iter 0 (after_star badges) c) with c.
    unfold after_star. rewrite Hhidden. reflexivity.
  - rewrite IH by lia. unfold after_star at 1.
    cbn [shown AppController.badgesVisible AppController.badgesPage negb].
    destruct (_ >? _) eqn:Hgt.
    + apply Z.gtb_lt in Hgt. lia.
    + rewrite shown_shown. f_equal. lia.
Qed.

(** X20: the star key pages through the badges and then closes the list.
    For a logged-in user on the local path, with the list closed: the k-th
    press, for k from 1 to the number of pages, shows page k of the user's
    badges; the press after the last page hides the message and sets the
    page back to 0. *)
Theorem star_key_pages_through (c : AppController.t) (w : World) (u : string)
    (k : nat) :
  routes_remote (AppController.userStorage c) w = false →
  null_users w = false →
  session_marker w = Some u →
  truthy u = true →
  AppController.badgesVisible c = false →
  let badges := local_badges u w in
  let totalPages := AppController.totalPages_of (Z.of_nat (length badges)) in
  ∃ c' w',
    press_star k (c, w) = (Ret tt, (c', w'))
    ∧ remote w' = remote w
    ∧ ((1 <= k)%nat → Z.of_nat k ≤ totalPages → c' = shown c badges (Z.of_nat k))
    ∧ (Z.of_nat k = totalPages + 1 →
       AppController.badgesVisible c' = false
       ∧ AppController.badgesPage c' = 0
       ∧ AppView.terminalMessage_show (AppController.view c') = false
       ∧ AppView.messageVisible (AppController.view c') = false).
Proof.
  intros Hroute Hnull Hmarker Htruthy Hhidden badges totalPages.
  rewrite (press_star_local u k c w Hroute Hnull Hmarker Htruthy).
  fold badges. eexists _, _. split; [reflexivity|]. split; [|split].
  - clear. induction k as [|k IH]; [reflexivity|].
    rewrite Nat.iter_succ.
    destruct (after_parse_frame (Nat.iter k after_parse w)) as (_ & -> & _).
    exact IH.
  - intros Hk Htotal. apply iter_after_star_shown; assumption.
  - intros Hlast.
    destruct (totalPages_of_bounds (length badges)) as (Hone & _).
    fold totalPages in Hone.
    destruct k as [|k]; [lia|]. rewrite Nat.iter_succ.
    rewrite (iter_after_star_shown badges c k Hhidden) by (fold totalPages; lia).
    unfold after_star.
    cbn [shown AppController.badgesVisible AppController.badgesPage negb].
    fold totalPages.
    destruct (_ >? _) eqn:Hgt; [|rewrite Z.gtb_ltb in Hgt; apply Z.ltb_ge in Hgt; lia].
    unfold closed, AppView.hidden. cbn. auto.
Qed.

Lemma star_key_pages_through_witness :
  let badges := local_badges "Ana" anaSession in
  let totalPages := AppController.totalPages_of (Z.of_nat (length badges)) in
  ∃ c' w',
    press_star 2 (exampleController, anaSession) = (Ret tt, (c', w'))
    ∧ remote w' = remote anaSession
    ∧ ((1 <= 2)%nat → Z.of_nat 2 ≤ totalPages →
       c' = shown exampleController badges (Z.of_nat 2))
    ∧ (Z.of_nat 2 = totalPages + 1 →
       AppController.badgesVisible c' = false
       ∧ AppController.badgesPage c' = 0
       ∧ AppView.terminalMessage_show (AppController.view c') = false
       ∧ AppView.messageVisible (AppController.view c') = false).
Proof.
  apply (star_key_pages_through exampleController anaSession "Ana" 2);
    vm_compute; reflexivity.
Defined.

Lemma pageBadges_take_drop {A} (badges : list A) (p : nat) :
  (1 <= p)%nat →
  AppView.pageBadges badges (Z.of_nat p) (Z.of_nat (length badges))
  = take 5 (drop (5 * (p - 1)) badges).
Proof.
  intros Hp.
  unfold AppView.pageBadges, slice, AppView.endIdx_of, AppView.startIdx_of, relative_index.
  set (n := Z.of_nat (length badges)).
  set (start := (Z.of_nat p - 1) * 5).
  assert (Hstart : Z.to_nat start = (5 * (p - 1))%nat) by (unfold start; lia).
  destruct (start <? 0) eqn:Hneg; [apply Z.ltb_lt in Hneg; unfold start in Hneg; lia|].
  destruct (Z.min (start + 5) n <? 0) eqn:Hneg2;
    [apply Z.ltb_lt in Hneg2; unfold start, n in Hneg2; lia|].
  rewrite <- Hstart.
  destruct (Z.le_gt_cases start n) as [Hin | Hout].
  - rewrite (Z.min_l start n) by exact Hin.
    destruct (Z.le_gt_cases (start + 5) n) as [Hfull | Hpart].
    + replace (Z.min (Z.min (start + 5) n) n - start) with 5 by lia. reflexivity.
    + rewrite (Z.min_r (start + 5) n), Z.min_id by lia.
      rewrite !take_ge; [reflexivity | |]; rewrite length_drop; unfold n in *; lia.
  - rewrite (Z.min_r start n), (Z.min_r (start + 5) n), Z.min_id by lia.
    rewrite Z.sub_diag. cbn [Z.to_nat take].
    rewrite (drop_ge badges (Z.to_nat start)) by (unfold n in *; lia).
    rewrite take_0. reflexivity.
Qed.

Lemma concat_pages {A} (badges : list A) (pages : nat) :
  concat (map (λ p, take 5 (drop (5 * (p - 1)) badges)) (seq 1 pages))
  = take (5 * pages) badges.
Proof.
  induction pages as [|pages IH]; [reflexivity|].
  rewrite seq_S, map_app, concat_app, IH. cbn [map concat]. rewrite app_nil_r.
  replace (5 * (1 + pages - 1))%nat with (5 * pages)%nat by lia.
  rewrite take_take_drop. f_equal. lia.
Qed.

(** X21: the pages that the star key shows partition the badges.  With
    the number of pages that handleStarKey computes, the slices that
    showBadgesMessage takes for the pages 1, 2, ... up to that number, one
    after the other, are the list of badges: each badge is on one page, in
    order.  A page has at most five badges, and when there are badges none
    of these pages is empty. *)
Theorem pages_partition_badges {A} (badges : list A) :
  let badgeCount := Z.of_nat (length badges) in
  let totalPages := AppController.totalPages_of badgeCount in
  concat (map (λ p : nat, AppView.pageBadges badges (Z.of_nat p) badgeCount)
              (seq 1 (Z.to_nat totalPages)))
  = badges
  ∧ (∀ p : nat, (1 <= p)%nat →
       (length (AppView.pageBadges badges (Z.of_nat p) badgeCount) <= 5)%nat)
  ∧ (badges ≠ [] →
     ∀ p : nat, (1 <= p)%nat → Z.of_nat p ≤ totalPages →
       AppView.pageBadges badges (Z.of_nat p) badgeCount ≠ []).
Proof.
  intros badgeCount totalPages.
  destruct (totalPages_of_bounds (length badges)) as (Hone & Hcover & Hlast).
  fold badgeCount totalPages in Hone, Hcover, Hlast.
  split; [|split].
  - rewrite (map_ext_in _ (λ p, take 5 (drop (5 * (p - 1)) badges))).
    + rewrite concat_pages. apply take_ge. unfold badgeCount in Hcover. lia.
    + intros p Hp. apply in_seq in Hp. apply pageBadges_take_drop. lia.
  - intros p Hp. unfold badgeCount. rewrite pageBadges_take_drop by exact Hp.
    rewrite length_take. lia.
  - intros Hsome p Hp Htotal. unfold badgeCount. rewrite pageBadges_take_drop by exact Hp.
    assert (Hn : length badges ≠ 0%nat) by (destruct badges; [congruence | discriminate]).
    specialize (Hlast Hn).
    intros Hempty. apply (f_equal length) in Hempty.
    rewrite length_take, length_drop in Hempty. cbn [length] in Hempty.
    unfold badgeCount in Hlast. lia.
Qed.

(** X22: without a logged-in user the star key does nothing.  When the
    session marker is absent or empty, handleStarKey returns at once: the
    controller, the view and the world are as before, so nothing is read
    and no request is sent. *)
Theorem handleStarKey_without_user (c : AppController.t) (w : World) :
  truthy_opt (session_marker w) = false →
  AppController.handleStarKey (c, w) = (Ret tt, (c, w)).
Proof.
  intros Hnone. destruct c as [loc us v page visible].
  unfold AppController.handleStarKey.
  unfold bind at 1. unfold AppController.onUserStorage at 1, bind at 1, this at 1, call at 1.
  unfold UserStorageModel.getCurrentUser, sessionStorage_getItem, world.
  cbn [fst snd AppController.userStorage AppController.localization AppController.view
       AppController.badgesPage AppController.badgesVisible].
  unfold session_marker in Hnone.
  destruct (sessionStorage w !! "lumi_current_user") as [u|]; [|reflexivity].
  cbn [truthy_opt] in Hnone. rewrite Hnone. reflexivity.
Qed.

Lemma handleStarKey_without_user_witness :
  AppController.handleStarKey (exampleController, anaWorld)
  = (Ret tt, (exampleController, anaWorld)).
Proof.
  apply (handleStarKey_without_user exampleController anaWorld).
  reflexivity.
Defined.

(** X23: saveBadge without a logged-in user stores nothing and returns
    '⭐'. *)
Theorem saveBadge_without_user (c : AppController.t) (w : World)
    (badgeMessage : string) :
  truthy_opt (session_marker w) = false →
  AppController.saveBadge badgeMessage (c, w) = (Ret (Some "⭐"), (c, w)).
Proof.
  intros Hnone. destruct c as [loc us v page visible].
  unfold AppController.saveBadge.
  unfold bind at 1. unfold AppController.onUserStorage at 1, bind at 1, this at 1, call at 1.
  unfold UserStorageModel.getCurrentUser, sessionStorage_getItem, world.
  cbn [fst snd AppController.userStorage AppController.localization AppController.view
       AppController.badgesPage AppController.badgesVisible].
  unfold bind at 1, this at 1. cbn [fst snd].
  unfold session_marker in Hnone.
  destruct (sessionStorage w !! "lumi_current_user") as [u|]; [|reflexivity].
  cbn [truthy_opt] in Hnone. rewrite Hnone. reflexivity.
Qed.

Lemma saveBadge_without_user_witness :
  AppController.saveBadge "Fox badge" (exampleController, anaWorld)
  = (Ret (Some "⭐"), (exampleController, anaWorld)).
Proof.
  apply (saveBadge_without_user exampleController anaWorld "Fox badge").
  reflexivity.
Defined.

(** X24: saveBadge for a logged-in user on the local path, the user having
    a record.  It returns the emoji that the localization gives for the
    badge, whether or not the badge was saved.  With room in the local
    store the badge is appended to the user's badges, under the message as
    its name and with the empty string where the localization gave no
    emoji; with a full store the badges are as before. *)
Theorem saveBadge_local (c : AppController.t) (w : World) (u badgeMessage : string)
    (record : UserRecord.t) :
  routes_remote (AppController.userStorage c) w = false →
  session_marker w = Some u →
  truthy u = true →
  stored_users w !! u = Some record →
  let badgeEmoji :=
    LocalizationModel.getBadgeEmoji (AppController.localization c)
      (LocalizationModel.extractAnimalFromBadge (AppController.localization c)
         badgeMessage) in
  ∃ w',
    AppController.saveBadge badgeMessage (c, w) = (Ret badgeEmoji, (c, w'))
    ∧ local_badges u w'
      = if quotaExceeded w then local_badges u w
        else local_badges u w
             ++ [mkBadge badgeMessage (default "" badgeEmoji) (At (clock w))].
Proof.
  intros Hroute Hmarker Htruthy Hrecord badgeEmoji.
  destruct c as [loc us v page visible].
  unfold AppController.saveBadge.
  unfold bind at 1. unfold AppController.onUserStorage at 1, bind at 1, this at 1, call at 1.
  unfold UserStorageModel.getCurrentUser, sessionStorage_getItem, world.
  cbn [fst snd AppController.userStorage AppController.localization AppController.view
       AppController.badgesPage AppController.badgesVisible] in *.
  unfold session_marker in Hmarker. rewrite Hmarker.
  unfold bind at 1, this at 1. cbn [fst snd]. rewrite Htruthy.
  unfold bind at 1. unfold AppController.onUserStorage at 1, bind at 1, this at 1, call at 1.
  cbn [fst snd AppController.userStorage AppController.localization AppController.view
       AppController.badgesPage AppController.badgesVisible].
  fold badgeEmoji.
  rewrite (facade_addBadge_local us w u badgeMessage badgeEmoji Hroute).
  set (b := mkBadge badgeMessage (default "" badgeEmoji) (At (clock w))).
  pose proof (local_addBadge_true u b w) as Htrue.
  revert Htrue. unfold local_addBadge_outcome.
  rewrite (stored_users_not_null w u record Hrecord), Hrecord.
  unfold local_save. destruct (after_parse_stores w) as (_ & Hl & -> & _).
  destruct (quotaExceeded w); cbn [fst snd]; intros Htrue; unfold ret.
  - eexists. split; [reflexivity|]. apply local_badges_same. cbn. exact Hl.
  - eexists. split; [reflexivity|]. apply Htrue. reflexivity.
Qed.

Lemma saveBadge_local_witness :
  let badgeEmoji :=
    LocalizationModel.getBadgeEmoji (AppController.localization exampleController)
      (LocalizationModel.extractAnimalFromBadge
         (AppController.localization exampleController) "Fox badge") in
  ∃ w',
    AppController.saveBadge "Fox badge" (exampleController, anaSession)
    = (Ret badgeEmoji, (exampleController, w'))
    ∧ local_badges "Ana" w'
      = if quotaExceeded anaSession then local_badges "Ana" anaSession
        else local_badges "Ana" anaSession
             ++ [mkBadge "Fox badge" (default "" badgeEmoji) (At (clock anaSession))].
Proof.
  apply (saveBadge_local exampleController anaSession "Ana" "Fox badge" anaRecord);
    vm_compute; reflexivity.
Defined.

Lemma request_reply {D} (c : Remote.Call)
    (serve : Remote.State → Remote.Reply D * Remote.State) (r : Remote.State)
    (rep : Remote.Reply D) (r' : Remote.State) :
  (∀ r1, Remote.error (fst (serve r1)) = None → is_Some (Remote.data (fst (serve r1)))) →
  Remote.request c serve r = (Ret rep, r') →
  Remote.error rep = None → is_Some (Remote.data rep).
Proof.
  intros Hserve. unfold Remote.request.
  destruct (Remote.receive c r) as [[| |] r1].
  - specialize (Hserve r1). destruct (serve r1) as [rep0 r2]. cbn [fst] in Hserve.
    intros [= <- _]. exact Hserve.
  - intros [= <- _]. discriminate.
  - discriminate.
Qed.

Lemma signIn_reply (em pw : string) (r : Remote.State) (rep : Remote.Reply string)
    (r' : Remote.State) :
  Remote.signInWithPassword em pw r = (Ret rep, r') →
  Remote.error rep = None → is_Some (Remote.data rep).
Proof.
  apply request_reply. intros r1. unfold Remote.serve_signIn.
  destruct (Remote.find_account em r1); [destruct (String.eqb _ _)|]; cbn;
    first [discriminate | eexists; reflexivity].
Qed.

Lemma signUp_reply (em pw uname : string) (r : Remote.State) (rep : Remote.Reply string)
    (r' : Remote.State) :
  Remote.signUp em pw uname r = (Ret rep, r') →
  Remote.error rep = None → is_Some (Remote.data rep).
Proof.
  apply request_reply. intros r1. unfold Remote.serve_signUp.
  destruct (Remote.find_account em r1); cbn;
    first [discriminate | eexists; reflexivity].
Qed.

(** The exit without an auth user is not taken: a reply of the auth service
    has an error or a user. *)
Lemma supabase_exit_has_auth_user (username : string) (password : option string)
    (sb : SupabaseStorageModel.t) (w : World) :
  fst (SupabaseStorageModel.setCurrentUser_exit (Some username) password (sb, w))
  ≠ Ret NoAuthUser.
Proof.
  unfold SupabaseStorageModel.setCurrentUser_exit, SupabaseStorageModel.fallbackSession,
    SupabaseStorageModel.client_request.
  run.
  split_cases; cbn; try discriminate.
  all: intros _.
  all: repeat match goal with
       | H : Remote.signInWithPassword _ _ _ = (Ret ?a, _), E : Remote.error ?a = None |- _ =>
           apply signIn_reply in H; [|exact E]
       | H : Remote.signUp _ _ _ _ = (Ret ?a, _), E : Remote.error ?a = None |- _ =>
           apply signUp_reply in H; [|exact E]
       end.
  all: match goal with
       | H : is_Some ?x, E : ?x = None |- _ => rewrite E in H; destruct H; discriminate
       end.
Qed.

(** Why setCurrentUser of SupabaseStorageModel returns false. *)
Lemma supabase_exit_reasons (username : string) (password : option string)
    (sb : SupabaseStorageModel.t) (w : World) :
  match fst (SupabaseStorageModel.setCurrentUser_exit (Some username) password (sb, w)) with
  | Ret InvalidUsername => trim username = ""
  | Ret Failed => fallbackToLocalStorage (SupabaseStorageModel.config sb) = false
  | _ => True
  end.
Proof.
  unfold SupabaseStorageModel.setCurrentUser_exit, SupabaseStorageModel.fallbackSession,
    SupabaseStorageModel.client_request.
  run.
  split_cases; cbn; try exact I; try assumption; try reflexivity.
  match goal with
  | H : _ || _ = true |- _ => apply orb_true_iff in H as [H | H]
  end.
  - unfold truthy in *. rewrite negb_involutive in *.
    match goal with
    | H : String.eqb _ _ = true |- _ => apply String.eqb_eq in H; rewrite H
    end.
    reflexivity.
  - apply String.eqb_eq. assumption.
Qed.

(** X25: with the fallback switched on, or without a remote backend, a
    login is refused in one case only.  Let the username not be blank, and
    the local store be of the persisted layout with no user named
    hasOwnProperty.  Then setCurrentUser of the facade returns, whatever the
    password, and it returns false only where the auth service answered the
    sign-in or the sign-up with neither an error nor a user (the return
    after the test of authResult.data.user), which happens on the password
    path only.  In every other case it returns true and the session marker
    is the trimmed username; where it came through a catch block or the
    local path, as it does when the service refuses the credentials, the
    session is marked local-only. *)
Theorem login_refused_only_without_auth_user (username : string)
    (password : option string) (o : UserStorageModel.t) (w : World) :
  trim username ≠ "" →
  (∀ sb, UserStorageModel.supabaseStorage o = Some sb →
         fallbackToLocalStorage (SupabaseStorageModel.config sb) = true) →
  persisted_layout w = true →
  hasOwnProperty_inherited w →
  ∃ x o' w',
    UserStorageModel.setCurrentUser_exit (Some username) password (o, w)
    = (Ret x, (o', w'))
    ∧ UserStorageModel.setCurrentUser (Some username) password (o, w)
      = (Ret (returned x), (o', w'))
    ∧ (x = RemoteSession ∨ x = Fallback ∨ x = NoAuthUser)
    ∧ (returned x = true → session_marker w' = Some (trim username))
    ∧ (x = Fallback → local_only w' = true)
    ∧ (x = NoAuthUser → logs_in_locally o password = false).
Proof.
  intros Htrim Hfallback Hlayout Hown.
  unfold hasOwnProperty_inherited in Hown.
  pose proof (persisted_layout_not_null w Hlayout) as Hnull.
  rewrite facade_setCurrentUser_of_exit.
  destruct (logs_in_locally o password) eqn:Hlocal.
  - rewrite (facade_setCurrentUser_local o w username password Htrim Hlocal).
    destruct (local_setCurrentUser_session (trim username) w) as [Hsess _].
    revert Hsess. unfold local_setCurrentUser_outcome.
    destruct (local_session_users (trim username) w) as [-> ->].
    destruct (local_session_frame (trim username) w) as (_ & _ & _ & _ & Hmarker & Hflag).
    rewrite Hnull, (hasOwnProperty_test _ Hown).
    assert (Hdone : ∀ w',
              sessionStorage w' = sessionStorage (local_session (trim username) w) →
              ∃ x o' w0,
                (Ret Fallback, (o, w')) = (Ret x, (o', w0))
                ∧ (Ret (returned Fallback), (o, w')) = (Ret (returned x), (o', w0))
                ∧ (x = RemoteSession ∨ x = Fallback ∨ x = NoAuthUser)
                ∧ (returned x = true → session_marker w0 = Some (trim username))
                ∧ (x = Fallback → local_only w0 = true)
                ∧ (x = NoAuthUser → true = false)).
    { intros w' Hs. exists Fallback, o, w'.
      split; [reflexivity|]. split; [reflexivity|]. split; [auto|].
      unfold session_marker, local_only in *. rewrite Hs.
      split; [intros _; exact Hmarker|]. split; [intros _; exact Hflag | discriminate]. }
    destruct (bool_decide _); cbn [fst snd]; intros Hsess; apply Hdone; exact Hsess.
  - assert (Hb : negb (truthy username) || String.eqb (trim username) "" = false).
    { apply orb_false_intro.
      - unfold truthy. rewrite negb_involutive. apply String.eqb_neq.
        intros ->. apply Htrim. reflexivity.
      - apply String.eqb_neq. exact Htrim. }
    pose proof Hlocal as Hremote.
    unfold logs_in_locally in Hremote. apply negb_false_iff in Hremote.
    destruct (UserStorageModel.supabaseStorage o) as [sb|] eqn:Hsb.
    2:{ unfold UserStorageModel.remoteAvailable in Hremote. rewrite Hsb in Hremote.
        discriminate Hremote. }
    specialize (Hfallback sb eq_refl).
    pose proof (supabase_exit_reasons (trim username) password sb w) as Hreason.
    destruct (supabase_setCurrentUser_exit_spec (trim username) password sb w)
      as (x & sb' & w' & Hexit & Hsession & _).
    rewrite Hexit in Hreason. cbn beta iota delta [fst snd] in Hreason.
    rewrite trim_trim in Hsession, Hreason.
    assert (Hrun : UserStorageModel.setCurrentUser_exit (Some username) password (o, w)
                   = (Ret x, (UserStorageModel.mk (Some sb'), w'))).
    { unfold UserStorageModel.setCurrentUser_exit.
      rewrite Hb. unfold bind at 1, this at 1. cbn [fst snd]. rewrite Hremote.
      unfold UserStorageModel.onSupabase, bind, this, call. cbn [fst snd].
      rewrite Hsb. cbn beta iota delta [fst snd]. rewrite Hexit. reflexivity. }
    rewrite Hrun.
    exists x, (UserStorageModel.mk (Some sb')), w'.
    split; [reflexivity|]. split; [reflexivity|].
    destruct x; cbn in Hsession, Hreason |- *.
    + contradiction.
    + split; [auto|]. split; [intros _; apply Hsession|].
      split; [discriminate | discriminate].
    + split; [auto|]. split; [discriminate|]. split; [discriminate | reflexivity].
    + split; [auto|]. split; [intros _; apply Hsession|].
      split; [intros _; apply Hsession | discriminate].
    + congruence.
Qed.

Lemma login_refused_only_without_auth_user_witness :
  let w := snd (state_after (UserStorageModel.setCurrentUser (Some "Nadia") (Some "secret")
                               (remoteFacade, emptyWorld))) in
  fst (UserStorageModel.setCurrentUser_exit (Some "Nadia") (Some "wrong") (remoteFacade, w))
  = Ret Fallback
  ∧ ∃ x o' w',
      UserStorageModel.setCurrentUser_exit (Some "Nadia") (Some "wrong") (remoteFacade, w)
      = (Ret x, (o', w'))
      ∧ UserStorageModel.setCurrentUser (Some "Nadia") (Some "wrong") (remoteFacade, w)
        = (Ret (returned x), (o', w'))
      ∧ (x = RemoteSession ∨ x = Fallback ∨ x = NoAuthUser)
      ∧ (returned x = true → session_marker w' = Some (trim "Nadia"))
      ∧ (x = Fallback → local_only w' = true)
      ∧ (x = NoAuthUser → logs_in_locally remoteFacade (Some "wrong") = false).
Proof.
  cbv zeta. split; [vm_compute; reflexivity|].
  apply (login_refused_only_without_auth_user "Nadia" (Some "wrong") remoteFacade
           (snd (state_after (UserStorageModel.setCurrentUser (Some "Nadia") (Some "secret")
                                (remoteFacade, emptyWorld))))).
  - vm_compute. discriminate.
  - vm_compute. intros sb [= <-]. reflexivity.
  - vm_compute. reflexivity.
  - vm_compute. reflexivity.
Defined.

(** *** What the reads never do *)

(** X26: getUserId of SupabaseStorageModel never throws.  For a username
    that is not inherited, from any state it returns an id or null, and it
    changes no stored record: localStorage, sessionStorage and the service's
    tables are as before, and so are the configuration and the cached badge
    lists. *)
Theorem getUserId_never_throws (sb : SupabaseStorageModel.t) (w : World)
    (username : string) :
  inherited_name username = false →
  ∃ userId sb' w',
    SupabaseStorageModel.getUserId username (sb, w) = (Ret userId, (sb', w'))
    ∧ same_stores w w'
    ∧ SupabaseStorageModel.config sb' = SupabaseStorageModel.config sb
    ∧ SupabaseStorageModel.badges (SupabaseStorageModel.cache sb')
      = SupabaseStorageModel.badges (SupabaseStorageModel.cache sb).
Proof.
  intros _. rewrite getUserId_run.
  destruct (getUserId_frame sb w username) as (Hsame & Hcfg & _ & Hbadges).
  destruct (getUserId_outcome username sb w) as [userId [sb' w']].
  exists userId, sb', w'. cbn [fst snd] in *. auto.
Qed.

Lemma getUserId_never_throws_witness :
  ∃ userId sb' w',
    SupabaseStorageModel.getUserId "Ivan" (remoteModel, rejecting ivanWorld)
    = (Ret userId, (sb', w'))
    ∧ same_stores (rejecting ivanWorld) w'
    ∧ SupabaseStorageModel.config sb' = SupabaseStorageModel.config remoteModel
    ∧ SupabaseStorageModel.badges (SupabaseStorageModel.cache sb')
      = SupabaseStorageModel.badges (SupabaseStorageModel.cache remoteModel).
Proof.
  apply (getUserId_never_throws remoteModel (rejecting ivanWorld) "Ivan").
  reflexivity.
Defined.

(** X27: getBadges of the facade only reads.  On either route it leaves
    localStorage, sessionStorage, the clock and the service's tables as they
    were.  For a username that is not inherited and a local store of the
    persisted layout it does not throw: it returns a list of badges. *)
Theorem getBadges_only_reads (o : UserStorageModel.t) (w : World) (username : string) :
  same_stores w (snd (state_after (UserStorageModel.getBadges username (o, w))))
  ∧ (inherited_name username = false →
     persisted_layout w = true →
     ∃ badges, fst (UserStorageModel.getBadges username (o, w)) = Ret badges).
Proof.
  destruct (facade_getBadges_spec o w username) as [Hsame Hthrow].
  split; [exact Hsame|]. intros _ Hlayout.
  pose proof (persisted_layout_not_null w Hlayout) as Hnull.
  destruct (UserStorageModel.getBadges username (o, w)) as [[badges|e] s'].
  - exists badges. reflexivity.
  - specialize (Hthrow e eq_refl). congruence.
Qed.

Lemma getBadges_only_reads_witness :
  same_stores ivanWorld
    (snd (state_after (UserStorageModel.getBadges "Ivan" (remoteFacade, ivanWorld))))
  ∧ ∃ badges, fst (UserStorageModel.getBadges "Ivan" (remoteFacade, ivanWorld))
              = Ret badges.
Proof.
  destruct (getBadges_only_reads remoteFacade ivanWorld "Ivan") as [Hsame Hreturns].
  split; [exact Hsame|]. apply Hreturns; reflexivity.
Defined.
